(** * salt-support collector: sectioned archive writer and action engine

    Shallow embedding of [salt/cli/support/collector.py] (Python 2 semantics:
    the module uses the [file] builtin and indexes [dict.keys()]).

    - [SupportDataCollector] becomes the collector part of a [state] record
      threaded through a small state-and-exception monad [M];
    - the tar archive is the list of members appended so far;
    - the console ([MessagesOutput]) is the list of messages emitted so far;
    - the file system is a finite map from paths to what is stored there;
    - the collaborators that live outside the module (execution backend,
      output renderer, YAML dumper, internal-function registry, profile
      loader, clock) are the fields of the [Backend] class;
    - text is a [string] of characters; encoding to bytes is the backend's
      [to_bytes], and [str()] and [format()] never fail on it;
    - logging ([log.debug], the log file set-up) is left out. *)

From Stdlib Require Import ZArith Ascii String List Lia Bool.
From stdpp Require Import base option list strings pretty gmap fin_maps.

Local Open Scope string_scope.
Local Open Scope list_scope.
Set Warnings "-register-all".

(* ------------------------------------------------------------------ *)
(** ** Python values and strings *)

(** Plain data as YAML/JSON give it, plus open file handles ([file]).  A
    [dict] is kept as the list of its items in iteration order. *)
Inductive value : Type :=
  | VNone
  | VBool (b : bool)
  | VInt (z : Z)
  | VStr (s : string)
  | VList (l : list value)
  | VDict (d : list (string * value))
  | VFile (name : string).

(** [isinstance(v, dict)]. *)
Definition is_dict (v : value) : bool :=
  match v with VDict _ => true | _ => false end.

(** Python truthiness, as used by [x or []] and [if x:]. *)
Definition truthy (v : value) : bool :=
  match v with
  | VNone => false
  | VBool b => b
  | VInt z => negb (Z.eqb z 0)
  | VStr s => negb (String.eqb s "")
  | VList l => match l with [] => false | _ => true end
  | VDict d => match d with [] => false | _ => true end
  | VFile _ => true
  end.

(** [d.get(k)] on the item list of a dict. *)
Fixpoint dict_get (k : string) (d : list (string * value)) : option value :=
  match d with
  | [] => None
  | (k', v) :: d' => if String.eqb k k' then Some v else dict_get k d'
  end.

(** [s.split(sep)] for a one-character separator. *)
Fixpoint split (sep : ascii) (s : string) : list string :=
  match s with
  | EmptyString => [EmptyString]
  | String c s' =>
      if Ascii.eqb c sep then EmptyString :: split sep s'
      else match split sep s' with
           | [] => [String c EmptyString]
           | w :: ws => String c w :: ws
           end
  end.

(** [s * n]. *)
Fixpoint str_mul (s : string) (n : nat) : string :=
  match n with
  | O => ""
  | S n' => s +:+ str_mul s n'
  end.

(** The characters of a string, as iterating over it yields them. *)
Fixpoint chars (s : string) : list string :=
  match s with
  | EmptyString => []
  | String c s' => String c EmptyString :: chars s'
  end.

(** [c in s]. *)
Fixpoint contains_char (c : ascii) (s : string) : bool :=
  match s with
  | EmptyString => false
  | String c' s' => Ascii.eqb c' c || contains_char c s'
  end.

Definition dot : ascii := "."%char.
Definition nl : string := String (ascii_of_nat 10) EmptyString.

(** [json.loads(json.dumps(v))]: plain data comes back as it went in, a file
    handle is not serializable ([TypeError], here [None]). *)
Fixpoint json_roundtrip (v : value) : option value :=
  match v with
  | VNone => Some VNone
  | VBool b => Some (VBool b)
  | VInt z => Some (VInt z)
  | VStr s => Some (VStr s)
  | VList l =>
      (fix go (l : list value) : option (list value) :=
         match l with
         | [] => Some []
         | x :: l' =>
             match json_roundtrip x, go l' with
             | Some x', Some l'' => Some (x' :: l'')
             | _, _ => None
             end
         end) l ≫= (λ l', Some (VList l'))
  | VDict d =>
      (fix go (d : list (string * value)) : option (list (string * value)) :=
         match d with
         | [] => Some []
         | (k, x) :: d' =>
             match json_roundtrip x, go d' with
             | Some x', Some d'' => Some ((k, x') :: d'')
             | _, _ => None
             end
         end) d ≫= (λ d', Some (VDict d'))
  | VFile _ => None
  end.

(* ------------------------------------------------------------------ *)
(** ** Exceptions, console, archive, file system *)

Inductive exn : Type :=
  | SaltException (msg : string)
  | AttributeError (msg : string)
  | TypeError (msg : string)
  | IndexError (msg : string)
  | KeyError (msg : string)
  | IOError (msg : string)
  | OSError (msg : string)
  | OtherError (msg : string).

(** [str(ex)]. *)
Definition exn_msg (e : exn) : string :=
  match e with
  | SaltException m | AttributeError m | TypeError m | IndexError m
  | KeyError m | IOError m | OSError m | OtherError m => m
  end.

(** Calls on [MessagesOutput]. *)
Inductive message : Type :=
  | Put (text : string) (indent : nat)
  | Error (text : string)
  | Warning (text : string)
  | Highlight (template : string) (args : list string).

(** A member of the tar archive: a generated text blob, or a physical file
    added under its own path. *)
Inductive member : Type :=
  | TextMember (name : string) (data : list Byte.byte)
  | FileMember (name : string).

Definition is_text_member (m : member) : bool :=
  match m with TextMember _ _ => true | FileMember _ => false end.

(** What a path of the file system holds. *)
Inductive fdata : Type :=
  | Plain
  | Tar (members : list member).

(** The payload of a section entry [{title: ret_data}]. *)
Inductive content : Type :=
  | Text (body : string)
  | File (name : string).

Definition item : Type := string * content.

Definition is_text (it : item) : bool :=
  match it.2 with Text _ => true | File _ => false end.

(** The collector object together with the world it acts on. *)
Record state : Type := mkState {
  archive_path : string;
  arch : option (list member);
  current_section : option (list item);
  current_section_name : option string;
  default_root : string;
  out : list message;
  fs : gmap string fdata;
}.

(** An action as [_get_action] normalises it; [intfunc] is the presence of
    the ['salt.int.intfunc'] key. *)
Record call_conf : Type := mkConf {
  fun_ : string;
  arg : list value;
  kwargs : gmap string value;
  intfunc : bool;
}.

(** How [Caller.call()] ends. *)
Inductive call_result : Type :=
  | Returned (v : value)
  | SystemExit
  | Raised (e : exn).

(* ------------------------------------------------------------------ *)
(** ** The state-and-exception monad *)

Inductive res (A : Type) : Type :=
  | Ok (a : A)
  | Raise (e : exn).
Arguments Ok {A} a.
Arguments Raise {A} e.

Definition M (A : Type) : Type := state → res A * state.

Definition ret {A} (a : A) : M A := λ s, (Ok a, s).
Definition raise {A} (e : exn) : M A := λ s, (Raise e, s).
Definition bind {A B} (m : M A) (k : A → M B) : M B :=
  λ s, match m s with
       | (Ok a, s') => k a s'
       | (Raise e, s') => (Raise e, s')
       end.
(** [try: m except Exception as ex: h(ex)]. *)
Definition try_catch {A} (m : M A) (h : exn → M A) : M A :=
  λ s, match m s with
       | (Ok a, s') => (Ok a, s')
       | (Raise e, s') => h e s'
       end.
(** [try: m except Exception as ex: h(ex) else: k]: what [k] raises is not
    caught here. *)
Definition try_else {A C} (m : M A) (h : exn → M C) (k : A → M C) : M C :=
  λ s, match m s with
       | (Ok a, s') => k a s'
       | (Raise e, s') => h e s'
       end.
Definition get : M state := λ s, (Ok s, s).
Definition modify (f : state → state) : M unit := λ s, (Ok tt, f s).

Notation "x <~ m ;; k" := (bind m (λ x, k))
  (at level 100, m at next level, right associativity).
Notation "m ;;; k" := (bind m (λ _, k))
  (at level 100, right associativity).

(** [for x in l: body(x)]. *)
Fixpoint for_each {A} (l : list A) (body : A → M unit) : M unit :=
  match l with
  | [] => ret tt
  | x :: l' => body x ;;; for_each l' body
  end.

Definition set_arch (a : option (list member)) (s : state) : state :=
  mkState (archive_path s) a (current_section s) (current_section_name s)
          (default_root s) (out s) (fs s).
Definition set_section (c : option (list item)) (n : option string)
    (s : state) : state :=
  mkState (archive_path s) (arch s) c n (default_root s) (out s) (fs s).
Definition set_out (o : list message) (s : state) : state :=
  mkState (archive_path s) (arch s) (current_section s)
          (current_section_name s) (default_root s) o (fs s).
Definition set_fs (f : gmap string fdata) (s : state) : state :=
  mkState (archive_path s) (arch s) (current_section s)
          (current_section_name s) (default_root s) (out s) f.

(** [self.out.<method>(...)]. *)
Definition emit (m : message) : M unit :=
  modify (λ s, set_out (out s ++ [m]) s).

Definition lift {A} (r : res A) : M A :=
  match r with Ok a => ret a | Raise e => raise e end.

(* ------------------------------------------------------------------ *)
(** ** Collaborators outside the module *)

(** What the module imports and calls but does not define. *)
Class Backend : Type := {
  (** [self._get_caller(conf).call()] *)
  caller_call : call_conf → call_result;
  (** [salt.output.try_printout(data, 'table', ...)]; [None] when it raises *)
  try_printout : value → option string;
  (** [yaml.safe_dump(data, default_flow_style=False, indent=4)] *)
  yaml_safe_dump : value → string;
  (** [str(v)] for a [v] that is not a string *)
  py_repr : value → string;
  (** [s.lower()] *)
  str_lower : string → string;
  (** [salt.utils.stringutils.to_bytes] *)
  to_bytes : string → list Byte.byte;
  (** [time.strftime('%Y.%m.%d-%H.%M.%S-snapshot')] *)
  strftime_root : string;
  (** [salt.cli.support.console.MessagesOutput()]: building a console
      changes nothing of the state, but the constructor may raise *)
  messages_output : state → res unit;
  (** [salt.cli.support.get_profile(...)]: categories in iteration order *)
  get_profile : list (string * list value);
  (** the attributes of [salt.cli.support.intfunc], applied to the collector *)
  intfunc_registry : string → option (list value → gmap string value → M value);
}.

(** [str(data)]. *)
Definition py_str `{Backend} (v : value) : string :=
  match v with VStr s => s | _ => py_repr v end.

(** ["{}".format(x)] for an optional string: [None] prints as its name. *)
Definition format_opt (o : option string) : string :=
  match o with Some s => s | None => "None" end.

(* ------------------------------------------------------------------ *)
(** ** SupportDataCollector *)

Section Collector.
Context `{B : Backend}.

(** [MessagesOutput()] as a step. *)
Definition new_console : M unit := λ s, (messages_output s, s).

(** [SupportDataCollector.__init__].  When the console cannot be built the
    constructor raises and the half-built object is dropped. *)
Definition collector_init (name : string) : M unit :=
  modify (λ s, mkState name None None None strftime_root (out s) (fs s));;;
  new_console.

(** [SupportDataCollector.open]: [bz2open(path, 'w')] creates the file. *)
Definition open : M unit :=
  s <~ get;;
  match arch s with
  | Some _ => raise (SaltException "Archive already opened.")
  | None =>
      modify (λ s, set_arch (Some [])
                     (set_fs (<[archive_path s := Tar []]> (fs s)) s))
  end.

(** [self.__arch.add(name, arcname=name)].  [TarFile.add] silently skips
    a name that is the archive itself; otherwise it stats the file, which
    must be there. *)
Definition arch_add (name : string) : M unit :=
  s <~ get;;
  match arch s with
  | None => raise (AttributeError "'NoneType' object has no attribute 'add'")
  | Some ms =>
      if String.eqb name (archive_path s) then ret tt
      else
        match fs s !! name with
        | None => raise (OSError ("No such file or directory: " +:+ name))
        | Some _ => modify (set_arch (Some (ms ++ [FileMember name])))
        end
  end.

(** [self.__arch.addfile(tarinfo, fileobj)]. *)
Definition arch_addfile (name : string) (data : list Byte.byte) : M unit :=
  s <~ get;;
  match arch s with
  | None => raise (AttributeError "'NoneType' object has no attribute 'addfile'")
  | Some ms => modify (set_arch (Some (ms ++ [TextMember name data])))
  end.

(** What the [else] branch of the flush loop writes to the buffer. *)
Definition render_item (title body : string) : list Byte.byte :=
  to_bytes (title +:+ nl)
  ++ to_bytes (str_mul "-" (String.length title) +:+ nl +:+ nl)
  ++ to_bytes body
  ++ to_bytes (nl +:+ nl +:+ nl).

(** The loop of [_flush_content], threading [buff] and [buff._dirty]. *)
Fixpoint flush_items (items : list item) (buff : list Byte.byte)
    (dirty : bool) : M (list Byte.byte * bool) :=
  match items with
  | [] => ret (buff, dirty)
  | (title, File name) :: rest =>
      emit (Put name 4);;;
      arch_add name;;;
      flush_items rest buff dirty
  | (title, Text body) :: rest =>
      flush_items rest (buff ++ render_item title body) true
  end.

(** [SupportDataCollector._flush_content]. *)
Definition _flush_content : M unit :=
  s <~ get;;
  match current_section s with
  | None => ret tt
  | Some items =>
      r <~ flush_items items [] false;;
      if r.2 then
        arch_addfile (default_root s +:+ "/"
                      +:+ format_opt (current_section_name s)) r.1
      else ret tt
  end.

(** [SupportDataCollector.discard_current]. *)
Definition discard_current (name : option string) : M unit :=
  modify (set_section (Some []) name).

(** [SupportDataCollector.add]: a section that is [None] or empty is falsy. *)
Definition add (name : string) : M unit :=
  s <~ get;;
  match current_section s with
  | Some (_ :: _) => _flush_content
  | _ => ret tt
  end;;;
  discard_current (Some name).

(** [SupportDataCollector.close]. *)
Definition close : M unit :=
  s <~ get;;
  match arch s with
  | None => raise (SaltException "Archive already closed")
  | Some _ =>
      _flush_content;;;
      modify (λ s, set_arch None
                (set_fs (<[archive_path s := Tar (default [] (arch s))]> (fs s)) s))
  end.

(** [self.__current_section.append({title: c})]. *)
Definition section_append (title : string) (c : content) : M unit :=
  s <~ get;;
  match current_section s with
  | None =>
      raise (AttributeError "'NoneType' object has no attribute 'append'")
  | Some items =>
      modify (set_section (Some (items ++ [(title, c)]))
                          (current_section_name s))
  end.

(** The first half of [write]: wrap what is not a mapping, try the table
    outputter, fall back to a JSON round trip and a YAML dump. *)
Definition render_data (data : value) : res string :=
  let data :=
    if is_dict data then data
    else VDict [("raw-content", VStr (py_str data))] in
  match try_printout data with
  | Some c => Ok c
  | None =>
      match json_roundtrip data with
      | None => Raise (TypeError "is not JSON serializable")
      | Some (VDict d) =>
          Ok (yaml_safe_dump (default (VDict d) (dict_get "return" d)))
      | Some _ => Raise (AttributeError "object has no attribute 'get'")
      end
  end.

(** [SupportDataCollector.write]. *)
Definition write (title : string) (data : value) : M unit :=
  content <~ lift (render_data data);;
  section_append title (Text content).

(** The builtin [open(path)] for reading; the handle is known by the name
    of its file. *)
Definition py_open (path : value) : M string :=
  match path with
  | VStr p =>
      s <~ get;;
      match fs s !! p with
      | Some _ => ret p
      | None => raise (IOError ("No such file or directory: " +:+ p))
      end
  | _ => raise (TypeError "coercing to Unicode: need string or buffer")
  end.

(** [SupportDataCollector.link]. *)
Definition link (title : string) (path : value) : M unit :=
  name <~ match path with
          | VFile name => ret name
          | _ => py_open path
          end;;
  section_append title (File name).

End Collector.

(* ------------------------------------------------------------------ *)
(** ** SaltSupport *)

(** The options of [self.config] the module reads; [config_dict] is the
    whole mapping, as [collect_internal_data] writes it out. *)
Record config : Type := mkConfig {
  support_archive : string;
  support_archive_force_overwrite : bool;
  support_profile_list : bool;
  support_show_units : bool;
  config_dict : value;
  log_level : string;
}.

(** How [self.parse_args()] ends; [self.config] may or may not be set when
    it fails. *)
Inductive parse_outcome : Type :=
  | Parsed (c : config)
  | ParseExit (code : Z) (c : option config)
  | ParseError (e : exn) (c : option config).

(** The inherited [SaltSupportOptionParser], the profile enumeration and
    the log set-up. *)
Class OptionParser : Type := {
  parse_args : parse_outcome;
  get_profiles : list string;
  find_existing_configs : list string;
  (** [self.setup_logfile_logger()] *)
  setup_logfile_logger : M unit;
  (** [salt.utils.verify.verify_log(self.config)] *)
  verify_log : config → M unit;
}.

(** Modelled from the spec: [salt.defaults.exitcodes] is not part of the
    sources; the spec names success, generic failure and software failure,
    and cleanup runs when the code is non-zero.  The values are the usual
    sysexits ones. *)
Definition EX_OK : Z := 0.
Definition EX_GENERIC : Z := 1.
Definition EX_SOFTWARE : Z := 70.

Definition dq : string := String (ascii_of_nat 34) EmptyString.

(** [for arg in v]. A profile holds plain data; the lines of a file handle
    are not part of the model. *)
Definition iter_value (v : value) : res (list value) :=
  match v with
  | VList l => Ok l
  | VStr s => Ok (VStr <$> chars s)
  | VDict d => Ok ((λ kv, VStr kv.1) <$> d)
  | VFile _ => Raise (OtherError "lines of a file are not modelled")
  | _ => Raise (TypeError "object is not iterable")
  end.

(** [kw.update(d)]. *)
Definition dict_update (kw : gmap string value) (d : list (string * value))
    : gmap string value :=
  foldl (λ m kv, <[kv.1 := kv.2]> m) kw d.

(** The loop of [_get_action] over the [args] list. *)
Fixpoint get_action_args (args : list value) (pos : list value)
    (kw : gmap string value) : list value * gmap string value :=
  match args with
  | [] => (pos, kw)
  | VDict d :: rest => get_action_args rest pos (dict_update kw d)
  | a :: rest => get_action_args rest (pos ++ [a]) kw
  end.

(** [conf.get('salt.int.intfunc')] as [_get_action] sets it. *)
Definition is_internal (name : string) : bool :=
  Nat.eqb (length (split dot name) - 1) 0.

(** [SaltSupport._get_action]. *)
Definition _get_action (action_meta : value) : res (value * call_conf) :=
  match action_meta with
  | VDict [] => Raise (IndexError "list index out of range")
  | VDict ((name, inner) :: _) =>
      match inner with
      | VDict m =>
          let info :=
            default (VStr ("Action for " +:+ name)) (dict_get "info" m) in
          let args :=
            match dict_get "args" m with
            | Some v => if truthy v then v else VList []
            | None => VList []
            end in
          match iter_value args with
          | Ok l =>
              let pk := get_action_args l [] ∅ in
              Ok (info, mkConf name pk.1 pk.2 (is_internal name))
          | Raise e => Raise e
          end
      | _ => Raise (AttributeError "object has no attribute 'get'")
      end
  | _ => Raise (AttributeError "object has no attribute 'keys'")
  end.

Section Support.
Context `{B : Backend} `{P : OptionParser}.

(** [SaltSupport._local_call]. *)
Definition _local_call (conf : call_conf) : M value :=
  match caller_call conf with
  | Returned v => ret v
  | SystemExit =>
      let r := "Data is not available at this moment" in
      emit (Error r);;; ret (VStr r)
  | Raised ex =>
      let r := "Unhandled exception occurred: " +:+ exn_msg ex in
      emit (Error r);;; ret (VStr r)
  end.

(** [SaltSupport._internal_function_call]; the [None] branch is [stub]. *)
Definition _internal_function_call (conf : call_conf) : M value :=
  match intfunc_registry (fun_ conf) with
  | Some f => f (arg conf) (kwargs conf)
  | None =>
      let message := "Function " +:+ fun_ conf +:+ " is not available" in
      emit (Error message);;; ret (VStr message)
  end.

(** The body of the inner loop of [collect_master_data]. *)
Definition collect_action (action : value) : M unit :=
  ic <~ lift (_get_action action);;
  if negb (intfunc ic.2) then
    match ic.1 with
    | VStr info =>
        emit (Put ("Collecting " +:+ str_lower info) 2);;;
        r <~ _local_call ic.2;;
        write info r
    | _ => raise (AttributeError "object has no attribute 'lower'")
    end
  else
    discard_current None;;;
    _ <~ _internal_function_call ic.2;;
    ret tt.

(** The body of the outer loop of [collect_master_data]. *)
Definition collect_category (cat : string * list value) : M unit :=
  emit (Put cat.1 0);;;
  add cat.1;;;
  for_each cat.2 collect_action.

(** [SaltSupport.collect_master_data]. *)
Definition collect_master_data : M unit :=
  for_each get_profile collect_category.

(** [SaltSupport.collect_internal_data]. *)
Definition collect_internal_data (c : config) : M unit :=
  emit (Put "configuration" 0);;;
  add "configuration";;;
  emit (Put "Saving config" 2);;;
  write "General Configuration" (config_dict c);;;
  emit (Put "Saving pillars" 2);;;
  (r <~ _local_call (mkConf "pillar.items" [] ∅ false);;
   write "Active Pillars" r);;;
  emit (Put "highstate" 0);;;
  add "highstate";;;
  emit (Put "Saving highstate" 2);;;
  (r <~ _local_call (mkConf "state.show_highstate" [] ∅ false);;
   write "Rendered highstate" r).

(** [SaltSupport.collect_targets_data]. *)
Definition collect_targets_data : M unit := ret tt.

(** [os.path.exists] and [os.unlink]. *)
Definition path_exists (p : string) (s : state) : bool :=
  bool_decide (is_Some (fs s !! p)).

Definition unlink (p : string) : M unit :=
  modify (λ s, set_fs (delete p (fs s)) s).

(** [SaltSupport._cleanup]; [None] is a parser that never set [config]. *)
Definition _cleanup (c : option config) : M unit :=
  match c with
  | None => ret tt
  | Some c =>
      s <~ get;;
      if negb (String.eqb (support_archive c) "")
         && path_exists (support_archive c) s
      then emit (Warning "Terminated earlier, cleaning up");;;
           unlink (support_archive c)
      else ret tt
  end.

(** [SaltSupport._check_existing_archive_]. *)
Definition _check_existing_archive_ (c : config) : M bool :=
  s <~ get;;
  if path_exists (support_archive c) s then
    if support_archive_force_overwrite c then
      emit (Warning ("Overwriting existing archive: " +:+ support_archive c));;;
      unlink (support_archive c);;;
      ret true
    else
      emit (Warning ("File " +:+ support_archive c +:+ " already exists."));;;
      ret false
  else ret true.

(** [for idx, x in enumerate(l): self.out.highlight('  {}. '.format(idx + 1) + '{}', x)]. *)
Fixpoint highlight_enumerated (idx : nat) (l : list string) : M unit :=
  match l with
  | [] => ret tt
  | x :: l' =>
      emit (Highlight ("  " +:+ pretty (idx + 1)%nat +:+ ". " +:+ "{}") [x]);;;
      highlight_enumerated (S idx) l'
  end.

(** The [try] block around the collection in [run]. *)
Definition collect_all (c : config) : M Z :=
  try_catch
    (open;;;
     collect_master_data;;;
     collect_internal_data c;;;
     collect_targets_data;;;
     close;;;
     s <~ get;;
     emit (Highlight (nl +:+ "Support data has been written to " +:+ dq
                      +:+ "{}" +:+ dq +:+ " file." +:+ nl)
                     [archive_path s]);;;
     ret EX_OK)
    (λ ex, emit (Error (exn_msg ex));;; ret EX_SOFTWARE).

(** The log set-up of [run], skipped for the log level ['quiet']. *)
Definition log_setup (c : config) : M unit :=
  if String.eqb (log_level c) "quiet" then ret tt
  else setup_logfile_logger;;; verify_log c.

(** The [else] branch of [run]: the arguments parsed. *)
Definition run_parsed (c : config) : M Z :=
  log_setup c;;;
  if support_profile_list c then
    emit (Put "List of available profiles:" 0);;;
    highlight_enumerated 0 get_profiles;;;
    ret EX_OK
  else if support_show_units c then
    emit (Put "List of available units:" 0);;;
    highlight_enumerated 0 find_existing_configs;;;
    ret EX_OK
  else
    ok <~ _check_existing_archive_ c;;
    if ok : bool then
      try_else (collector_init (support_archive c))
               (λ ex, emit (Error (exn_msg ex));;; ret EX_GENERIC)
               (λ _, collect_all c)
    else ret EX_OK.

(** [SaltSupport.run]: the exit code handed to [sys.exit]. *)
Definition run : M Z :=
  new_console;;;
  r <~ match parse_args with
       | ParseError ex c => emit (Error (exn_msg ex));;; ret (EX_GENERIC, c)
       | ParseExit code c => ret (code, c)
       | Parsed c => code <~ run_parsed c;; ret (code, Some c)
       end;;
  (if negb (Z.eqb r.1 0) then _cleanup r.2 else ret tt);;;
  ret r.1.

End Support.

(* ------------------------------------------------------------------ *)
(** ** A concrete backend, to run the model on *)

Module Sample.

(** ASCII [lower()]. *)
Definition lower_ascii (c : ascii) : ascii :=
  let n := nat_of_ascii c in
  if (65 <=? n)%nat && (n <=? 90)%nat then ascii_of_nat (n + 32) else c.

Fixpoint lower (s : string) : string :=
  match s with
  | EmptyString => EmptyString
  | String c s' => String (lower_ascii c) (lower s')
  end.

(** A table renderer for one-level mappings of strings: each key on a line
    of its own, followed by the indented value.  Anything else is refused. *)
Fixpoint table (d : list (string * value)) : option string :=
  match d with
  | [] => Some ""
  | (k, VStr v) :: d' =>
      match table d' with
      | Some r => Some (k +:+ ":" +:+ nl +:+ "    " +:+ v +:+ nl +:+ r)
      | None => None
      end
  | _ => None
  end.

Definition printout (v : value) : option string :=
  match v with VDict d => table d | _ => None end.

Definition dump (v : value) : string :=
  match v with
  | VStr s => s +:+ nl
  | VNone => "null" +:+ nl
  | _ => "..." +:+ nl
  end.

Definition repr (v : value) : string :=
  match v with
  | VNone => "None"
  | VBool true => "True"
  | VBool false => "False"
  | VFile name => "<open file '" +:+ name +:+ "', mode 'r'>"
  | _ => "<object>"
  end.

(** An execution backend that knows three functions. *)
Definition caller (conf : call_conf) : call_result :=
  if String.eqb (fun_ conf) "test.ping" then Returned (VBool true)
  else if String.eqb (fun_ conf) "grains.items"
       then Returned (VDict [("os", VStr "Linux")])
  else if String.eqb (fun_ conf) "test.exit" then SystemExit
  else Raised (KeyError ("'" +:+ fun_ conf +:+ "' is not available."))%string.

Definition backend (profile : list (string * list value))
    (registry : string → option (list value → gmap string value → M value))
    : Backend :=
  {| caller_call := caller;
     try_printout := printout;
     yaml_safe_dump := dump;
     py_repr := repr;
     str_lower := lower;
     to_bytes := list_byte_of_string;
     strftime_root := "2018.06.01-12.00.00-snapshot";
     messages_output := λ _, Ok tt;
     get_profile := profile;
     intfunc_registry := registry |}.

(** No profile, no internal functions. *)
Definition bare : Backend := backend [] (λ _, None).

(** A world with two plain files and no collector activity yet. *)
Definition world : state :=
  mkState "" None None None "" []
          (<["/etc/salt/master" := Plain]> (<["/etc/hosts" := Plain]> ∅)).

Definition target : string := "/tmp/support.tar.bz2".

(** The collector right after construction, and right after [open()]. *)
Definition fresh : state := (collector_init (B:=bare) target world).2.
Definition opened : state := (open fresh).2.
Definition closed : state := (close (B:=bare) opened).2.

(** An open collector with a fresh section "files". *)
Definition sectioned : state := (add (B:=bare) "files" opened).2.

(** An external action whose function the backend does not know. *)
Definition failing_action : value :=
  VDict [("cmd.run", VDict [("info", VStr "Uptime");
                            ("args", VList [VStr "uptime"])])].

(** An open collector whose section "system" holds a text item, a linked
    file and a second text item. *)
Definition filled_items : list item :=
  [("Uptime", Text ("raw-content:" +:+ nl +:+ "    up 3 days" +:+ nl));
   ("hosts", File "/etc/hosts");
   ("Kernel", Text ("raw-content:" +:+ nl +:+ "    4.15" +:+ nl))].

Definition filled : state :=
  ((add (B:=bare) "system";;;
    write (B:=bare) "Uptime" (VStr "up 3 days");;;
    link "hosts" (VStr "/etc/hosts");;;
    write (B:=bare) "Kernel" (VStr "4.15")) opened).2.

End Sample.

Module SampleCli.

(** A world in which the target archive of an earlier run is still there. *)
Definition stale : state :=
  set_fs (<[Sample.target := Tar [FileMember "/etc/hosts"]]> (fs Sample.world))
         Sample.world.

(** A log set-up that creates the log file. *)
Definition log_to (path : string) : M unit :=
  modify (λ s, set_fs (<[path := Plain]> (fs s)) s).

(** The stale world after the log set-up. *)
Definition logged : state := (log_to "/var/log/salt/support" stale).2.

Definition options (force : bool) : config :=
  mkConfig Sample.target force false false
           (VDict [("id", VStr "master"); ("log_level", VStr "warning")])
           "warning".

Definition parser (force : bool) : OptionParser :=
  {| parse_args := Parsed (options force);
     get_profiles := ["default"; "jobs-active"];
     find_existing_configs := ["master"; "minion"];
     setup_logfile_logger := log_to "/var/log/salt/support";
     verify_log := λ _, ret tt |}.

End SampleCli.

(* ------------------------------------------------------------------ *)
(** ** Functions the statements are written with *)

(** Occurrences of a character. *)
Fixpoint count_char (c : ascii) (s : string) : nat :=
  match s with
  | EmptyString => 0
  | String c' s' => (if Ascii.eqb c' c then 1 else 0) + count_char c s'
  end.

(** The keyword arguments the loop has built after a prefix of [args]. *)
Definition merge_kw (kw : gmap string value) (a : value)
    : gmap string value :=
  match a with VDict d => dict_update kw d | _ => kw end.

(** The file items of a section, by path, and its text items, in order. *)
Definition file_names (items : list item) : list string :=
  omap (λ it : item, match it.2 with File n => Some n | Text _ => None end)
       items.

Definition texts (items : list item) : list (string * string) :=
  omap (λ it : item, match it.2 with Text b => Some (it.1, b) | File _ => None end)
       items.

Definition has_text (items : list item) : bool := existsb is_text items.

(** The names the tar writer takes: it skips the archive's own path. *)
Definition archived (path : string) (names : list string) : list string :=
  List.filter (λ n, negb (String.eqb n path)) names.

(** A section without its links to the archive itself. *)
Definition skip_self (path : string) (items : list item) : list item :=
  List.filter
    (λ it : item,
       match it.2 with
       | File n => negb (String.eqb n path)
       | Text _ => true
       end)
    items.

(** The members a section makes: its files, then one text member when it
    has a text item. *)
Definition flushed `{Backend} (root : string) (name : option string)
    (items : list item) : list member :=
  (FileMember <$> file_names items)
  ++ (if has_text items
      then [TextMember (root +:+ "/" +:+ format_opt name)
                       (mjoin ((λ tb, render_item tb.1 tb.2) <$> texts items))]
      else []).

(** The console lines of one flush. *)
Definition flush_trace (items : list item) : list message :=
  (λ n, Put n 4) <$> file_names items.

(** The number of generated text members of an archive. *)
Definition text_members (ms : list member) : nat :=
  length (List.filter is_text_member ms).

(** A caller of the collector: a sequence of [add], [write] and [link]
    calls. *)
Inductive op : Type :=
  | Add (name : string)
  | Write (title : string) (data : value)
  | Link (title : string) (path : value).

Definition run_op `{B : Backend} (o : op) : M unit :=
  match o with
  | Add name => add name
  | Write title data => write title data
  | Link title path => link title path
  end.

(** The sections of a call sequence that received a text item; [cur] tells
    whether the section current at the start has one. *)
Fixpoint sections_with_text (ops : list op) (cur : bool) : nat :=
  match ops with
  | [] => if cur then 1 else 0
  | Add _ :: rest => (if cur then 1 else 0) + sections_with_text rest false
  | Write _ _ :: rest => sections_with_text rest true
  | Link _ _ :: rest => sections_with_text rest cur
  end.

(** The count in the words of the specification: the sections that
    received at least one item that is not a file, an open handle given to
    [write] being a file. *)
Definition is_file_value (v : value) : bool :=
  match v with VFile _ => true | _ => false end.

Fixpoint sections_with_non_file_item (ops : list op) (cur : bool) : nat :=
  match ops with
  | [] => if cur then 1 else 0
  | Add _ :: rest =>
      (if cur then 1 else 0) + sections_with_non_file_item rest false
  | Write _ data :: rest =>
      sections_with_non_file_item rest (cur || negb (is_file_value data))
  | Link _ _ :: rest => sections_with_non_file_item rest cur
  end.

(** Four sections: two with text, one with a linked file only, one empty. *)
Definition sample_calls : list op :=
  [Add "system"; Write "Uptime" (VStr "up 3 days");
   Add "files"; Link "hosts" (VStr "/etc/hosts");
   Add "empty";
   Add "grains"; Write "Grains" (VDict [("os", VStr "Linux")]);
   Write "Kernel" (VStr "4.15")].

(** An internal function that links the given paths, each under its own
    path as title, and writes nothing else. *)
Definition link_all (paths : list string) : M value :=
  for_each paths (λ p, link p (VStr p));;; ret VNone.

(** The items [link_all] leaves in the section. *)
Definition linked_items (paths : list string) : list item :=
  (λ p, (p, File p)) <$> paths.

Module SampleProfile.

(** [linkfile path ...]: link every positional argument. *)
Definition linkfile (args : list value) (kw : gmap string value) : M value :=
  link_all (omap (λ a, match a with VStr p => Some p | _ => None end) args).

Definition registry (name : string)
    : option (list value → gmap string value → M value) :=
  if String.eqb name "linkfile" then Some linkfile else None.

Definition grains : value :=
  VDict [("grains.items", VDict [("info", VStr "Grains")])].

Definition hosts : value :=
  VDict [("linkfile", VDict [("args", VList [VStr "/etc/hosts"])])].

(** One category, the external action first, resp. the internal one. *)
Definition ext_int : Backend :=
  Sample.backend [("system", [grains; hosts])] registry.

Definition int_ext : Backend :=
  Sample.backend [("system", [hosts; grains])] registry.

(** The external action followed by an internal one that the registry does
    not have: the stub of [_internal_function_call] answers. *)
Definition ext_stub : Backend :=
  Sample.backend [("system", [grains; VDict [("nosuch", VDict [])]])]
                 (λ _, None).

End SampleProfile.

(** A call that cannot fail on its own account: the data renders, the
    linked file is there. *)
Definition call_ready `{B : Backend} (files : gmap string fdata) (o : op)
    : Prop :=
  match o with
  | Add _ => True
  | Write _ data => ∃ body, render_data data = Ok body
  | Link _ path => ∃ n, (path = VFile n ∨ path = VStr n) ∧ is_Some (files !! n)
  end.

(** The state the loop of a flush of [items] leaves, from an archive
    holding [ms]. *)
Definition after_files (ms : list member) (items : list item) (s : state)
    : state :=
  set_arch (Some (ms ++ (FileMember
                         <$> archived (archive_path s) (file_names items))))
           (set_out (out s ++ flush_trace items) s).

(** The paths of the physical files of an archive, in member order. *)
Definition file_members (ms : list member) : list string :=
  omap (λ m, match m with FileMember n => Some n | TextMember _ _ => None end)
       ms.

(** The file a [link] call that returns has recorded. *)
Definition link_name (path : value) : option string :=
  match path with VFile n | VStr n => Some n | _ => None end.

Definition linked_names (ops : list op) : list string :=
  omap (λ o, match o with Link _ path => link_name path | _ => None end) ops.

(** [s'] is [s] after calls that neither open nor close the archive: the
    members written so far are still there, in place, the archive path and
    the root are the same, and so is every file other than the archive. *)
Definition extends (s s' : state) : Prop :=
  (∀ q, q ≠ archive_path s → fs s' !! q = fs s !! q)
  ∧ archive_path s' = archive_path s
  ∧ default_root s' = default_root s
  ∧ match arch s with
    | None => arch s' = None
    | Some ms => ∃ more, arch s' = Some (ms ++ more)
    end.

(** Data without a file handle anywhere inside. *)
Fixpoint plain (v : value) : bool :=
  match v with
  | VList l =>
      (fix go (l : list value) : bool :=
         match l with [] => true | x :: l' => plain x && go l' end) l
  | VDict d =>
      (fix go (d : list (string * value)) : bool :=
         match d with [] => true | (_, x) :: d' => plain x && go d' end) d
  | VFile _ => false
  | _ => true
  end.

(** What [_local_call] returns, and what it prints on the way. *)
Definition local_value `{B : Backend} (conf : call_conf) : value :=
  match caller_call conf with
  | Returned v => v
  | SystemExit => VStr "Data is not available at this moment"
  | Raised ex => VStr ("Unhandled exception occurred: " +:+ exn_msg ex)
  end.

Definition local_trace `{B : Backend} (conf : call_conf) : list message :=
  match caller_call conf with
  | Returned _ => []
  | SystemExit => [Error "Data is not available at this moment"]
  | Raised ex => [Error ("Unhandled exception occurred: " +:+ exn_msg ex)]
  end.

(** The title and body of the item an external action leaves in the
    section: the entry resolves, its name has a dot, its [info] is a string
    and the result of the call renders.  [None] for any other entry. *)
Definition external_item `{B : Backend} (action : value)
    : option (string * string) :=
  match _get_action action with
  | Ok (VStr info, conf) =>
      if intfunc conf then None
      else match render_data (local_value conf) with
           | Ok body => Some (info, body)
           | Raise _ => None
           end
  | _ => None
  end.

(** What such an action prints. *)
Definition external_trace `{B : Backend} (action : value) : list message :=
  match _get_action action with
  | Ok (VStr info, conf) =>
      Put ("Collecting " +:+ str_lower info) 2 :: local_trace conf
  | _ => []
  end.

Definition text_items (tbs : list (string * string)) : list item :=
  (λ tb, (tb.1, Text tb.2)) <$> tbs.

(** The member of a category of external actions: none when the category
    has no action. *)
Definition category_member `{B : Backend} (root : string)
    (cat : string * list value) : list member :=
  flushed root (Some cat.1) (text_items (omap external_item cat.2)).

(** The two calls of [collect_internal_data]. *)
Definition pillar_items : call_conf := mkConf "pillar.items" [] ∅ false.
Definition show_highstate : call_conf :=
  mkConf "state.show_highstate" [] ∅ false.

(** The lines of a listing: entry [i] (from 0) is numbered [idx + i + 1]. *)
Fixpoint numbered_lines (idx : nat) (l : list string) : list message :=
  match l with
  | [] => []
  | x :: l' =>
      Highlight ("  " +:+ pretty (idx + 1)%nat +:+ ". {}") [x]
      :: numbered_lines (S idx) l'
  end.

(** [self.config], when the parser got as far as setting it. *)
Definition parsed_config (p : parse_outcome) : option config :=
  match p with
  | Parsed c => Some c
  | ParseExit _ c | ParseError _ c => c
  end.

Module SampleMore.

(** Two sections with three links between them. *)
Definition link_calls : list op :=
  [Add "etc"; Link "hosts" (VStr "/etc/hosts"); Write "Kernel" (VStr "4.15");
   Add "salt"; Link "master" (VFile "/etc/salt/master");
   Link "hosts again" (VStr "/etc/hosts")].

Definition link_closed : state :=
  ((for_each link_calls (run_op (B:=Sample.bare));;;
    close (B:=Sample.bare)) Sample.opened).2.

(** A section that links the archive itself, then a file. *)
Definition self_link_calls : list op :=
  [Add "self"; Link "archive" (VStr Sample.target);
   Link "hosts" (VStr "/etc/hosts")].

Definition self_link_closed : state :=
  ((for_each self_link_calls (run_op (B:=Sample.bare));;;
    close (B:=Sample.bare)) Sample.opened).2.

(** A collector that was given a section and an item before [open()]. *)
Definition early : state :=
  ((add (B:=Sample.bare) "early";;;
    write (B:=Sample.bare) "Note" (VStr "before open")) Sample.fresh).2.

(** An open collector whose section links a handle of a file that is no
    longer on disk, between a file that is and a text item. *)
Definition dangling : state :=
  ((add (B:=Sample.bare) "logs";;;
    link "hosts" (VStr "/etc/hosts");;;
    link "gone" (VFile "/var/log/gone");;;
    write (B:=Sample.bare) "Kernel" (VStr "4.15")) Sample.opened).2.

(** A result the sample table renderer refuses, with a ['return'] key. *)
Definition nested : list (string * value) :=
  [("jid", VStr "20180601"); ("return", VList [VStr "a"; VStr "b"])].

(** An external entry whose [info] is a number, and an internal one with
    no counterpart in the registry. *)
Definition numbered_info : list (string * value) := [("info", VInt 42)].
Definition no_args : list (string * value) := [].

(** A profile of external actions only: one fails, one category is empty. *)
Definition ping : value := VDict [("test.ping", VDict [])].

Definition external_only : Backend :=
  Sample.backend
    [("system", [SampleProfile.grains; Sample.failing_action]);
     ("empty", []);
     ("net", [ping])]
    (λ _, None).

(** A profile with an entry that gives only the action name. *)
Definition bodiless : Backend :=
  Sample.backend [("system", [VDict [("grains.items", VNone)]])] (λ _, None).

(** A backend on which the console of [run] can be built and the one of
    the collector cannot. *)
Definition no_console : Backend :=
  {| caller_call := Sample.caller;
     try_printout := Sample.printout;
     yaml_safe_dump := Sample.dump;
     py_repr := Sample.repr;
     str_lower := Sample.lower;
     to_bytes := list_byte_of_string;
     strftime_root := "2018.06.01-12.00.00-snapshot";
     messages_output :=
       λ s, if String.eqb (archive_path s) "" then Ok tt
            else Raise (IOError "console unavailable");
     get_profile := [];
     intfunc_registry := λ _, None |}.

(** A parser that fails after the configuration was set, and one that was
    asked for both listings. *)
Definition failing_parser : OptionParser :=
  {| parse_args := ParseError (OtherError "no such option: --frobnicate")
                              (Some (SampleCli.options false));
     get_profiles := [];
     find_existing_configs := [];
     setup_logfile_logger := ret tt;
     verify_log := λ _, ret tt |}.

Definition listing_options : config :=
  mkConfig Sample.target false true true (VDict []) "quiet".

Definition listing_parser : OptionParser :=
  {| parse_args := Parsed listing_options;
     get_profiles := ["default"; "jobs-active"];
     find_existing_configs := ["master"; "minion"];
     setup_logfile_logger := raise (IOError "Permission denied");
     verify_log := λ _, ret tt |}.

End SampleMore.

(** The names of the text members of an archive, in member order. *)
Definition text_names (ms : list member) : list string :=
  omap (λ m, match m with TextMember n _ => Some n | FileMember _ => None end)
       ms.

(** The names of the sections of a call sequence that received a text
    item, in order; [cur] and [has] describe the section current at the
    start. *)
Fixpoint named_sections (ops : list op) (cur : option string) (has : bool)
    : list (option string) :=
  match ops with
  | [] => if has then [cur] else []
  | Add n :: rest =>
      (if has then [cur] else []) ++ named_sections rest (Some n) false
  | Write _ _ :: rest => named_sections rest cur true
  | Link _ _ :: rest => named_sections rest cur has
  end.

(* ------------------------------------------------------------------ *)
(** ** Unfolding the monad *)

Ltac run_monad :=
  repeat (unfold bind, get, modify, ret, raise, lift, emit, try_catch in *;
          cbn [fst snd] in *).

Section MonadFacts.
Context {A C : Type}.

Lemma bind_ok (m : M A) (k : A → M C) (s s' : state) (a : A) :
  m s = (Ok a, s') → bind m k s = k a s'.
Proof. intros E. unfold bind. now rewrite E. Qed.

Lemma bind_raise (m : M A) (k : A → M C) (s s' : state) (e : exn) :
  m s = (Raise e, s') → bind m k s = (Raise e, s').
Proof. intros E. unfold bind. now rewrite E. Qed.

Lemma bind_inv_ok (m : M A) (k : A → M C) (s s'' : state) (c : C) :
  bind m k s = (Ok c, s'') →
  ∃ a s', m s = (Ok a, s') ∧ k a s' = (Ok c, s'').
Proof.
  unfold bind. destruct (m s) as [[a|e] s'] eqn:E; intros H.
  - eauto.
  - discriminate.
Qed.

End MonadFacts.

Lemma set_section_same (s : state) :
  set_section (current_section s) (current_section_name s) s = s.
Proof. now destruct s. Qed.

(* ------------------------------------------------------------------ *)
(** ** Archive life cycle *)

Section Lifecycle.
Context `{B : Backend}.

Lemma open_when_open (s : state) :
  is_Some (arch s) →
  open s = (Raise (SaltException "Archive already opened."), s).
Proof. intros [ms E]. unfold open. run_monad. now rewrite E. Qed.

Lemma close_when_closed (s : state) :
  arch s = None →
  close s = (Raise (SaltException "Archive already closed"), s).
Proof. intros E. unfold close. run_monad. now rewrite E. Qed.

Lemma close_ok_closes (s s' : state) :
  close s = (Ok tt, s') → arch s' = None.
Proof.
  unfold close. run_monad. destruct (arch s) eqn:E; [| discriminate].
  destruct (_flush_content s) as [[[]|e] s1]; [| discriminate].
  intros H. inversion H. reflexivity.
Qed.

(** C8: [open()] on an open archive raises "Archive already opened." and
    leaves the whole state, the first handle included, as it was; [close()]
    on a collector that is not open raises "Archive already closed", and so
    does a second [close()] after a [close()] that returned. *)
Theorem open_twice_close_twice (s1 s2 s3 s3' : state) :
  is_Some (arch s1) →
  arch s2 = None →
  close s3 = (Ok tt, s3') →
  open s1 = (Raise (SaltException "Archive already opened."), s1)
  ∧ close s2 = (Raise (SaltException "Archive already closed"), s2)
  ∧ close s3' = (Raise (SaltException "Archive already closed"), s3').
Proof.
  intros H1 H2 H3. split; [| split].
  - now apply open_when_open.
  - now apply close_when_closed.
  - apply close_when_closed. eapply close_ok_closes; eauto.
Qed.

End Lifecycle.

Lemma open_twice_close_twice_witness :
  is_Some (arch Sample.opened)
  ∧ arch Sample.fresh = None
  ∧ close (B:=Sample.bare) Sample.opened = (Ok tt, Sample.closed)
  ∧ (open Sample.opened
     = (Raise (SaltException "Archive already opened."), Sample.opened)
     ∧ close (B:=Sample.bare) Sample.fresh
       = (Raise (SaltException "Archive already closed"), Sample.fresh)
     ∧ close (B:=Sample.bare) Sample.closed
       = (Raise (SaltException "Archive already closed"), Sample.closed)).
Proof.
  assert (H1 : is_Some (arch Sample.opened)) by (vm_compute; eauto).
  assert (H2 : arch Sample.fresh = None) by reflexivity.
  assert (H3 : close (B:=Sample.bare) Sample.opened = (Ok tt, Sample.closed))
    by (vm_compute; reflexivity).
  exact (conj H1 (conj H2 (conj H3
           (open_twice_close_twice (B:=Sample.bare) _ _ _ _ H1 H2 H3)))).
Defined.

(* ------------------------------------------------------------------ *)
(** ** Writing without a section *)

Section NoSection.
Context `{B : Backend}.

Lemma section_append_no_section (title : string) (c : content) (s : state) :
  current_section s = None →
  section_append title c s
  = (Raise (AttributeError "'NoneType' object has no attribute 'append'"), s).
Proof. intros E. unfold section_append. run_monad. now rewrite E. Qed.

Lemma py_open_keeps_state (path : value) (s s' : state) (r : res string) :
  py_open path s = (r, s') → s' = s.
Proof.
  unfold py_open. run_monad.
  destruct path; try (intros H; now inversion H).
  destruct (fs s !! s0); intros H; now inversion H.
Qed.

(** The first step of [link] reads the state and leaves it alone. *)
Lemma link_handle_keeps_state (path : value) (s s' : state)
    (r : res string) :
  match path with VFile name => ret name | _ => py_open path end s = (r, s') →
  s' = s.
Proof.
  destruct path; try apply py_open_keeps_state.
  intros H. now inversion H.
Qed.

(** C10: on a collector whose current section still is [None], [write] and
    [link] do not return: each raises an exception (and leaves the state as
    it was), whatever the title and the data or path. *)
Theorem write_link_need_section (title : string) (data path : value)
    (s : state) :
  current_section s = None →
  (∃ e, write title data s = (Raise e, s))
  ∧ (∃ e, link title path s = (Raise e, s)).
Proof.
  intros E. split.
  - unfold write. destruct (render_data data) as [c|e] eqn:Er.
    + eexists. erewrite bind_ok by reflexivity.
      now apply section_append_no_section.
    + eexists. erewrite bind_raise by reflexivity. reflexivity.
  - unfold link.
    destruct (match path with VFile name => ret name | _ => py_open path end s)
      as [[name|e] s'] eqn:Eo;
      pose proof (link_handle_keeps_state _ _ _ _ Eo) as ->.
    + eexists. erewrite bind_ok by exact Eo.
      now apply section_append_no_section.
    + eexists. erewrite bind_raise by exact Eo. reflexivity.
Qed.

End NoSection.

Lemma write_link_need_section_witness :
  current_section Sample.opened = None
  ∧ (∃ e, write (B:=Sample.bare) "Uptime" (VStr "up 3 days") Sample.opened
          = (Raise e, Sample.opened))
  ∧ (∃ e, link "hosts" (VStr "/etc/hosts") Sample.opened
          = (Raise e, Sample.opened)).
Proof.
  assert (H : current_section Sample.opened = None) by reflexivity.
  exact (conj H (write_link_need_section (B:=Sample.bare)
                   "Uptime" (VStr "up 3 days") (VStr "/etc/hosts") _ H)).
Defined.

(* ------------------------------------------------------------------ *)
(** ** Action resolution *)

Section Resolve.

Lemma split_length (sep : ascii) (s : string) :
  length (split sep s) = S (count_char sep s).
Proof.
  induction s as [|c s IH]; cbn; [reflexivity|].
  destruct (Ascii.eqb c sep); cbn.
  - now rewrite IH.
  - destruct (split sep s); cbn in *; lia.
Qed.

Lemma count_char_zero (c : ascii) (s : string) :
  count_char c s = 0 ↔ contains_char c s = false.
Proof.
  induction s as [|c' s IH]; cbn; [tauto|].
  destruct (Ascii.eqb c' c); cbn; [split; intros; discriminate | exact IH].
Qed.

Lemma is_internal_no_dot (name : string) :
  is_internal name = true ↔ contains_char dot name = false.
Proof.
  unfold is_internal. rewrite split_length, Nat.eqb_eq, <- count_char_zero.
  lia.
Qed.

Lemma get_action_args_spec (l pos : list value) (kw : gmap string value) :
  get_action_args l pos kw
  = (pos ++ List.filter (λ a, negb (is_dict a)) l, foldl merge_kw kw l).
Proof.
  revert pos kw. induction l as [|a l IH]; intros pos kw; cbn.
  - now rewrite app_nil_r.
  - destruct a; cbn; rewrite IH; try (now rewrite <- app_assoc).
    reflexivity.
Qed.

Lemma dict_update_absent (k : string) (d : list (string * value))
    (kw : gmap string value) :
  dict_get k d = None → dict_update kw d !! k = kw !! k.
Proof.
  revert kw. induction d as [|[k' v] d IH]; intros kw; cbn; [reflexivity|].
  destruct (String.eqb k k') eqn:E; [discriminate|].
  intros H. unfold dict_update in *. rewrite IH by assumption.
  apply lookup_insert_ne. intros ->. now rewrite String.eqb_refl in E.
Qed.

Lemma merge_kw_absent (k : string) (l : list value)
    (kw : gmap string value) :
  (∀ d, VDict d ∈ l → dict_get k d = None) →
  foldl merge_kw kw l !! k = kw !! k.
Proof.
  revert kw. induction l as [|a l IH]; intros kw H; cbn; [reflexivity|].
  rewrite IH by (intros d Hd; apply H; now right).
  destruct a; cbn; try reflexivity.
  apply dict_update_absent, H. now left.
Qed.

Lemma merge_kw_last_wins (k : string) (v : value) (pre post : list value)
    (kw : gmap string value) :
  (∀ d, VDict d ∈ post → dict_get k d = None) →
  foldl merge_kw kw (pre ++ VDict [(k, v)] :: post) !! k = Some v.
Proof.
  intros H. rewrite foldl_app. cbn.
  rewrite merge_kw_absent by assumption.
  apply lookup_insert_eq.
Qed.

Lemma dict_update_origin (k : string) (d : list (string * value))
    (kw : gmap string value) :
  is_Some (dict_update kw d !! k) → is_Some (kw !! k) ∨ k ∈ d.*1.
Proof.
  revert kw. induction d as [|[k' v] d IH]; intros kw; cbn; [tauto|].
  intros H. apply IH in H as [H|H].
  - destruct (decide (k' = k)) as [->|Hne].
    + right. now left.
    + left. now rewrite lookup_insert_ne in H.
  - right. now right.
Qed.

Lemma merge_kw_origin (k : string) (l : list value)
    (kw : gmap string value) :
  is_Some (foldl merge_kw kw l !! k) →
  is_Some (kw !! k) ∨ ∃ d, VDict d ∈ l ∧ k ∈ d.*1.
Proof.
  revert kw. induction l as [|a l IH]; intros kw; cbn; [tauto|].
  intros H. apply IH in H as [H|(d & Hd & Hk)].
  - destruct a; cbn in H; try (now left).
    apply dict_update_origin in H as [H|H]; [now left|].
    right. eexists. split; [now left | exact H].
  - right. exists d. split; [now right | exact Hk].
Qed.

(** C6: for a raw action entry [{name: {info?, args?}}] whose [args], when
    given, is a list: resolution succeeds with target [name]; the action is
    internal exactly when [name] holds no dot; the positional arguments are
    the non-mapping elements of [args] in source order; a key set by a
    single-key mapping element that no later mapping mentions keeps that
    element's value (last wins), and every keyword comes from some mapping
    element; the description is [info] when given and "Action for <name>"
    otherwise. *)
Theorem get_action_resolves (name : string) (m : list (string * value))
    (others : list (string * value)) (oargs : option (list value)) :
  dict_get "args" m = VList <$> oargs →
  ∃ info conf,
    _get_action (VDict ((name, VDict m) :: others)) = Ok (info, conf)
    ∧ fun_ conf = name
    ∧ (intfunc conf = true ↔ contains_char dot name = false)
    ∧ arg conf = List.filter (λ a, negb (is_dict a)) (default [] oargs)
    ∧ (∀ pre k v post,
         default [] oargs = pre ++ VDict [(k, v)] :: post →
         (∀ d, VDict d ∈ post → dict_get k d = None) →
         kwargs conf !! k = Some v)
    ∧ (∀ k, is_Some (kwargs conf !! k) →
            ∃ d, VDict d ∈ default [] oargs ∧ k ∈ d.*1)
    ∧ info = default (VStr ("Action for " +:+ name)) (dict_get "info" m).
Proof.
  intros Hargs.
  assert (Hit : iter_value
                  match dict_get "args" m with
                  | Some v => if truthy v then v else VList []
                  | None => VList []
                  end = Ok (default [] oargs)).
  { rewrite Hargs. destruct oargs as [[|a l]|]; reflexivity. }
  eexists _, _. split.
  { cbn. rewrite Hit. reflexivity. }
  rewrite get_action_args_spec. cbn.
  split; [reflexivity|]. split; [apply is_internal_no_dot|].
  split; [reflexivity|]. split; [|split; [|reflexivity]].
  - intros pre k v post -> Hpost. now apply merge_kw_last_wins.
  - intros k Hk. apply merge_kw_origin in Hk as [Hk|Hk]; [|exact Hk].
    rewrite lookup_empty in Hk. now destruct Hk.
Qed.

End Resolve.

(** The two entries of the spec's examples, resolved by the model. *)
Example get_action_pillar_items :
  _get_action (VDict [("pillar.items", VDict [("info", VStr "Active Pillars")])])
  = Ok (VStr "Active Pillars", mkConf "pillar.items" [] ∅ false).
Proof. reflexivity. Qed.

Example get_action_my_probe :
  _get_action
    (VDict [("my_probe",
             VDict [("args", VList [VStr "x"; VDict [("flag", VBool true)]])])])
  = Ok (VStr "Action for my_probe",
        mkConf "my_probe" [VStr "x"] {[ "flag" := VBool true ]} true).
Proof. vm_compute. reflexivity. Qed.

Lemma get_action_resolves_witness :
  dict_get "args"
    [("args", VList [VStr "x"; VDict [("flag", VBool false)];
                     VInt 3; VDict [("flag", VBool true)]])]
  = VList <$> Some [VStr "x"; VDict [("flag", VBool false)];
                    VInt 3; VDict [("flag", VBool true)]]
  ∧ ∃ info conf,
      _get_action
        (VDict [("my_probe",
                 VDict [("args",
                         VList [VStr "x"; VDict [("flag", VBool false)];
                                VInt 3; VDict [("flag", VBool true)]])])])
      = Ok (info, conf)
      ∧ intfunc conf = true
      ∧ arg conf = [VStr "x"; VInt 3]
      ∧ kwargs conf !! "flag" = Some (VBool true)
      ∧ info = VStr "Action for my_probe".
Proof.
  split; [reflexivity|].
  destruct (get_action_resolves "my_probe"
              [("args", VList [VStr "x"; VDict [("flag", VBool false)];
                               VInt 3; VDict [("flag", VBool true)]])]
              [] (Some [VStr "x"; VDict [("flag", VBool false)];
                        VInt 3; VDict [("flag", VBool true)]]) eq_refl)
    as (info & conf & Hget & _ & Hint & Harg & Hkw & _ & Hinfo).
  exists info, conf. split; [exact Hget|].
  split; [now apply Hint|]. split; [exact Harg|]. split; [|exact Hinfo].
  apply (Hkw [VStr "x"; VDict [("flag", VBool false)]; VInt 3]
             "flag" (VBool true) []); [reflexivity|].
  intros d Hd. inversion Hd.
Defined.

(* ------------------------------------------------------------------ *)
(** ** Pre-flight check of [run] *)

Section Preflight.
Context `{B : Backend} `{P : OptionParser}.

Lemma path_exists_true (p : string) (s : state) :
  is_Some (fs s !! p) → path_exists p s = true.
Proof. intros H. unfold path_exists. now apply bool_decide_eq_true. Qed.

Lemma new_console_ok (s : state) :
  messages_output s = Ok tt → new_console s = (Ok tt, s).
Proof. intros H. unfold new_console. now rewrite H. Qed.

(** C5: the console was built, the arguments parsed, the log set-up
    returned (leaving [s1]), no listing mode is asked for, and the target
    path exists.  Without the overwrite flag [run] returns the success code
    and the final state is [s1] with one warning more on the console: no
    collector was built, nothing was collected, the file system is as the
    log set-up left it.  With the flag, the pre-flight check warns and
    unlinks the file, and what [run] goes on to do (building the collector,
    the collection) starts from that state [s2], in which nothing is at
    the archive path. *)
Theorem existing_archive_preflight (c : config) (s s1 : state) :
  messages_output s = Ok tt →
  parse_args = Parsed c →
  log_setup c s = (Ok tt, s1) →
  support_profile_list c = false →
  support_show_units c = false →
  is_Some (fs s1 !! support_archive c) →
  if support_archive_force_overwrite c then
    let s2 :=
      set_fs (delete (support_archive c) (fs s1))
        (set_out (out s1 ++ [Warning ("Overwriting existing archive: "
                                      +:+ support_archive c)]) s1) in
    _check_existing_archive_ c s1 = (Ok true, s2)
    ∧ fs s2 !! support_archive c = None
    ∧ (∀ q, q ≠ support_archive c → fs s2 !! q = fs s1 !! q)
    ∧ run_parsed c s
      = try_else (collector_init (support_archive c))
                 (λ ex, emit (Error (exn_msg ex));;; ret EX_GENERIC)
                 (λ _, collect_all c) s2
  else
    run s
    = (Ok EX_OK,
       set_out (out s1 ++ [Warning ("File " +:+ support_archive c
                                    +:+ " already exists.")]) s1).
Proof.
  intros Hm Hp Hlog Hl Hu Hex. apply path_exists_true in Hex.
  destruct (support_archive_force_overwrite c) eqn:Hf.
  - intros s2.
    assert (Hcheck : _check_existing_archive_ c s1 = (Ok true, s2)).
    { unfold _check_existing_archive_, unlink. run_monad.
      rewrite Hex, Hf. reflexivity. }
    split; [exact Hcheck|]. split; [apply lookup_delete_eq|].
    split; [intros q Hq; now apply lookup_delete_ne|].
    unfold run_parsed. erewrite bind_ok by exact Hlog. rewrite Hl, Hu.
    erewrite bind_ok by exact Hcheck. reflexivity.
  - unfold run. erewrite bind_ok by (now apply new_console_ok).
    rewrite Hp.
    assert (Hparsed : run_parsed c s
                      = (Ok EX_OK,
                         set_out (out s1 ++ [Warning ("File "
                                    +:+ support_archive c
                                    +:+ " already exists.")]) s1)).
    { unfold run_parsed. erewrite bind_ok by exact Hlog. rewrite Hl, Hu.
      unfold _check_existing_archive_. run_monad.
      rewrite Hex, Hf. reflexivity. }
    erewrite bind_ok by (erewrite bind_ok by exact Hparsed; reflexivity).
    reflexivity.
Qed.

End Preflight.

Lemma existing_archive_preflight_witness :
  (run (B:=Sample.bare) (P:=SampleCli.parser false) SampleCli.stale
   = (Ok EX_OK,
      set_out [Warning "File /tmp/support.tar.bz2 already exists."]
              SampleCli.logged))
  ∧ (let s2 :=
       set_fs (delete Sample.target (fs SampleCli.logged))
         (set_out [Warning "Overwriting existing archive: /tmp/support.tar.bz2"]
                  SampleCli.logged) in
     _check_existing_archive_ (SampleCli.options true) SampleCli.logged
     = (Ok true, s2)
     ∧ fs s2 !! Sample.target = None
     ∧ (∀ q, q ≠ Sample.target → fs s2 !! q = fs SampleCli.logged !! q)
     ∧ run_parsed (B:=Sample.bare) (P:=SampleCli.parser true)
         (SampleCli.options true) SampleCli.stale
       = try_else (collector_init (B:=Sample.bare) Sample.target)
                  (λ ex, emit (Error (exn_msg ex));;; ret EX_GENERIC)
                  (λ _, collect_all (B:=Sample.bare) (SampleCli.options true))
                  s2).
Proof.
  assert (Hex : is_Some (fs SampleCli.logged !! Sample.target))
    by (vm_compute; eauto).
  split.
  - exact (existing_archive_preflight (B:=Sample.bare)
             (P:=SampleCli.parser false) (SampleCli.options false)
             SampleCli.stale SampleCli.logged
             eq_refl eq_refl eq_refl eq_refl eq_refl Hex).
  - exact (existing_archive_preflight (B:=Sample.bare)
             (P:=SampleCli.parser true) (SampleCli.options true)
             SampleCli.stale SampleCli.logged
             eq_refl eq_refl eq_refl eq_refl eq_refl Hex).
Defined.

(** With the flag set the old archive is gone and a new one is written. *)
Example run_forced_overwrites :
  let r := run (B:=Sample.bare) (P:=SampleCli.parser true) SampleCli.stale in
  r.1 = Ok EX_OK
  ∧ head (out r.2) = Some (Warning "Overwriting existing archive: /tmp/support.tar.bz2")
  ∧ ∃ ms, fs (snd r) !! Sample.target = Some (Tar ms)
          ∧ ¬ (FileMember "/etc/hosts" ∈ ms)
          ∧ length ms = 2.
Proof.
  vm_compute. repeat split. eexists. split; [reflexivity|]. split; [|reflexivity].
  intros H. repeat (apply elem_of_cons in H as [H|H]; [discriminate|]).
  inversion H.
Qed.

(* ------------------------------------------------------------------ *)
(** ** Flushing a section *)

Section Flush.
Context `{B : Backend}.

Lemma file_names_skip_self (path : string) (items : list item) :
  file_names (skip_self path items) = archived path (file_names items).
Proof.
  induction items as [|[t [b|n]] items IH]; cbn; [reflexivity | exact IH |].
  destruct (String.eqb n path); cbn; [exact IH | now f_equal].
Qed.

Lemma texts_skip_self (path : string) (items : list item) :
  texts (skip_self path items) = texts items.
Proof.
  induction items as [|[t [b|n]] items IH]; cbn; [reflexivity | now f_equal |].
  destruct (String.eqb n path); cbn; exact IH.
Qed.

Lemma has_text_skip_self (path : string) (items : list item) :
  has_text (skip_self path items) = has_text items.
Proof.
  induction items as [|[t [b|n]] items IH]; cbn; [reflexivity..|].
  destruct (String.eqb n path); cbn; exact IH.
Qed.

Lemma arch_add_inv (name : string) (s s' : state) :
  arch_add name s = (Ok tt, s') →
  ∃ ms, arch s = Some ms
        ∧ (name ≠ archive_path s → is_Some (fs s !! name))
        ∧ s' = set_arch (Some (ms ++ (FileMember
                                      <$> archived (archive_path s) [name])))
                        s.
Proof.
  unfold arch_add. run_monad.
  destruct (arch s) as [ms|] eqn:Ha; [|discriminate]. cbn.
  destruct (String.eqb name (archive_path s)) eqn:E; cbn.
  - intros H. inversion H; subst s'. exists ms. split; [reflexivity|].
    split.
    + intros Hne. apply String.eqb_eq in E. contradiction.
    + rewrite app_nil_r, <- Ha. now destruct s.
  - destruct (fs s !! name) eqn:Hn; [|discriminate].
    intros H. inversion H. eauto.
Qed.

Lemma arch_add_ok (name : string) (s : state) (ms : list member) :
  arch s = Some ms →
  (name ≠ archive_path s → is_Some (fs s !! name)) →
  arch_add name s
  = (Ok tt,
     set_arch (Some (ms ++ (FileMember
                            <$> archived (archive_path s) [name]))) s).
Proof.
  intros Ha Hf. unfold arch_add. run_monad. rewrite Ha. cbn.
  destruct (String.eqb name (archive_path s)) eqn:E; cbn.
  - unfold ret. f_equal. rewrite app_nil_r, <- Ha. now destruct s.
  - apply String.eqb_neq in E. destruct (Hf E) as [d Hd]. now rewrite Hd.
Qed.

Lemma after_files_nil (ms : list member) (s : state) :
  arch s = Some ms → after_files ms [] s = s.
Proof.
  intros E. unfold after_files, flush_trace. cbn. rewrite !app_nil_r.
  destruct s; cbn in *. now subst.
Qed.

(** The loop of a flush, when every file it has to stat is on disk. *)
Lemma flush_items_run (items : list item) (buff : list Byte.byte)
    (dirty : bool) (s : state) (ms : list member) :
  arch s = Some ms →
  (∀ n, n ∈ file_names items → n ≠ archive_path s → is_Some (fs s !! n)) →
  flush_items items buff dirty s
  = (Ok (buff ++ mjoin ((λ tb, render_item tb.1 tb.2) <$> texts items),
         dirty || has_text items),
     after_files ms items s).
Proof.
  revert buff dirty s ms.
  induction items as [|[title [body|name]] items IH];
    intros buff dirty s ms Ha Hf.
  - cbn. rewrite app_nil_r, orb_false_r, after_files_nil by assumption.
    reflexivity.
  - cbn [flush_items]. rewrite (IH _ _ _ ms Ha).
    + cbn. rewrite <- app_assoc, orb_true_r. reflexivity.
    + intros n Hn. apply Hf. exact Hn.
  - cbn [flush_items].
    erewrite bind_ok by reflexivity.
    erewrite bind_ok.
    2:{ apply (arch_add_ok _ _ ms); [exact Ha|]. cbn. apply Hf. now left. }
    erewrite IH; [| reflexivity |].
    + f_equal. unfold after_files, flush_trace, archived. cbn.
      rewrite <- !app_assoc.
      destruct (String.eqb name (archive_path s)); reflexivity.
    + intros n Hn. cbn. apply Hf. now right.
Qed.

Lemma flush_items_ok (items : list item) (buff : list Byte.byte)
    (dirty : bool) (s : state) (ms : list member) :
  arch s = Some ms →
  (∀ n, n ∈ file_names items → is_Some (fs s !! n)) →
  flush_items items buff dirty s
  = (Ok (buff ++ mjoin ((λ tb, render_item tb.1 tb.2) <$> texts items),
         dirty || has_text items),
     after_files ms items s).
Proof. intros Ha Hf. apply flush_items_run; auto. Qed.

Lemma flush_items_inv (items : list item) (buff : list Byte.byte)
    (dirty : bool) (s s' : state) (ms : list member)
    (r : list Byte.byte * bool) :
  arch s = Some ms →
  flush_items items buff dirty s = (Ok r, s') →
  ∀ n, n ∈ file_names items → n ≠ archive_path s → is_Some (fs s !! n).
Proof.
  revert buff dirty s ms.
  induction items as [|[title [body|name]] items IH];
    intros buff dirty s ms Ha H n Hn Hne.
  - inversion Hn.
  - eapply IH; eauto.
  - cbn [flush_items] in H.
    erewrite bind_ok in H by reflexivity.
    apply bind_inv_ok in H as ([] & s1 & Hadd & H).
    apply arch_add_inv in Hadd as (ms' & Ha' & Hfs & ->).
    change (n ∈ name :: file_names items) in Hn.
    apply elem_of_cons in Hn as [->|Hn]; [now apply Hfs|].
    eapply IH in H; [exact H | reflexivity | exact Hn | exact Hne].
Qed.

(** A flush that finds the files it has to stat on disk appends them (the
    archive's own path excepted), and then one text member when the section
    has a text item. *)
Lemma flush_content_run (s : state) (ms : list member) (items : list item) :
  arch s = Some ms →
  current_section s = Some items →
  (∀ n, n ∈ file_names items → n ≠ archive_path s → is_Some (fs s !! n)) →
  _flush_content s
  = (Ok tt,
     set_arch (Some (ms ++ flushed (default_root s) (current_section_name s)
                                   (skip_self (archive_path s) items)))
              (set_out (out s ++ flush_trace items) s)).
Proof.
  intros Ha Hc Hf. unfold _flush_content.
  erewrite bind_ok by reflexivity. rewrite Hc.
  erewrite bind_ok by (apply (flush_items_run _ _ _ _ ms); assumption).
  cbn [fst snd orb]. unfold flushed.
  rewrite file_names_skip_self, has_text_skip_self, texts_skip_self.
  destruct (has_text items).
  - unfold arch_addfile, after_files. run_monad. cbn.
    rewrite <- app_assoc. reflexivity.
  - unfold ret, after_files. rewrite app_nil_r. reflexivity.
Qed.

Lemma flush_content_ok (s : state) (ms : list member) (items : list item) :
  arch s = Some ms →
  current_section s = Some items →
  (∀ n, n ∈ file_names items → is_Some (fs s !! n)) →
  _flush_content s
  = (Ok tt,
     set_arch (Some (ms ++ flushed (default_root s) (current_section_name s)
                                   (skip_self (archive_path s) items)))
              (set_out (out s ++ flush_trace items) s)).
Proof. intros Ha Hc Hf. apply flush_content_run; auto. Qed.

Lemma flush_content_inv (s s' : state) (ms : list member)
    (items : list item) :
  arch s = Some ms →
  current_section s = Some items →
  _flush_content s = (Ok tt, s') →
  ∀ n, n ∈ file_names items → n ≠ archive_path s → is_Some (fs s !! n).
Proof.
  intros Ha Hc H. unfold _flush_content in H.
  erewrite bind_ok in H by reflexivity. rewrite Hc in H.
  apply bind_inv_ok in H as (r & s1 & H & _).
  eapply flush_items_inv; eauto.
Qed.

End Flush.

(* ------------------------------------------------------------------ *)
(** ** Order of the items in a flushed member *)

Section Order.
Context `{B : Backend}.

Lemma texts_app (xs ys : list item) : texts (xs ++ ys) = texts xs ++ texts ys.
Proof. unfold texts. apply omap_app. Qed.

Lemma file_names_app (xs ys : list item) :
  file_names (xs ++ ys) = file_names xs ++ file_names ys.
Proof. unfold file_names. apply omap_app. Qed.

Lemma has_text_app (xs ys : list item) :
  has_text (xs ++ ys) = has_text xs || has_text ys.
Proof. unfold has_text. apply existsb_app. Qed.

Lemma has_text_texts (items : list item) :
  has_text items = match texts items with [] => false | _ => true end.
Proof.
  induction items as [|[t [b|n]] items IH]; cbn; [reflexivity | reflexivity |].
  exact IH.
Qed.

Lemma str_mul_length (c : ascii) (n : nat) :
  String.length (str_mul (String c EmptyString) n) = n.
Proof.
  induction n as [|n IH]; [reflexivity|].
  change (S (String.length (str_mul (String c EmptyString) n)) = S n).
  now f_equal.
Qed.

Lemma section_append_ok (title : string) (c : content) (s : state)
    (items : list item) :
  current_section s = Some items →
  section_append title c s
  = (Ok tt, set_section (Some (items ++ [(title, c)]))
                        (current_section_name s) s).
Proof. intros E. unfold section_append. run_monad. now rewrite E. Qed.

Lemma write_ok (title : string) (data : value) (body : string) (s : state)
    (items : list item) :
  current_section s = Some items →
  render_data data = Ok body →
  write title data s
  = (Ok tt, set_section (Some (items ++ [(title, Text body)]))
                        (current_section_name s) s).
Proof.
  intros E Hr. unfold write. rewrite Hr.
  erewrite bind_ok by reflexivity. now apply section_append_ok.
Qed.

Lemma section_link_ok (title : string) (path : value) (p : string) (s : state)
    (items : list item) :
  current_section s = Some items →
  path = VFile p ∨ (path = VStr p ∧ is_Some (fs s !! p)) →
  link title path s
  = (Ok tt, set_section (Some (items ++ [(title, File p)]))
                        (current_section_name s) s).
Proof.
  intros Hc [->|[-> [d Hd]]]; unfold link.
  - erewrite bind_ok by reflexivity. now apply section_append_ok.
  - erewrite bind_ok.
    2:{ unfold py_open. run_monad. rewrite Hd. reflexivity. }
    now apply section_append_ok.
Qed.

(** C7: [write] puts its item at the end of the current section, and a
    flush serializes the text items of the section in that order into one
    member: for each item the title and a newline, then as many dashes as
    the title has characters and two newlines, then the rendered body, then
    three newlines.  With no text item the blob is empty and no text member
    is written.  The file members come first: the linked files, without the
    archive's own path, which the tar writer skips. *)
Theorem flush_keeps_insertion_order (s : state) (ms : list member)
    (items : list item) :
  arch s = Some ms →
  current_section s = Some items →
  (∀ n, n ∈ file_names items → is_Some (fs s !! n)) →
  (∀ title data body,
     render_data data = Ok body →
     ∃ s', write title data s = (Ok tt, s')
           ∧ current_section s' = Some (items ++ [(title, Text body)])
           ∧ texts (items ++ [(title, Text body)])
             = texts items ++ [(title, body)])
  ∧ (∃ s',
       _flush_content s = (Ok tt, s')
       ∧ arch s'
         = Some (ms ++ (FileMember
                        <$> archived (archive_path s) (file_names items))
                    ++ match texts items with
                       | [] => []
                       | tbs =>
                           [TextMember
                              (default_root s +:+ "/"
                               +:+ format_opt (current_section_name s))
                              (mjoin
                                 ((λ tb,
                                     to_bytes (tb.1 +:+ nl)
                                     ++ to_bytes
                                          (str_mul "-" (String.length tb.1)
                                           +:+ nl +:+ nl)
                                     ++ to_bytes tb.2
                                     ++ to_bytes (nl +:+ nl +:+ nl))
                                  <$> tbs))]
                       end))
  ∧ (∀ title : string,
       String.length (str_mul "-" (String.length title))
       = String.length title).
Proof.
  intros Ha Hc Hf. split; [|split].
  - intros title data body Hr. eexists. split; [|split].
    + apply write_ok; eassumption.
    + reflexivity.
    + rewrite texts_app. reflexivity.
  - eexists. split; [now apply (flush_content_ok _ ms items)|].
    cbn. f_equal. f_equal. unfold flushed.
    rewrite file_names_skip_self, has_text_skip_self, texts_skip_self.
    f_equal. rewrite has_text_texts. destruct (texts items); reflexivity.
  - intros title. apply str_mul_length.
Qed.

End Order.

Lemma flush_keeps_insertion_order_witness :
  arch Sample.filled = Some []
  ∧ current_section Sample.filled = Some Sample.filled_items
  ∧ (∀ n, n ∈ file_names Sample.filled_items
          → is_Some (fs Sample.filled !! n))
  ∧ ∃ s',
      _flush_content (B:=Sample.bare) Sample.filled = (Ok tt, s')
      ∧ arch s'
        = Some [FileMember "/etc/hosts";
                TextMember "2018.06.01-12.00.00-snapshot/system"
                  (list_byte_of_string
                     ("Uptime" +:+ nl +:+ "------" +:+ nl +:+ nl
                      +:+ "raw-content:" +:+ nl +:+ "    up 3 days" +:+ nl
                      +:+ nl +:+ nl +:+ nl
                      +:+ "Kernel" +:+ nl +:+ "------" +:+ nl +:+ nl
                      +:+ "raw-content:" +:+ nl +:+ "    4.15" +:+ nl
                      +:+ nl +:+ nl +:+ nl))].
Proof.
  assert (H1 : arch Sample.filled = Some []) by reflexivity.
  assert (H2 : current_section Sample.filled = Some Sample.filled_items)
    by reflexivity.
  assert (H3 : ∀ n, n ∈ file_names Sample.filled_items
                    → is_Some (fs Sample.filled !! n)).
  { intros n Hn. apply list_elem_of_singleton in Hn as ->.
    vm_compute. eauto. }
  destruct (flush_keeps_insertion_order (B:=Sample.bare) _ _ _ H1 H2 H3)
    as (_ & (s' & Hflush & Harch) & _).
  repeat (split; [assumption|]).
  exists s'. split; [exact Hflush|]. rewrite Harch. reflexivity.
Defined.

(* ------------------------------------------------------------------ *)
(** ** Counting the flushed text members *)

Section Counting.
Context `{B : Backend}.

Lemma text_members_app (xs ys : list member) :
  text_members (xs ++ ys) = text_members xs + text_members ys.
Proof. unfold text_members. now rewrite List.filter_app, length_app. Qed.

Lemma text_members_files (names : list string) :
  text_members (FileMember <$> names) = 0.
Proof. induction names as [|n names IH]; [reflexivity | exact IH]. Qed.

Lemma text_members_flushed (root : string) (name : option string)
    (items : list item) :
  text_members (flushed root name items) = if has_text items then 1 else 0.
Proof.
  unfold flushed. rewrite text_members_app, text_members_files.
  now destruct (has_text items).
Qed.

(** A flush that returned did what [flush_content_run] says. *)
Lemma flush_content_exact (s s' : state) (ms : list member)
    (items : list item) :
  arch s = Some ms →
  current_section s = Some items →
  _flush_content s = (Ok tt, s') →
  s' = set_arch (Some (ms ++ flushed (default_root s)
                                     (current_section_name s)
                                     (skip_self (archive_path s) items)))
                (set_out (out s ++ flush_trace items) s).
Proof.
  intros Ha Hc H.
  pose proof (flush_content_inv _ _ _ _ Ha Hc H) as Hf.
  rewrite (flush_content_run _ _ _ Ha Hc Hf) in H. now inversion H.
Qed.

(** ... and added one text member exactly when the section has a text
    item. *)
Lemma flush_content_count (s s' : state) (ms : list member)
    (items : list item) :
  arch s = Some ms →
  current_section s = Some items →
  _flush_content s = (Ok tt, s') →
  ∃ ms',
    s' = set_arch (Some ms') (set_out (out s ++ flush_trace items) s)
    ∧ text_members ms'
      = text_members ms + (if has_text items then 1 else 0).
Proof.
  intros Ha Hc H.
  pose proof (flush_content_exact _ _ _ _ Ha Hc H) as ->.
  eexists. split; [reflexivity|].
  now rewrite text_members_app, text_members_flushed, has_text_skip_self.
Qed.

Lemma flush_content_no_section (s : state) :
  current_section s = None → _flush_content s = (Ok tt, s).
Proof. intros E. unfold _flush_content. run_monad. now rewrite E. Qed.

(** What a returning [add] leaves behind. *)
Lemma add_inv (name : string) (s s' : state) (ms : list member) :
  arch s = Some ms →
  add name s = (Ok tt, s') →
  ∃ ms',
    arch s' = Some ms'
    ∧ text_members ms'
      = text_members ms
        + (if has_text (default [] (current_section s)) then 1 else 0)
    ∧ current_section s' = Some []
    ∧ current_section_name s' = Some name
    ∧ archive_path s' = archive_path s.
Proof.
  intros Ha H. unfold add in H.
  erewrite bind_ok in H by reflexivity.
  destruct (current_section s) as [[|it items]|] eqn:Hc.
  - unfold discard_current in H. run_monad. inversion H; subst; cbn.
    exists ms. rewrite Nat.add_0_r. auto.
  - apply bind_inv_ok in H as ([] & s1 & Hflush & H).
    apply (flush_content_count _ _ ms (it :: items) Ha Hc) in Hflush
      as (ms' & -> & Hcount).
    unfold discard_current in H. run_monad. inversion H; subst.
    exists ms'. split; [reflexivity|]. split; [exact Hcount|].
    repeat split; reflexivity.
  - unfold discard_current in H. run_monad. inversion H; subst; cbn.
    exists ms. rewrite Nat.add_0_r. auto.
Qed.

Lemma section_append_inv (title : string) (c : content) (s s' : state) :
  section_append title c s = (Ok tt, s') →
  ∃ items,
    current_section s = Some items
    ∧ s' = set_section (Some (items ++ [(title, c)]))
                       (current_section_name s) s.
Proof.
  unfold section_append. run_monad.
  destruct (current_section s) as [items|]; [|discriminate].
  intros H. inversion H. eauto.
Qed.

Lemma write_inv (title : string) (data : value) (s s' : state) :
  write title data s = (Ok tt, s') →
  ∃ items body,
    render_data data = Ok body
    ∧ current_section s = Some items
    ∧ s' = set_section (Some (items ++ [(title, Text body)]))
                       (current_section_name s) s.
Proof.
  unfold write. destruct (render_data data) as [body|e].
  - erewrite bind_ok by reflexivity. intros H.
    apply section_append_inv in H as (items & Hc & ->). eauto.
  - erewrite bind_raise by reflexivity. discriminate.
Qed.

Lemma link_inv (title : string) (path : value) (s s' : state) :
  link title path s = (Ok tt, s') →
  ∃ items n,
    current_section s = Some items
    ∧ s' = set_section (Some (items ++ [(title, File n)]))
                       (current_section_name s) s.
Proof.
  unfold link. intros H.
  apply bind_inv_ok in H as (n & s1 & Hn & H).
  apply link_handle_keeps_state in Hn as ->.
  apply section_append_inv in H as (items & Hc & ->). eauto.
Qed.

(** What a returning [close] stores under the archive path. *)
Lemma close_inv (s s' : state) (ms : list member) :
  arch s = Some ms →
  close s = (Ok tt, s') →
  ∃ final,
    fs s' !! archive_path s = Some (Tar final)
    ∧ text_members final
      = text_members ms
        + (if has_text (default [] (current_section s)) then 1 else 0)
    ∧ arch s' = None
    ∧ current_section s' = current_section s
    ∧ current_section_name s' = current_section_name s.
Proof.
  intros Ha H. unfold close in H.
  erewrite bind_ok in H by reflexivity. rewrite Ha in H.
  apply bind_inv_ok in H as ([] & s1 & Hflush & H).
  destruct (current_section s) as [items|] eqn:Hc.
  - apply (flush_content_count _ _ ms items Ha Hc) in Hflush
      as (ms' & -> & Hcount).
    unfold modify in H. inversion H; subst.
    cbn [fs set_fs set_arch set_out archive_path arch current_section
         current_section_name default from_option id].
    exists ms'. split; [apply lookup_insert_eq|]. split; [exact Hcount|].
    repeat split; first [reflexivity | assumption].
  - rewrite (flush_content_no_section _ Hc) in Hflush.
    inversion Hflush; subst.
    unfold modify in H. inversion H; subst; cbn. rewrite Ha.
    eexists. split; [apply lookup_insert_eq|].
    cbn. rewrite Nat.add_0_r. auto.
Qed.

Lemma calls_then_close_count (ops : list op) (s s' : state)
    (ms : list member) :
  arch s = Some ms →
  (for_each ops run_op;;; close) s = (Ok tt, s') →
  ∃ final,
    fs s' !! archive_path s = Some (Tar final)
    ∧ text_members final
      = text_members ms
        + sections_with_text ops (has_text (default [] (current_section s))).
Proof.
  revert s ms. induction ops as [|o ops IH]; intros s ms Ha H.
  - cbn [for_each] in H. erewrite bind_ok in H by reflexivity.
    destruct (close_inv _ _ _ Ha H) as (final & Hfs & Hcount & _).
    exists final. auto.
  - cbn [for_each] in H.
    apply bind_inv_ok in H as ([] & s2 & H1 & H).
    apply bind_inv_ok in H1 as ([] & s1 & Hop & H1).
    assert (Hrest : (for_each ops run_op;;; close) s1 = (Ok tt, s')).
    { erewrite bind_ok by exact H1. exact H. }
    destruct o as [name|title data|title path]; cbn [run_op] in Hop.
    + destruct (add_inv _ _ _ _ Ha Hop) as (ms' & Ha' & Hc & Hs & _ & Hp).
      destruct (IH _ _ Ha' Hrest) as (final & Hfs & Hcount).
      exists final. rewrite <- Hp. split; [exact Hfs|].
      rewrite Hcount, Hc, Hs. cbn. lia.
    + apply write_inv in Hop as (items & body & _ & Hc & ->).
      eapply IH in Hrest as (final & Hfs & Hcount); [|exact Ha].
      exists final. split; [exact Hfs|].
      rewrite Hcount. cbn. rewrite has_text_app. cbn.
      now rewrite orb_true_r.
    + apply link_inv in Hop as (items & n & Hc & ->).
      eapply IH in Hrest as (final & Hfs & Hcount); [|exact Ha].
      exists final. split; [exact Hfs|].
      rewrite Hcount. cbn. rewrite has_text_app, Hc. cbn.
      now rewrite orb_false_r.
Qed.

(** C3: on a collector that has just been opened, any sequence of [add],
    [write] and [link] calls that returns, followed by a [close()] that
    returns, leaves an archive whose number of text members is the number
    of sections of the sequence that received at least one [write]; a
    section with no [write], linked files or not, contributes none. *)
Theorem text_members_count_sections (ops : list op) (s s' : state) :
  arch s = Some [] →
  current_section s = None →
  (for_each ops run_op;;; close) s = (Ok tt, s') →
  ∃ final,
    fs s' !! archive_path s = Some (Tar final)
    ∧ text_members final = sections_with_text ops false.
Proof.
  intros Ha Hc H.
  destruct (calls_then_close_count _ _ _ _ Ha H) as (final & Hfs & Hcount).
  exists final. split; [exact Hfs|]. rewrite Hcount, Hc. reflexivity.
Qed.

(** Sequences of ready calls on an open collector with a section do
    return, and so does the [close()] after them. *)
Lemma ready_calls_return (ops : list op) (s : state) (ms : list member)
    (items : list item) :
  arch s = Some ms →
  current_section s = Some items →
  (∀ n, n ∈ file_names items → is_Some (fs s !! n)) →
  Forall (call_ready (fs s)) ops →
  ∃ s', (for_each ops run_op;;; close) s = (Ok tt, s').
Proof.
  revert s ms items.
  induction ops as [|o ops IH]; intros s ms items Ha Hc Hf Hready.
  - cbn [for_each]. erewrite bind_ok by reflexivity.
    unfold close. erewrite bind_ok by reflexivity. rewrite Ha.
    erewrite bind_ok by (apply (flush_content_ok _ ms items); assumption).
    eexists. reflexivity.
  - apply Forall_cons in Hready as [Ho Hready].
    assert (Hstep : ∃ s1 ms1 items1,
              run_op o s = (Ok tt, s1) ∧ arch s1 = Some ms1
              ∧ current_section s1 = Some items1 ∧ fs s1 = fs s
              ∧ ∀ n, n ∈ file_names items1 → is_Some (fs s !! n)).
    { destruct o as [name|title data|title path]; cbn [run_op].
      - unfold add. erewrite bind_ok by reflexivity. rewrite Hc.
        destruct items as [|it items].
        + erewrite bind_ok by reflexivity.
          eexists _, ms, []. split; [reflexivity|].
          split; [exact Ha|]. split; [reflexivity|]. split; [reflexivity|].
          intros n Hn. inversion Hn.
        + erewrite bind_ok
            by (apply (flush_content_ok _ ms (it :: items)); assumption).
          eexists _, _, []. split; [reflexivity|].
          split; [reflexivity|]. split; [reflexivity|]. split; [reflexivity|].
          intros n Hn. inversion Hn.
      - destruct Ho as [body Hr].
        eexists _, ms, _. split; [now apply (write_ok _ _ body _ items)|].
        split; [exact Ha|]. split; [reflexivity|]. split; [reflexivity|].
        intros n Hn.
        rewrite file_names_app, app_nil_r in Hn. now apply Hf.
      - destruct Ho as (p & Hpath & Hp).
        eexists _, ms, _. split.
        { apply (section_link_ok _ _ p _ items); [exact Hc|].
          destruct Hpath as [->| ->]; [left | right]; auto. }
        split; [exact Ha|]. split; [reflexivity|]. split; [reflexivity|].
        intros n Hn.
        rewrite file_names_app in Hn.
        apply elem_of_app in Hn as [Hn|Hn]; [now apply Hf|].
        apply list_elem_of_singleton in Hn as ->. exact Hp. }
    destruct Hstep as (s1 & ms1 & items1 & Hop & Ha1 & Hc1 & Hfs & Hf1).
    destruct (IH s1 ms1 items1 Ha1 Hc1) as [s' Hrest].
    + intros n Hn. rewrite Hfs. now apply Hf1.
    + now rewrite Hfs.
    + exists s'. cbn [for_each].
      apply bind_inv_ok in Hrest as ([] & s2 & Hfor & Hclose).
      erewrite bind_ok; [exact Hclose|].
      erewrite bind_ok by exact Hop. exact Hfor.
Qed.

(** The same from a collector that was just opened, when the sequence
    begins with [add]. *)
Lemma ready_calls_return_fresh (name : string) (ops : list op) (s : state)
    (ms : list member) :
  arch s = Some ms →
  current_section s = None →
  Forall (call_ready (fs s)) ops →
  ∃ s', (for_each (Add name :: ops) run_op;;; close) s = (Ok tt, s').
Proof.
  intros Ha Hc Hready.
  destruct (ready_calls_return ops (set_section (Some []) (Some name) s)
              ms [] Ha eq_refl) as [s' Hrest].
  - intros n Hn. inversion Hn.
  - exact Hready.
  - exists s'. cbn [for_each run_op].
    apply bind_inv_ok in Hrest as ([] & s2 & Hfor & Hclose).
    erewrite bind_ok; [exact Hclose|].
    erewrite bind_ok; [exact Hfor|].
    unfold add. erewrite bind_ok by reflexivity. rewrite Hc.
    erewrite bind_ok by reflexivity. reflexivity.
Qed.

End Counting.

Lemma text_members_count_sections_witness :
  arch Sample.opened = Some []
  ∧ current_section Sample.opened = None
  ∧ ∃ s' final,
      (for_each sample_calls (run_op (B:=Sample.bare));;; close (B:=Sample.bare))
        Sample.opened = (Ok tt, s')
      ∧ fs s' !! Sample.target = Some (Tar final)
      ∧ text_members final = 2.
Proof.
  assert (H1 : arch Sample.opened = Some []) by reflexivity.
  assert (H2 : current_section Sample.opened = None) by reflexivity.
  split; [exact H1|]. split; [exact H2|].
  eexists.
  assert (H3 : (for_each sample_calls (run_op (B:=Sample.bare));;;
                close (B:=Sample.bare)) Sample.opened = (Ok tt, _))
    by (vm_compute; reflexivity).
  destruct (text_members_count_sections (B:=Sample.bare) _ _ _ H1 H2 H3)
    as (final & Hfs & Hcount).
  exists final. split; [exact H3|]. split; [exact Hfs | exact Hcount].
Defined.

(** C3 as stated fails: a section whose only item is a file handle given to
    [write] received no non-file item, and yet it is flushed as a text
    member; [write] renders the handle like any other value. *)
Lemma handle_section_text_member_counterexample :
  let calls := [Add "files"; Write "hosts" (VFile "/etc/hosts")] in
  let closed :=
    (for_each calls (run_op (B:=Sample.bare));;; close (B:=Sample.bare))
      Sample.opened in
  closed.1 = Ok tt
  ∧ sections_with_non_file_item calls false = 0
  ∧ sections_with_text calls false = 1
  ∧ ∃ data,
      fs closed.2 !! Sample.target
      = Some (Tar [TextMember "2018.06.01-12.00.00-snapshot/files" data])
      ∧ text_members
          [TextMember "2018.06.01-12.00.00-snapshot/files" data] = 1.
Proof. vm_compute. repeat split. eexists. split; reflexivity. Qed.

(* ------------------------------------------------------------------ *)
(** ** What [close] leaves in the collector *)

Section Reopen.
Context `{B : Backend}.

Lemma close_run (s : state) (ms : list member) (items : list item) :
  arch s = Some ms →
  current_section s = Some items →
  (∀ n, n ∈ file_names items → n ≠ archive_path s → is_Some (fs s !! n)) →
  close s
  = (Ok tt,
     set_arch None
       (set_fs (<[archive_path s :=
                  Tar (ms ++ flushed (default_root s)
                                     (current_section_name s)
                                     (skip_self (archive_path s) items))]>
                  (fs s))
          (set_out (out s ++ flush_trace items) s))).
Proof.
  intros Ha Hc Hf. unfold close.
  erewrite bind_ok by reflexivity. rewrite Ha.
  erewrite bind_ok by (apply (flush_content_run _ ms items); assumption).
  reflexivity.
Qed.

Lemma close_ok (s : state) (ms : list member) (items : list item) :
  arch s = Some ms →
  current_section s = Some items →
  (∀ n, n ∈ file_names items → is_Some (fs s !! n)) →
  close s
  = (Ok tt,
     set_arch None
       (set_fs (<[archive_path s :=
                  Tar (ms ++ flushed (default_root s)
                                     (current_section_name s)
                                     (skip_self (archive_path s) items))]>
                  (fs s))
          (set_out (out s ++ flush_trace items) s))).
Proof. intros Ha Hc Hf. apply close_run; auto. Qed.

Lemma open_ok (s : state) :
  arch s = None →
  open s
  = (Ok tt, set_arch (Some [])
              (set_fs (<[archive_path s := Tar []]> (fs s)) s)).
Proof. intros Ha. unfold open. run_monad. now rewrite Ha. Qed.

Lemma lookup_insert_is_Some' (m : gmap string fdata) (p n : string)
    (d : fdata) :
  is_Some (m !! n) → is_Some (<[p := d]> m !! n).
Proof.
  intros H. destruct (decide (p = n)) as [->|Hne].
  - rewrite lookup_insert_eq. eauto.
  - now rewrite lookup_insert_ne.
Qed.

(** C9: a [close()] that flushed a section with a text item leaves the
    section list and the section name in place; an [open()] and a [close()]
    that follow on the same collector return, and flush the very same
    members, the text member included, into the archive that [open()]
    created anew under the same path.  The members of a section are its
    linked files, the archive's own path excepted, and its text member. *)
Theorem close_keeps_section (s s1 : state) (ms : list member)
    (items : list item) :
  arch s = Some ms →
  current_section s = Some items →
  has_text items = true →
  close s = (Ok tt, s1) →
  let again :=
    flushed (default_root s) (current_section_name s)
            (skip_self (archive_path s) items) in
  let blob :=
    TextMember (default_root s +:+ "/" +:+ format_opt (current_section_name s))
               (mjoin ((λ tb, render_item tb.1 tb.2) <$> texts items)) in
  current_section s1 = Some items
  ∧ current_section_name s1 = current_section_name s
  ∧ fs s1 !! archive_path s = Some (Tar (ms ++ again))
  ∧ blob ∈ again
  ∧ ∃ s2 s3,
      open s1 = (Ok tt, s2)
      ∧ close s2 = (Ok tt, s3)
      ∧ fs s3 !! archive_path s = Some (Tar again)
      ∧ current_section s3 = Some items.
Proof.
  intros Ha Hc Ht Hclose again blob.
  assert (Hf : ∀ n, n ∈ file_names items → n ≠ archive_path s
                    → is_Some (fs s !! n)).
  { unfold close in Hclose. erewrite bind_ok in Hclose by reflexivity.
    rewrite Ha in Hclose.
    apply bind_inv_ok in Hclose as ([] & s' & Hflush & _).
    eapply flush_content_inv; eauto. }
  rewrite (close_run _ _ _ Ha Hc Hf) in Hclose. inversion Hclose; subst s1.
  clear Hclose.
  split; [exact Hc|]. split; [reflexivity|].
  split; [apply lookup_insert_eq|].
  split.
  { unfold again, flushed. rewrite has_text_skip_self, texts_skip_self, Ht.
    apply elem_of_app. right. now left. }
  eexists _, _. split; [now apply open_ok|]. split.
  - apply (close_run _ [] items); [reflexivity | exact Hc |].
    intros n Hn Hne. cbn.
    now apply lookup_insert_is_Some', lookup_insert_is_Some', Hf.
  - split; [apply lookup_insert_eq | exact Hc].
Qed.

End Reopen.

Lemma close_keeps_section_witness :
  arch Sample.filled = Some []
  ∧ current_section Sample.filled = Some Sample.filled_items
  ∧ has_text Sample.filled_items = true
  ∧ ∃ s1 s2 s3 m,
      close (B:=Sample.bare) Sample.filled = (Ok tt, s1)
      ∧ open s1 = (Ok tt, s2)
      ∧ close (B:=Sample.bare) s2 = (Ok tt, s3)
      ∧ fs s1 !! Sample.target = Some (Tar [FileMember "/etc/hosts"; m])
      ∧ fs s3 !! Sample.target = Some (Tar [FileMember "/etc/hosts"; m])
      ∧ is_text_member m = true.
Proof.
  assert (H1 : arch Sample.filled = Some []) by reflexivity.
  assert (H2 : current_section Sample.filled = Some Sample.filled_items)
    by reflexivity.
  assert (H3 : has_text Sample.filled_items = true) by reflexivity.
  assert (H4 : close (B:=Sample.bare) Sample.filled
               = (Ok tt, (close (B:=Sample.bare) Sample.filled).2))
    by (vm_compute; reflexivity).
  destruct (close_keeps_section (B:=Sample.bare) _ _ _ _ H1 H2 H3 H4)
    as (_ & _ & Hfs1 & _ & s2 & s3 & Ho & Hc & Hfs3 & _).
  repeat (split; [assumption|]).
  eexists _, s2, s3, _.
  split; [exact H4|]. split; [exact Ho|]. split; [exact Hc|].
  split; [exact Hfs1|]. split; [exact Hfs3 | reflexivity].
Defined.

(* ------------------------------------------------------------------ *)
(** ** Linked files *)

Section Linking.
Context `{B : Backend}.

Lemma discard_current_ok (name : option string) (s : state) :
  discard_current name s = (Ok tt, set_section (Some []) name s).
Proof. reflexivity. Qed.

(** C2, as the code has it: [link] records the file as an item of the
    current section and leaves the archive as it is; the file becomes a
    member of its own, under its own path, when that section is flushed,
    whether the section has text items or not, unless the path is the
    archive's own, which the tar writer skips; if the section is discarded
    first, a following [close()] stores the archive without it.  A file
    handle given to [write] is stringified and rendered like any other
    value: the call appends one text item whose body is the rendering of
    [{'raw-content': str(handle)}], and adds no file. *)
Theorem linked_file_archived_on_flush (title : string) (path : value)
    (p : string) (s : state) (ms : list member) (items : list item) :
  arch s = Some ms →
  current_section s = Some items →
  (∀ n, n ∈ file_names items → is_Some (fs s !! n)) →
  is_Some (fs s !! p) →
  path = VFile p ∨ path = VStr p →
  let raw := VDict [("raw-content", VStr (py_repr (VFile p)))] in
  ∃ s1,
    link title path s = (Ok tt, s1)
    ∧ arch s1 = Some ms
    ∧ current_section s1 = Some (items ++ [(title, File p)])
    ∧ (∃ s2,
         _flush_content s1 = (Ok tt, s2)
         ∧ arch s2
           = Some (ms ++ (FileMember
                          <$> archived (archive_path s) (file_names items))
                      ++ (if String.eqb p (archive_path s)
                          then []
                          else [FileMember p])
                      ++ if has_text items
                         then [TextMember
                                 (default_root s +:+ "/"
                                  +:+ format_opt (current_section_name s))
                                 (mjoin ((λ tb, render_item tb.1 tb.2)
                                         <$> texts items))]
                         else []))
    ∧ (∀ name, ∃ s3,
         (discard_current name;;; close) s1 = (Ok tt, s3)
         ∧ fs s3 !! archive_path s = Some (Tar ms))
    ∧ write title (VFile p) s
      = (Ok tt,
         set_section
           (Some (items ++ [(title,
                             Text match try_printout raw with
                                  | Some c => c
                                  | None => yaml_safe_dump raw
                                  end)]))
           (current_section_name s) s).
Proof.
  intros Ha Hc Hf Hp Hpath raw.
  eexists. split.
  { apply (section_link_ok _ _ p); [exact Hc|].
    destruct Hpath as [->| ->]; [left | right]; auto. }
  split; [exact Ha|]. split; [reflexivity|]. split; [|split].
  - eexists. split.
    + apply (flush_content_ok _ ms (items ++ [(title, File p)]));
        [exact Ha | reflexivity |].
      intros n Hn. rewrite file_names_app in Hn.
      apply elem_of_app in Hn as [Hn|Hn]; [now apply Hf|].
      apply list_elem_of_singleton in Hn as ->. exact Hp.
    + cbn [arch set_arch archive_path set_section]. unfold flushed.
      rewrite file_names_skip_self, has_text_skip_self, texts_skip_self.
      rewrite file_names_app. unfold archived at 1.
      rewrite List.filter_app, fmap_app, <- !app_assoc.
      rewrite has_text_app, texts_app. cbn.
      rewrite orb_false_r, app_nil_r.
      destruct (String.eqb p (archive_path s)); reflexivity.
  - intros name. eexists. split.
    + erewrite bind_ok by apply discard_current_ok.
      apply (close_ok _ ms []); [exact Ha | reflexivity |].
      intros n Hn. inversion Hn.
    + cbn. rewrite app_nil_r. apply lookup_insert_eq.
  - apply write_ok; [exact Hc|].
    unfold render_data. cbn [is_dict py_str]. fold raw.
    destruct (try_printout raw); reflexivity.
Qed.

End Linking.

Lemma linked_file_archived_on_flush_witness :
  arch Sample.sectioned = Some []
  ∧ current_section Sample.sectioned = Some []
  ∧ is_Some (fs Sample.sectioned !! "/etc/hosts")
  ∧ (∃ s1 s2,
       link "hosts" (VStr "/etc/hosts") Sample.sectioned = (Ok tt, s1)
       ∧ arch s1 = Some []
       ∧ _flush_content (B:=Sample.bare) s1 = (Ok tt, s2)
       ∧ arch s2 = Some [FileMember "/etc/hosts"])
  ∧ write (B:=Sample.bare) "hosts" (VFile "/etc/hosts") Sample.sectioned
    = (Ok tt,
       set_section
         (Some [("hosts",
                 Text ("raw-content:" +:+ nl
                       +:+ "    <open file '/etc/hosts', mode 'r'>"
                       +:+ nl))])
         (Some "files") Sample.sectioned).
Proof.
  assert (H1 : arch Sample.sectioned = Some []) by reflexivity.
  assert (H2 : current_section Sample.sectioned = Some []) by reflexivity.
  assert (H3 : is_Some (fs Sample.sectioned !! "/etc/hosts"))
    by (vm_compute; eauto).
  assert (H0 : ∀ n, n ∈ file_names [] → is_Some (fs Sample.sectioned !! n))
    by (intros n Hn; inversion Hn).
  destruct (linked_file_archived_on_flush (B:=Sample.bare) "hosts"
              (VStr "/etc/hosts") "/etc/hosts" _ _ _ H1 H2 H0 H3
              (or_intror eq_refl))
    as (s1 & Hl & Ha & _ & (s2 & Hf & Ha2) & _ & Hw).
  repeat (split; [assumption|]).
  split; [|exact Hw].
  exists s1, s2. split; [exact Hl|]. split; [exact Ha|]. split; [exact Hf|].
  exact Ha2.
Defined.

(** C2 as stated fails: after [link] the archive is still empty, and once
    the section is discarded the closed archive does not hold the file; a
    handle given to [write] becomes a text item and no file member. *)
Lemma link_not_immediate_counterexample :
  let linked := link "hosts" (VStr "/etc/hosts") Sample.sectioned in
  let closed := (discard_current None;;; close (B:=Sample.bare)) linked.2 in
  let written :=
    (write (B:=Sample.bare) "hosts" (VFile "/etc/hosts");;;
     close (B:=Sample.bare)) Sample.sectioned in
  linked.1 = Ok tt
  ∧ arch linked.2 = Some []
  ∧ closed.1 = Ok tt
  ∧ fs closed.2 !! Sample.target = Some (Tar [])
  ∧ written.1 = Ok tt
  ∧ ∃ data,
      fs written.2 !! Sample.target
      = Some (Tar [TextMember "2018.06.01-12.00.00-snapshot/files" data]).
Proof. vm_compute. repeat split. eexists. reflexivity. Qed.

(* ------------------------------------------------------------------ *)
(** ** Failure isolation of external calls *)

Section Isolation.
Context `{B : Backend}.

Lemma render_data_string (msg : string) :
  render_data (VStr msg)
  = Ok match try_printout (VDict [("raw-content", VStr msg)]) with
       | Some c => c
       | None => yaml_safe_dump (VDict [("raw-content", VStr msg)])
       end.
Proof.
  unfold render_data. cbn.
  now destruct (try_printout (VDict [("raw-content", VStr msg)])).
Qed.

(** C4, as the code has it: when the backend call of an external action
    leaves by [SystemExit] or raises an exception, [_local_call] returns
    the message ("Data is not available at this moment", or "Unhandled
    exception occurred: " followed by the exception's message) and reports
    it on the console as an error; [write] receives that string, and the
    body of the item it appends is what the renderer makes of the mapping
    [{'raw-content': message}]; the loop then goes on with the remaining
    actions of the category. *)
Theorem external_failure_isolated (action : value) (info msg : string)
    (conf : call_conf) (rest : list value) (s : state) (items : list item) :
  _get_action action = Ok (VStr info, conf) →
  intfunc conf = false →
  current_section s = Some items →
  (caller_call conf = SystemExit
   ∧ msg = "Data is not available at this moment")
  ∨ (∃ ex, caller_call conf = Raised ex
           ∧ msg = "Unhandled exception occurred: " +:+ exn_msg ex) →
  let wrapped := VDict [("raw-content", VStr msg)] in
  let body :=
    match try_printout wrapped with
    | Some c => c
    | None => yaml_safe_dump wrapped
    end in
  _local_call conf s = (Ok (VStr msg), set_out (out s ++ [Error msg]) s)
  ∧ for_each (action :: rest) collect_action s
    = for_each rest collect_action
        (set_section (Some (items ++ [(info, Text body)]))
           (current_section_name s)
           (set_out (out s ++ [Put ("Collecting " +:+ str_lower info) 2;
                               Error msg]) s)).
Proof.
  intros Hget Hext Hc Hfail wrapped body.
  assert (Hcall : ∀ s0, _local_call conf s0
                        = (Ok (VStr msg), set_out (out s0 ++ [Error msg]) s0)).
  { intros s0. unfold _local_call.
    destruct Hfail as [[-> ->]|(ex & -> & ->)]; reflexivity. }
  split; [apply Hcall|].
  cbn [for_each]. erewrite bind_ok; [reflexivity|].
  unfold collect_action. rewrite Hget.
  erewrite bind_ok by reflexivity. cbn [fst snd]. rewrite Hext. cbn [negb].
  erewrite bind_ok by reflexivity.
  erewrite bind_ok by apply Hcall.
  rewrite (write_ok info (VStr msg) body _ items);
    [| exact Hc | apply render_data_string].
  cbn. rewrite <- app_assoc. reflexivity.
Qed.

End Isolation.

Lemma external_failure_isolated_witness :
  _get_action Sample.failing_action
  = Ok (VStr "Uptime", mkConf "cmd.run" [VStr "uptime"] ∅ false)
  ∧ current_section Sample.sectioned = Some []
  ∧ for_each [Sample.failing_action; Sample.failing_action]
             (collect_action (B:=Sample.bare)) Sample.sectioned
    = for_each [Sample.failing_action] (collect_action (B:=Sample.bare))
        (set_section
           (Some [("Uptime",
                   Text ("raw-content:" +:+ nl
                         +:+ "    Unhandled exception occurred: 'cmd.run' is not available."
                         +:+ nl))])
           (Some "files")
           (set_out [Put "Collecting uptime" 2;
                     Error "Unhandled exception occurred: 'cmd.run' is not available."]
                    Sample.sectioned)).
Proof.
  assert (H1 : _get_action Sample.failing_action
               = Ok (VStr "Uptime", mkConf "cmd.run" [VStr "uptime"] ∅ false))
    by reflexivity.
  assert (H2 : current_section Sample.sectioned = Some []) by reflexivity.
  split; [exact H1|]. split; [exact H2|].
  refine (proj2 (external_failure_isolated (B:=Sample.bare)
                   Sample.failing_action "Uptime"
                   "Unhandled exception occurred: 'cmd.run' is not available."
                   _ [Sample.failing_action] Sample.sectioned [] H1 eq_refl H2
                   (or_intror (ex_intro _ (KeyError "'cmd.run' is not available.")
                                 (conj eq_refl eq_refl))))).
Defined.

(** C4 as stated fails: the body of the item is the rendering of the
    wrapped message, not the message. *)
Lemma failure_body_not_exact_counterexample :
  let s := (collect_action (B:=Sample.bare) Sample.failing_action
              Sample.sectioned).2 in
  Sample.caller (mkConf "cmd.run" [VStr "uptime"] ∅ false)
  = Raised (KeyError "'cmd.run' is not available.")
  ∧ ∃ body,
      current_section s = Some [("Uptime", Text body)]
      ∧ body ≠ "Unhandled exception occurred: " +:+ "'cmd.run' is not available.".
Proof.
  split; [reflexivity|]. eexists. split; [vm_compute; reflexivity|].
  discriminate.
Qed.

(* ------------------------------------------------------------------ *)
(** ** One category with an external and an internal action *)

Section EndToEnd.
Context `{B : Backend}.

Lemma add_fresh (name : string) (s : state) :
  current_section s = None ∨ current_section s = Some [] →
  add name s = (Ok tt, set_section (Some []) (Some name) s).
Proof.
  intros Hc. unfold add. erewrite bind_ok by reflexivity.
  destruct Hc as [-> | ->]; reflexivity.
Qed.

Lemma link_all_ok (paths : list string) (s : state) (items : list item) :
  current_section s = Some items →
  (∀ p, p ∈ paths → is_Some (fs s !! p)) →
  link_all paths s
  = (Ok VNone, set_section (Some (items ++ linked_items paths))
                           (current_section_name s) s).
Proof.
  intros Hc Hp. unfold link_all.
  erewrite bind_ok; [reflexivity|].
  revert s items Hc Hp. induction paths as [|p paths IH]; intros s items Hc Hp.
  - cbn. rewrite app_nil_r, <- Hc, set_section_same. reflexivity.
  - cbn [for_each].
    erewrite bind_ok.
    2:{ apply (section_link_ok _ _ p _ items); [exact Hc|]. right.
        split; [reflexivity|]. apply Hp. now left. }
    rewrite (IH _ (items ++ [(p, File p)])); [| reflexivity |].
    + cbn. rewrite <- app_assoc. reflexivity.
    + intros q Hq. apply Hp. now right.
Qed.

Lemma collect_external_ok (action : value) (info body : string)
    (conf : call_conf) (r : value) (s : state) (items : list item) :
  _get_action action = Ok (VStr info, conf) →
  intfunc conf = false →
  caller_call conf = Returned r →
  render_data r = Ok body →
  current_section s = Some items →
  collect_action action s
  = (Ok tt,
     set_section (Some (items ++ [(info, Text body)]))
       (current_section_name s)
       (set_out (out s ++ [Put ("Collecting " +:+ str_lower info) 2]) s)).
Proof.
  intros Hget Hext Hcall Hr Hc. unfold collect_action. rewrite Hget.
  erewrite bind_ok by reflexivity. cbn [fst snd]. rewrite Hext. cbn [negb].
  erewrite bind_ok by reflexivity.
  unfold _local_call. rewrite Hcall.
  erewrite bind_ok by reflexivity.
  exact (write_ok info r body
           (set_out (out s ++ [Put ("Collecting " +:+ str_lower info) 2]) s)
           items Hc Hr).
Qed.

Lemma collect_internal_ok (action info : value) (conf : call_conf)
    (f : list value → gmap string value → M value) (paths : list string)
    (s : state) :
  _get_action action = Ok (info, conf) →
  intfunc conf = true →
  intfunc_registry (fun_ conf) = Some f →
  f (arg conf) (kwargs conf) = link_all paths →
  (∀ p, p ∈ paths → is_Some (fs s !! p)) →
  collect_action action s
  = (Ok tt, set_section (Some (linked_items paths)) None s).
Proof.
  intros Hget Hint Hreg Hf Hp. unfold collect_action. rewrite Hget.
  erewrite bind_ok by reflexivity. cbn [fst snd]. rewrite Hint. cbn [negb].
  erewrite bind_ok by apply discard_current_ok.
  unfold _internal_function_call. rewrite Hreg, Hf.
  erewrite bind_ok.
  2:{ apply (link_all_ok _ _ []); [reflexivity | exact Hp]. }
  reflexivity.
Qed.

Lemma file_names_linked (paths : list string) :
  file_names (linked_items paths) = paths.
Proof. induction paths as [|p paths IH]; cbn; [reflexivity | now f_equal]. Qed.

Lemma texts_linked (paths : list string) : texts (linked_items paths) = [].
Proof. induction paths as [|p paths IH]; [reflexivity | exact IH]. Qed.

Lemma has_text_linked (paths : list string) :
  has_text (linked_items paths) = false.
Proof. induction paths as [|p paths IH]; [reflexivity | exact IH]. Qed.

(** C1, as the code has it.  The profile has one category with one
    external action (whose call returns, and whose result renders to
    [body]) and one internal action (whose function links [paths] and
    writes nothing else); the collector is fresh.  Then [open()],
    [collect_master_data()], [close()] return, and the archive holds the
    linked files (the archive's own path excepted, which the tar writer
    skips) followed, only when the internal action comes first, by one
    text member, named "<root>/None", with the external action's item and
    nothing else.  When the external action comes first the archive has no
    text member: [discard_current()] dropped its item. *)
Theorem master_data_one_category (ext_first : bool) (cat info body : string)
    (a_ext a_int int_info r : value) (c_ext c_int : call_conf)
    (f : list value → gmap string value → M value) (paths : list string)
    (s : state) :
  get_profile = [(cat, if ext_first then [a_ext; a_int] else [a_int; a_ext])] →
  _get_action a_ext = Ok (VStr info, c_ext) →
  intfunc c_ext = false →
  caller_call c_ext = Returned r →
  render_data r = Ok body →
  _get_action a_int = Ok (int_info, c_int) →
  intfunc c_int = true →
  intfunc_registry (fun_ c_int) = Some f →
  f (arg c_int) (kwargs c_int) = link_all paths →
  arch s = None →
  current_section s = None →
  (∀ p, p ∈ paths → is_Some (fs s !! p)) →
  ∃ s',
    (open;;; collect_master_data;;; close) s = (Ok tt, s')
    ∧ fs s' !! archive_path s
      = Some (Tar ((FileMember <$> archived (archive_path s) paths)
                   ++ if ext_first then []
                      else [TextMember (default_root s +:+ "/None")
                                       (render_item info body)])).
Proof.
  intros Hprof Hge He Hcall Hr Hgi Hi Hreg Hf Ha Hc Hp.
  set (s1 := set_arch (Some [])
               (set_fs (<[archive_path s := Tar []]> (fs s)) s)).
  set (s2 := set_section (Some []) (Some cat)
               (set_out (out s1 ++ [Put cat 0]) s1)).
  assert (Hp2 : ∀ st, fs st = fs s1 →
                      ∀ p, p ∈ paths → is_Some (fs st !! p)).
  { intros st -> p Hin. cbn. now apply lookup_insert_is_Some', Hp. }
  assert (Hcat : ∀ acts sf,
            for_each acts collect_action s2 = (Ok tt, sf) →
            get_profile = [(cat, acts)] →
            collect_master_data s1 = (Ok tt, sf)).
  { intros acts sf Hacts Hprof'. unfold collect_master_data.
    rewrite Hprof'. cbn [for_each].
    erewrite bind_ok; [reflexivity|].
    unfold collect_category. cbn [fst snd].
    erewrite bind_ok by reflexivity.
    erewrite bind_ok by (apply add_fresh; left; exact Hc).
    exact Hacts. }
  destruct ext_first.
  - set (s3 := set_section (Some [(info, Text body)]) (Some cat)
                 (set_out (out s2 ++ [Put ("Collecting " +:+ str_lower info) 2])
                          s2)).
    set (s4 := set_section (Some (linked_items paths)) None s3).
    assert (Hacts : for_each [a_ext; a_int] collect_action s2 = (Ok tt, s4)).
    { cbn [for_each].
      erewrite bind_ok
        by (apply (collect_external_ok _ _ _ _ _ _ [] Hge He Hcall Hr);
            reflexivity).
      erewrite bind_ok; [reflexivity|].
      apply (collect_internal_ok _ _ _ _ _ _ Hgi Hi Hreg Hf).
      now apply Hp2. }
    exists (close s4).2.
    assert (Hclose : close s4 = _)
      by (apply (close_ok s4 [] (linked_items paths));
          [reflexivity | reflexivity |];
          rewrite file_names_linked; now apply Hp2).
    split.
    + erewrite bind_ok by (apply open_ok; exact Ha).
      erewrite bind_ok by (apply (Hcat _ _ Hacts Hprof)).
      rewrite Hclose. reflexivity.
    + rewrite Hclose. cbn [snd fs set_arch set_fs archive_path].
      rewrite lookup_insert_eq. unfold flushed.
      rewrite file_names_skip_self, has_text_skip_self, texts_skip_self.
      rewrite file_names_linked, has_text_linked. reflexivity.
  - set (s3 := set_section (Some (linked_items paths)) None s2).
    set (s4 := set_section (Some (linked_items paths ++ [(info, Text body)]))
                 None
                 (set_out (out s3 ++ [Put ("Collecting " +:+ str_lower info) 2])
                          s3)).
    assert (Hacts : for_each [a_int; a_ext] collect_action s2 = (Ok tt, s4)).
    { cbn [for_each].
      erewrite bind_ok
        by (apply (collect_internal_ok _ _ _ _ _ _ Hgi Hi Hreg Hf);
            now apply Hp2).
      erewrite bind_ok; [reflexivity|].
      exact (collect_external_ok a_ext info body c_ext r s3
               (linked_items paths) Hge He Hcall Hr eq_refl). }
    exists (close s4).2.
    assert (Hclose : close s4 = _)
      by (apply (close_ok s4 [] (linked_items paths ++ [(info, Text body)]));
          [reflexivity | reflexivity |];
          rewrite file_names_app, file_names_linked, app_nil_r;
          now apply Hp2).
    split.
    + erewrite bind_ok by (apply open_ok; exact Ha).
      erewrite bind_ok by (apply (Hcat _ _ Hacts Hprof)).
      rewrite Hclose. reflexivity.
    + rewrite Hclose. cbn [snd fs set_arch set_fs archive_path].
      rewrite lookup_insert_eq. unfold flushed.
      rewrite file_names_skip_self, has_text_skip_self, texts_skip_self.
      rewrite file_names_app, file_names_linked, has_text_app,
        has_text_linked, texts_app, texts_linked.
      cbn. rewrite !app_nil_r. reflexivity.
Qed.

End EndToEnd.

Lemma master_data_one_category_witness :
  ∃ s',
    (open;;; collect_master_data (B:=SampleProfile.int_ext);;;
     close (B:=SampleProfile.int_ext)) Sample.fresh = (Ok tt, s')
    ∧ fs s' !! Sample.target
      = Some (Tar [FileMember "/etc/hosts";
                   TextMember "2018.06.01-12.00.00-snapshot/None"
                     (list_byte_of_string
                        ("Grains" +:+ nl +:+ "------" +:+ nl +:+ nl
                         +:+ "os:" +:+ nl +:+ "    Linux" +:+ nl
                         +:+ nl +:+ nl +:+ nl))]).
Proof.
  refine (master_data_one_category (B:=SampleProfile.int_ext) false
            "system" "Grains" ("os:" +:+ nl +:+ "    Linux" +:+ nl)
            SampleProfile.grains SampleProfile.hosts
            (VStr "Action for linkfile") (VDict [("os", VStr "Linux")])
            (mkConf "grains.items" [] ∅ false)
            (mkConf "linkfile" [VStr "/etc/hosts"] ∅ true)
            SampleProfile.linkfile ["/etc/hosts"] Sample.fresh
            eq_refl eq_refl eq_refl eq_refl eq_refl eq_refl eq_refl eq_refl
            eq_refl eq_refl eq_refl _).
  intros p Hp. apply list_elem_of_singleton in Hp as ->. vm_compute. eauto.
Defined.

(** C1 as stated fails: with the external action first, the archive holds
    the linked file and no text member at all (and nothing whatsoever when
    the internal function is the stub); with the internal action first, the
    one text member is not named after the category. *)
Lemma master_data_text_member_counterexample :
  let ext_int :=
    (open;;; collect_master_data (B:=SampleProfile.ext_int);;;
     close (B:=SampleProfile.ext_int)) Sample.fresh in
  let ext_stub :=
    (open;;; collect_master_data (B:=SampleProfile.ext_stub);;;
     close (B:=SampleProfile.ext_stub)) Sample.fresh in
  let int_ext :=
    (open;;; collect_master_data (B:=SampleProfile.int_ext);;;
     close (B:=SampleProfile.int_ext)) Sample.fresh in
  ext_int.1 = Ok tt
  ∧ fs ext_int.2 !! Sample.target = Some (Tar [FileMember "/etc/hosts"])
  ∧ ext_stub.1 = Ok tt
  ∧ fs ext_stub.2 !! Sample.target = Some (Tar [])
  ∧ int_ext.1 = Ok tt
  ∧ ∃ data,
      fs int_ext.2 !! Sample.target
      = Some (Tar [FileMember "/etc/hosts";
                   TextMember "2018.06.01-12.00.00-snapshot/None" data]).
Proof. vm_compute. repeat split. eexists. reflexivity. Qed.

(* ------------------------------------------------------------------ *)
(** ** What the section calls never do *)

Section Monotone.
Context `{B : Backend}.

Lemma extends_intro (s s' : state) :
  fs s' = fs s →
  archive_path s' = archive_path s →
  default_root s' = default_root s →
  match arch s with
  | None => arch s' = None
  | Some ms => ∃ more, arch s' = Some (ms ++ more)
  end →
  extends s s'.
Proof.
  intros Hf Hp Hr Ha. unfold extends. rewrite Hf.
  split; [reflexivity|]. auto.
Qed.

Lemma extends_refl (s : state) : extends s s.
Proof.
  apply extends_intro; try reflexivity.
  destruct (arch s) as [ms|]; [|reflexivity].
  exists []. now rewrite app_nil_r.
Qed.

Lemma extends_trans (s1 s2 s3 : state) :
  extends s1 s2 → extends s2 s3 → extends s1 s3.
Proof.
  intros (Hf & Hp & Hr & Ha) (Hf' & Hp' & Hr' & Ha').
  unfold extends. rewrite Hp', Hr'.
  split.
  { intros q Hq. rewrite Hf' by (now rewrite Hp). now apply Hf. }
  split; [assumption|]. split; [assumption|].
  destruct (arch s1) as [ms|].
  - destruct Ha as [more Ha]. rewrite Ha in Ha'.
    destruct Ha' as [more' Ha']. exists (more ++ more').
    now rewrite Ha', app_assoc.
  - now rewrite Ha in Ha'.
Qed.

Lemma extends_section (c : option (list item)) (n : option string)
    (s : state) : extends s (set_section c n s).
Proof. apply (extends_refl s). Qed.

Lemma extends_out (o : list message) (s : state) : extends s (set_out o s).
Proof. apply (extends_refl s). Qed.

Lemma arch_add_extends (name : string) (s s' : state) (r : res unit) :
  arch_add name s = (r, s') → extends s s'.
Proof.
  unfold arch_add. run_monad.
  destruct (arch s) as [ms|] eqn:Ha.
  - destruct (String.eqb name (archive_path s)).
    + intros H. inversion H. apply extends_refl.
    + destruct (fs s !! name); intros H; inversion H; subst.
      * apply extends_intro; try reflexivity. rewrite Ha. cbn. eauto.
      * apply extends_refl.
  - intros H. inversion H. apply extends_refl.
Qed.

Lemma arch_addfile_extends (name : string) (data : list Byte.byte)
    (s s' : state) (r : res unit) :
  arch_addfile name data s = (r, s') → extends s s'.
Proof.
  unfold arch_addfile. run_monad.
  destruct (arch s) as [ms|] eqn:Ha; intros H; inversion H; subst.
  - apply extends_intro; try reflexivity. rewrite Ha. cbn. eauto.
  - apply extends_refl.
Qed.

Lemma flush_items_extends (items : list item) (buff : list Byte.byte)
    (dirty : bool) (s s' : state) (r : res (list Byte.byte * bool)) :
  flush_items items buff dirty s = (r, s') → extends s s'.
Proof.
  revert buff dirty s.
  induction items as [|[title [body|name]] items IH]; intros buff dirty s H.
  - inversion H. apply extends_refl.
  - eapply IH. exact H.
  - cbn [flush_items] in H. erewrite bind_ok in H by reflexivity.
    unfold bind in H.
    destruct (arch_add name _) as [[[]|e] s1] eqn:Hadd.
    + apply (extends_trans _ s1); [|eapply IH; exact H].
      apply (extends_trans _ _ _ (extends_out (out s ++ [Put name 4]) s)).
      eapply arch_add_extends; exact Hadd.
    + inversion H; subst.
      apply (extends_trans _ _ _ (extends_out (out s ++ [Put name 4]) s)).
      eapply arch_add_extends; exact Hadd.
Qed.

Lemma flush_content_extends (s s' : state) (r : res unit) :
  _flush_content s = (r, s') → extends s s'.
Proof.
  unfold _flush_content. erewrite bind_ok by reflexivity.
  destruct (current_section s) as [items|].
  - unfold bind.
    destruct (flush_items items [] false s) as [[[buff dirty]|e] s1] eqn:Hf.
    + apply flush_items_extends in Hf. cbn [snd fst].
      destruct dirty; intros H.
      * apply (extends_trans _ s1); [exact Hf|].
        eapply arch_addfile_extends; exact H.
      * inversion H; subst. exact Hf.
    + intros H. inversion H; subst. eapply flush_items_extends; exact Hf.
  - intros H. inversion H. apply extends_refl.
Qed.

Lemma section_append_extends (title : string) (c : content) (s s' : state)
    (r : res unit) :
  section_append title c s = (r, s') → extends s s'.
Proof.
  unfold section_append. run_monad.
  destruct (current_section s); intros H; inversion H;
    [apply extends_section | apply extends_refl].
Qed.

Lemma run_op_extends (o : op) (s s' : state) (r : res unit) :
  run_op o s = (r, s') → extends s s'.
Proof.
  destruct o as [name|title data|title path]; cbn [run_op].
  - unfold add. erewrite bind_ok by reflexivity. unfold bind.
    destruct (match current_section s with
              | Some (_ :: _) => _flush_content
              | _ => ret tt
              end s) as [[[]|e] s1] eqn:Hf.
    + intros H. inversion H; subst.
      apply (extends_trans _ s1); [|apply extends_section].
      destruct (current_section s) as [[|it items]|];
        try (inversion Hf; apply extends_refl).
      eapply flush_content_extends; exact Hf.
    + intros H. inversion H; subst.
      destruct (current_section s) as [[|it items]|]; try discriminate.
      eapply flush_content_extends; exact Hf.
  - unfold write. destruct (render_data data) as [body|e].
    + erewrite bind_ok by reflexivity. apply section_append_extends.
    + erewrite bind_raise by reflexivity. intros H. inversion H.
      apply extends_refl.
  - unfold link. unfold bind.
    destruct (match path with VFile n => ret n | _ => py_open path end s)
      as [[n|e] s1] eqn:Ho;
      pose proof (link_handle_keeps_state _ _ _ _ Ho) as ->.
    + apply section_append_extends.
    + intros H. inversion H. apply extends_refl.
Qed.

(** X1: whatever a sequence of [add], [write] and [link] calls does, and
    whether it returns or raises on the way, it neither opens nor closes
    the archive, keeps every member written so far in place (members are
    only appended), leaves the archive path and the root untouched, and
    changes no file other than the archive itself. *)
Theorem calls_only_append (ops : list op) (s : state) :
  extends s (for_each ops run_op s).2.
Proof.
  revert s. induction ops as [|o ops IH]; intros s.
  - apply extends_refl.
  - cbn [for_each]. unfold bind.
    destruct (run_op o s) as [[[]|e] s1] eqn:Hop;
      apply run_op_extends in Hop.
    + apply (extends_trans _ s1); [exact Hop | apply IH].
    + exact Hop.
Qed.

End Monotone.

(* ------------------------------------------------------------------ *)
(** ** The linked files of an archive *)

Section LinkedFiles.
Context `{B : Backend}.

Lemma file_members_app (xs ys : list member) :
  file_members (xs ++ ys) = file_members xs ++ file_members ys.
Proof. unfold file_members. apply omap_app. Qed.

Lemma file_members_files (names : list string) :
  file_members (FileMember <$> names) = names.
Proof. induction names as [|n names IH]; cbn; [reflexivity | now f_equal]. Qed.

Lemma file_members_flushed (root : string) (name : option string)
    (items : list item) :
  file_members (flushed root name items) = file_names items.
Proof.
  unfold flushed. rewrite file_members_app, file_members_files.
  destruct (has_text items); cbn; apply app_nil_r.
Qed.

Lemma flushed_nil (root : string) (name : option string) :
  flushed root name [] = [].
Proof. reflexivity. Qed.

Lemma archived_app (path : string) (xs ys : list string) :
  archived path (xs ++ ys) = archived path xs ++ archived path ys.
Proof. apply List.filter_app. Qed.

(** The members a returning [add] has appended. *)
Lemma add_members (name : string) (s s' : state) (ms : list member) :
  arch s = Some ms →
  add name s = (Ok tt, s') →
  arch s' = Some (ms ++ flushed (default_root s) (current_section_name s)
                                (skip_self (archive_path s)
                                           (default [] (current_section s))))
  ∧ current_section s' = Some []
  ∧ current_section_name s' = Some name
  ∧ archive_path s' = archive_path s
  ∧ default_root s' = default_root s.
Proof.
  intros Ha H. unfold add in H.
  erewrite bind_ok in H by reflexivity.
  destruct (current_section s) as [[|it items]|] eqn:Hc.
  - unfold discard_current in H. run_monad. inversion H; subst; cbn.
    rewrite app_nil_r. auto.
  - apply bind_inv_ok in H as ([] & s1 & Hflush & H).
    apply (flush_content_exact _ _ ms (it :: items) Ha Hc) in Hflush as ->.
    unfold discard_current in H. run_monad. inversion H; subst.
    repeat split; reflexivity.
  - unfold discard_current in H. run_monad. inversion H; subst; cbn.
    rewrite app_nil_r. auto.
Qed.

(** The archive a returning [close] has stored. *)
Lemma close_members (s s' : state) (ms : list member) :
  arch s = Some ms →
  close s = (Ok tt, s') →
  fs s' !! archive_path s
  = Some (Tar (ms ++ flushed (default_root s) (current_section_name s)
                             (skip_self (archive_path s)
                                        (default [] (current_section s))))).
Proof.
  intros Ha H. unfold close in H.
  erewrite bind_ok in H by reflexivity. rewrite Ha in H.
  apply bind_inv_ok in H as ([] & s1 & Hflush & H).
  destruct (current_section s) as [items|] eqn:Hc.
  - apply (flush_content_exact _ _ ms items Ha Hc) in Hflush as ->.
    unfold modify in H. inversion H; subst.
    cbn [fs set_fs set_arch set_out archive_path arch default from_option id].
    apply lookup_insert_eq.
  - rewrite (flush_content_no_section _ Hc) in Hflush.
    inversion Hflush; subst.
    unfold modify in H. inversion H; subst; cbn. rewrite Ha.
    rewrite app_nil_r. apply lookup_insert_eq.
Qed.

Lemma link_inv_name (title : string) (path : value) (s s' : state) :
  link title path s = (Ok tt, s') →
  ∃ items n,
    link_name path = Some n
    ∧ current_section s = Some items
    ∧ s' = set_section (Some (items ++ [(title, File n)]))
                       (current_section_name s) s.
Proof.
  unfold link. intros H.
  apply bind_inv_ok in H as (n & s1 & Hn & H).
  pose proof (link_handle_keeps_state _ _ _ _ Hn) as ->.
  apply section_append_inv in H as (items & Hc & ->).
  exists items, n. split; [|auto].
  destruct path; try discriminate.
  - unfold py_open in Hn. run_monad.
    destruct (fs s !! s0); inversion Hn. reflexivity.
  - inversion Hn. reflexivity.
Qed.

Lemma calls_then_close_files (ops : list op) (s s' : state)
    (ms : list member) :
  arch s = Some ms →
  (for_each ops run_op;;; close) s = (Ok tt, s') →
  ∃ final,
    fs s' !! archive_path s = Some (Tar final)
    ∧ file_members final
      = file_members ms
        ++ archived (archive_path s)
             (file_names (default [] (current_section s))
              ++ linked_names ops).
Proof.
  revert s ms. induction ops as [|o ops IH]; intros s ms Ha H.
  - cbn [for_each] in H. erewrite bind_ok in H by reflexivity.
    eexists. split; [apply (close_members _ _ _ Ha H)|].
    rewrite file_members_app, file_members_flushed, file_names_skip_self.
    cbn [linked_names omap]. now rewrite app_nil_r.
  - cbn [for_each] in H.
    apply bind_inv_ok in H as ([] & s2 & H1 & H).
    apply bind_inv_ok in H1 as ([] & s1 & Hop & H1).
    assert (Hrest : (for_each ops run_op;;; close) s1 = (Ok tt, s')).
    { erewrite bind_ok by exact H1. exact H. }
    destruct o as [name|title data|title path]; cbn [run_op] in Hop.
    + destruct (add_members _ _ _ _ Ha Hop) as (Ha' & Hc & _ & Hp & _).
      destruct (IH _ _ Ha' Hrest) as (final & Hfs & Hfiles).
      exists final. rewrite <- Hp. split; [exact Hfs|].
      rewrite Hfiles, Hc, file_members_app, file_members_flushed,
        file_names_skip_self, Hp.
      change (linked_names (Add name :: ops)) with (linked_names ops).
      change (file_names (default [] (Some []))) with (@nil string).
      cbn [app]. now rewrite archived_app, <- app_assoc.
    + apply write_inv in Hop as (items & body & _ & Hc & ->).
      eapply IH in Hrest as (final & Hfs & Hfiles); [|exact Ha].
      exists final. split; [exact Hfs|].
      rewrite Hfiles, Hc.
      cbn [current_section set_section archive_path default from_option id].
      change (linked_names (Write title data :: ops))
        with (linked_names ops).
      rewrite file_names_app. cbn [file_names omap snd].
      now rewrite app_nil_r.
    + apply link_inv_name in Hop as (items & n & Hn & Hc & ->).
      eapply IH in Hrest as (final & Hfs & Hfiles); [|exact Ha].
      exists final. split; [exact Hfs|].
      rewrite Hfiles, Hc.
      cbn [current_section set_section archive_path default from_option id].
      rewrite file_names_app.
      assert (Hl : linked_names (Link title path :: ops)
                   = n :: linked_names ops)
        by (unfold linked_names; cbn; now rewrite Hn).
      rewrite Hl. change (file_names [(title, File n)]) with [n].
      now rewrite <- app_assoc.
Qed.

(** X2: on a collector that has just been opened, after a sequence of
    [add], [write] and [link] calls that returns and a [close()] that
    returns, the physical files of the archive are exactly the files that
    were linked under a path other than the archive's own, once per [link]
    call and in the order of the calls; a link of the archive's own path
    leaves no member. *)
Theorem linked_files_archived_in_order (ops : list op) (s s' : state) :
  arch s = Some [] →
  current_section s = None →
  (for_each ops run_op;;; close) s = (Ok tt, s') →
  ∃ final,
    fs s' !! archive_path s = Some (Tar final)
    ∧ file_members final = archived (archive_path s) (linked_names ops).
Proof.
  intros Ha Hc H.
  destruct (calls_then_close_files _ _ _ _ Ha H) as (final & Hfs & Hfiles).
  exists final. split; [exact Hfs|]. rewrite Hfiles, Hc. reflexivity.
Qed.

End LinkedFiles.

(* ------------------------------------------------------------------ *)
(** ** Flushing without an archive, or without the file *)

Section FlushErrors.
Context `{B : Backend}.

Lemma has_text_no_files (it : item) (items : list item) :
  file_names (it :: items) = [] → has_text (it :: items) = true.
Proof. destruct it as [t [b|n]]; [reflexivity | discriminate]. Qed.

Lemma flush_items_closed (items : list item) (buff : list Byte.byte)
    (dirty : bool) (s : state) :
  arch s = None →
  ∃ r s',
    flush_items items buff dirty s = (r, s')
    ∧ arch s' = None ∧ fs s' = fs s
    ∧ current_section s' = current_section s
    ∧ current_section_name s' = current_section_name s
    ∧ match r with
      | Ok bd => bd.2 = dirty || has_text items ∧ file_names items = []
      | Raise e => ∃ msg, e = AttributeError msg
      end.
Proof.
  revert buff dirty.
  induction items as [|[title [body|name]] items IH]; intros buff dirty Ha.
  - eexists _, _. split; [reflexivity|]. cbn. rewrite orb_false_r. auto 10.
  - destruct (IH (buff ++ render_item title body) true Ha)
      as (r & s' & Hf & H1 & H2 & H3 & H4 & Hr).
    exists r, s'. split; [exact Hf|]. repeat (split; [assumption|]).
    destruct r as [bd|e]; [|exact Hr].
    destruct Hr as [Hd Hn]. cbn. rewrite orb_true_r. auto.
  - eexists (Raise _), _. split.
    + cbn [flush_items]. erewrite bind_ok by reflexivity.
      erewrite bind_raise; [reflexivity|].
      unfold arch_add. run_monad. cbn. rewrite Ha. reflexivity.
    + cbn. eauto 10.
Qed.

(** X3: a collector whose archive is not open takes [add] and [write]:
    with no section or an empty one, [add] returns and starts the section;
    with a section, [write] of a value that renders returns and appends its
    item.  The missing archive shows only at the next flush: with a
    non-empty current section, [add] raises [AttributeError], and the
    section, its name and the file system are as before (the new section
    was not started). *)
Theorem add_needs_open_archive (name : string) (s : state) :
  arch s = None →
  (∀ first,
     current_section s = None ∨ current_section s = Some [] →
     add first s = (Ok tt, set_section (Some []) (Some first) s))
  ∧ (∀ title data body items,
       current_section s = Some items →
       render_data data = Ok body →
       write title data s
       = (Ok tt, set_section (Some (items ++ [(title, Text body)]))
                             (current_section_name s) s))
  ∧ (∀ it items,
       current_section s = Some (it :: items) →
       ∃ msg s',
         add name s = (Raise (AttributeError msg), s')
         ∧ current_section s' = Some (it :: items)
         ∧ current_section_name s' = current_section_name s
         ∧ arch s' = None
         ∧ fs s' = fs s).
Proof.
  intros Ha.
  split; [intros first Hc; now apply add_fresh|].
  split; [intros title data body items Hc Hr; now apply write_ok|].
  intros it items Hc.
  destruct (flush_items_closed (it :: items) [] false s Ha)
    as (r & s1 & Hf & Ha1 & Hfs & Hc1 & Hn1 & Hr).
  unfold add. erewrite bind_ok by reflexivity. rewrite Hc.
  unfold _flush_content. 
  destruct r as [[buff dirty]|e].
  - destruct Hr as [Hd Hnf]. cbn [snd orb] in Hd.
    rewrite (has_text_no_files _ _ Hnf) in Hd. subst dirty.
    eexists _, s1. split.
    + erewrite bind_raise; [reflexivity|].
      erewrite bind_ok by reflexivity. rewrite Hc.
      erewrite bind_ok by exact Hf. cbn [snd fst].
      unfold arch_addfile. run_monad. rewrite Ha1. reflexivity.
    + rewrite Hc1, Hn1, Hc. auto.
  - destruct Hr as [msg ->]. exists msg, s1. split.
    + erewrite bind_raise; [reflexivity|].
      erewrite bind_ok by reflexivity. rewrite Hc.
      erewrite bind_raise by exact Hf. reflexivity.
    + rewrite Hc1, Hn1, Hc. auto.
Qed.

Lemma flush_items_app (xs ys : list item) (buff : list Byte.byte)
    (dirty : bool) (s : state) :
  flush_items (xs ++ ys) buff dirty s
  = (r <~ flush_items xs buff dirty;; flush_items ys r.1 r.2) s.
Proof.
  revert buff dirty s.
  induction xs as [|[title [body|name]] xs IH]; intros buff dirty s.
  - reflexivity.
  - cbn [app flush_items]. apply IH.
  - cbn [app flush_items]. unfold bind, emit, modify.
    destruct (arch_add name _) as [[[]|e] s2]; [|reflexivity].
    exact (IH buff dirty s2).
Qed.

(** X4: when a linked file, other than the archive itself, is gone by the
    time its section is flushed, [close()] raises [OSError]: the files of
    the items before it (the archive's own path excepted) are in the
    archive, nothing after it is, no text member is written for the
    section, the archive handle stays open, and no file other than the
    archive has changed. *)
Theorem close_stops_at_missing_file (s : state) (ms : list member)
    (pre post : list item) (title n : string) :
  arch s = Some ms →
  current_section s = Some (pre ++ (title, File n) :: post) →
  (∀ m, m ∈ file_names pre → is_Some (fs s !! m)) →
  fs s !! n = None →
  n ≠ archive_path s →
  ∃ msg s',
    close s = (Raise (OSError msg), s')
    ∧ arch s'
      = Some (ms ++ (FileMember
                     <$> archived (archive_path s) (file_names pre)))
    ∧ (∀ q, q ≠ archive_path s → fs s' !! q = fs s !! q)
    ∧ current_section s' = current_section s.
Proof.
  intros Ha Hc Hpre Hn Hne. apply String.eqb_neq in Hne.
  eexists _, _. split.
  - unfold close. erewrite bind_ok by reflexivity. rewrite Ha.
    erewrite bind_raise; [reflexivity|].
    unfold _flush_content. erewrite bind_ok by reflexivity. rewrite Hc.
    erewrite bind_raise; [reflexivity|].
    rewrite flush_items_app.
    erewrite bind_ok by (apply (flush_items_ok _ _ _ _ ms); assumption).
    cbn [flush_items fst snd].
    erewrite bind_ok by reflexivity.
    erewrite bind_raise; [reflexivity|].
    unfold arch_add. run_monad. cbn. rewrite Hne, Hn. reflexivity.
  - cbn. auto.
Qed.

End FlushErrors.

(* ------------------------------------------------------------------ *)
(** ** Rendering in [write] *)

Section Rendering.
Context `{B : Backend}.

Lemma json_roundtrip_plain (v : value) :
  json_roundtrip v = if plain v then Some v else None.
Proof.
  revert v. fix IH 1. intros [| | | |l|d|]; try reflexivity.
  - cbn [json_roundtrip plain].
    induction l as [|x l IHl]; [reflexivity|].
    rewrite (IH x). destruct (plain x); [|reflexivity]. cbn [andb].
    revert IHl.
    destruct ((fix go (l0 : list value) : option (list value) := _) l);
      destruct ((fix go (l0 : list value) : bool := _) l);
      cbn; intros E; inversion E; reflexivity.
  - cbn [json_roundtrip plain].
    induction d as [|[k x] d IHd]; [reflexivity|].
    rewrite (IH x). destruct (plain x); [|reflexivity]. cbn [andb].
    revert IHd.
    destruct ((fix go (d0 : list (string * value))
                 : option (list (string * value)) := _) d);
      destruct ((fix go (d0 : list (string * value)) : bool := _) d);
      cbn; intros E; inversion E; reflexivity.
Qed.

(** X5: with a section active, [write] of anything that is not a mapping
    (a string, a number, [None], a list, even an open file handle) returns:
    it appends exactly one text item, whose body is the table rendering of
    [{'raw-content': str(data)}] or, when the table outputter refuses, the
    YAML dump of that mapping; the archive is not touched. *)
Theorem write_scalar_returns (title : string) (data : value) (s : state)
    (items : list item) :
  is_dict data = false →
  current_section s = Some items →
  let raw := VDict [("raw-content", VStr (py_str data))] in
  write title data s
  = (Ok tt,
     set_section
       (Some (items ++ [(title,
                         Text match try_printout raw with
                              | Some c => c
                              | None => yaml_safe_dump raw
                              end)]))
       (current_section_name s) s).
Proof.
  intros Hd Hc raw. apply write_ok; [exact Hc|].
  unfold render_data. rewrite Hd. fold raw.
  destruct (try_printout raw); reflexivity.
Qed.

(** X6: [write] of a mapping the table outputter refuses.  If the mapping
    holds no file handle, the item's body is the YAML dump of the value
    under its ['return'] key when it has one, and of the whole mapping
    otherwise.  If a file handle sits anywhere inside, [write] raises
    [TypeError] and the section is left as it was. *)
Theorem write_mapping_fallback (title : string) (d : list (string * value))
    (s : state) (items : list item) :
  try_printout (VDict d) = None →
  current_section s = Some items →
  write title (VDict d) s
  = if plain (VDict d)
    then (Ok tt,
          set_section
            (Some (items
                   ++ [(title,
                        Text (yaml_safe_dump
                                (default (VDict d) (dict_get "return" d))))]))
            (current_section_name s) s)
    else (Raise (TypeError "is not JSON serializable"), s).
Proof.
  intros Hp Hc.
  assert (Hr : render_data (VDict d)
               = if plain (VDict d)
                 then Ok (yaml_safe_dump
                            (default (VDict d) (dict_get "return" d)))
                 else Raise (TypeError "is not JSON serializable")).
  { unfold render_data. cbn [is_dict]. rewrite Hp, json_roundtrip_plain.
    destruct (plain (VDict d)); reflexivity. }
  destruct (plain (VDict d)).
  - now apply write_ok.
  - unfold write. rewrite Hr. erewrite bind_raise by reflexivity.
    reflexivity.
Qed.

End Rendering.

(* ------------------------------------------------------------------ *)
(** ** Entries the resolver was not written for *)

Section ResolveEdges.
Context `{B : Backend}.

Lemma get_action_of_list (name : string) (m rest : list (string * value))
    (oargs : option (list value)) :
  dict_get "args" m = VList <$> oargs →
  _get_action (VDict ((name, VDict m) :: rest))
  = Ok (default (VStr ("Action for " +:+ name)) (dict_get "info" m),
        mkConf name
               (List.filter (λ a, negb (is_dict a)) (default [] oargs))
               (foldl merge_kw ∅ (default [] oargs))
               (is_internal name)).
Proof.
  intros Hargs.
  assert (Hit : iter_value
                  match dict_get "args" m with
                  | Some v => if truthy v then v else VList []
                  | None => VList []
                  end = Ok (default [] oargs)).
  { rewrite Hargs. destruct oargs as [[|a l]|]; reflexivity. }
  unfold _get_action. rewrite Hit, get_action_args_spec. reflexivity.
Qed.

Lemma filter_strings (l : list string) :
  List.filter (λ a, negb (is_dict a)) (VStr <$> l) = VStr <$> l.
Proof. induction l as [|x l IH]; cbn; [reflexivity | now f_equal]. Qed.

Lemma merge_kw_strings (l : list string) (kw : gmap string value) :
  foldl merge_kw kw (VStr <$> l) = kw.
Proof. induction l as [|x l IH]; cbn; [reflexivity | exact IH]. Qed.

Lemma get_action_of_strings (name : string) (m rest : list (string * value))
    (v : value) (l : list string) :
  dict_get "args" m = Some v →
  truthy v = true →
  iter_value v = Ok (VStr <$> l) →
  _get_action (VDict ((name, VDict m) :: rest))
  = Ok (default (VStr ("Action for " +:+ name)) (dict_get "info" m),
        mkConf name (VStr <$> l) ∅ (is_internal name)).
Proof.
  intros Hargs Ht Hit. unfold _get_action. rewrite Hargs, Ht, Hit.
  rewrite get_action_args_spec. cbn [fst snd app].
  rewrite filter_strings, merge_kw_strings. reflexivity.
Qed.

(** X7: an entry that is an empty mapping makes the resolver raise
    [IndexError]; an entry whose body is not a mapping (as in a profile
    line that gives only the action name) makes it raise [AttributeError].
    Either way [collect_action] raises before anything is called or
    printed: the state is as it was. *)
Theorem entry_without_mapping_raises (name : string) (v : value)
    (rest : list (string * value)) (s : state) :
  is_dict v = false →
  (∃ msg, _get_action (VDict ((name, v) :: rest)) = Raise (AttributeError msg)
          ∧ collect_action (VDict ((name, v) :: rest)) s
            = (Raise (AttributeError msg), s))
  ∧ _get_action (VDict []) = Raise (IndexError "list index out of range")
  ∧ collect_action (VDict []) s
    = (Raise (IndexError "list index out of range"), s).
Proof.
  intros Hv. split; [|split; reflexivity].
  exists "object has no attribute 'get'".
  assert (Hg : _get_action (VDict ((name, v) :: rest))
               = Raise (AttributeError "object has no attribute 'get'"))
    by (destruct v; try reflexivity; discriminate).
  split; [exact Hg|]. unfold collect_action. rewrite Hg. reflexivity.
Qed.

(** X8: [args] is iterated whatever it is.  A non-empty string given as
    [args] contributes its characters, one positional argument each; a
    non-empty mapping given as [args] contributes its keys as positional
    arguments and its values nowhere.  No keyword argument results. *)
Theorem args_string_or_mapping_is_iterated (name : string)
    (m rest : list (string * value)) (v : value) (l : list string) :
  dict_get "args" m = Some v →
  l ≠ [] →
  (∃ str, v = VStr str ∧ l = chars str)
  ∨ (∃ d, v = VDict d ∧ l = d.*1) →
  _get_action (VDict ((name, VDict m) :: rest))
  = Ok (default (VStr ("Action for " +:+ name)) (dict_get "info" m),
        mkConf name (VStr <$> l) ∅ (is_internal name)).
Proof.
  intros Hargs Hl Hv. apply (get_action_of_strings _ _ _ v); [exact Hargs | |].
  - destruct Hv as [(str & -> & ->)|(d & -> & ->)].
    + destruct str; [now destruct Hl | reflexivity].
    + destruct d; [now destruct Hl | reflexivity].
  - destruct Hv as [(str & -> & ->)|(d & -> & ->)]; cbn; [reflexivity|].
    f_equal. clear. induction d as [|[k x] d IH]; [reflexivity|].
    cbn. now f_equal.
Qed.

(** X9: a falsy [args] ([None], [0], [False], the empty string, list or
    mapping) stands for no arguments at all; a truthy number or [True]
    makes the resolver raise [TypeError]. *)
Theorem args_falsy_or_not_iterable (name : string)
    (m rest : list (string * value)) (v : value) :
  dict_get "args" m = Some v →
  (truthy v = false ∨ ∃ z b, v = VInt z ∨ v = VBool b) →
  _get_action (VDict ((name, VDict m) :: rest))
  = if truthy v
    then Raise (TypeError "object is not iterable")
    else Ok (default (VStr ("Action for " +:+ name)) (dict_get "info" m),
             mkConf name [] ∅ (is_internal name)).
Proof.
  intros Hargs Hv. unfold _get_action. rewrite Hargs.
  destruct (truthy v) eqn:Ht; [|reflexivity].
  destruct Hv as [|(z & b & [-> | ->])]; [discriminate | reflexivity..].
Qed.

Lemma dict_update_lookup (k : string) (v : value) (d : list (string * value))
    (kw : gmap string value) :
  NoDup d.*1 → dict_get k d = Some v → dict_update kw d !! k = Some v.
Proof.
  revert kw. induction d as [|[k' v'] d IH]; intros kw Hnd Hk; [discriminate|].
  cbn in Hk. apply NoDup_cons in Hnd as [Hnotin Hnd].
  change (dict_update (<[k' := v']> kw) d !! k = Some v).
  destruct (String.eqb k k') eqn:E.
  - apply String.eqb_eq in E as <-. inversion Hk; subst.
    rewrite dict_update_absent; [apply lookup_insert_eq|].
    clear -Hnotin. induction d as [|[k2 v2] d IH]; [reflexivity|].
    cbn. destruct (String.eqb k k2) eqn:E2.
    + apply String.eqb_eq in E2 as <-. exfalso. apply Hnotin. now left.
    + apply IH. intros H. apply Hnotin. now right.
  - now apply IH.
Qed.

(** X10: a mapping element of [args] with several keys hands over all of
    them: each key of the element is a keyword argument with the
    element's value, unless a later mapping element sets the same key. *)
Theorem mapping_element_sets_every_key (name k : string) (v : value)
    (m rest d : list (string * value)) (pre post : list value) :
  dict_get "args" m = Some (VList (pre ++ VDict d :: post)) →
  NoDup d.*1 →
  dict_get k d = Some v →
  (∀ d', VDict d' ∈ post → dict_get k d' = None) →
  ∃ info conf,
    _get_action (VDict ((name, VDict m) :: rest)) = Ok (info, conf)
    ∧ kwargs conf !! k = Some v.
Proof.
  intros Hargs Hnd Hk Hpost.
  eexists _, _. split.
  - apply (get_action_of_list _ _ _ (Some (pre ++ VDict d :: post))).
    exact Hargs.
  - cbn. rewrite foldl_app. cbn.
    rewrite merge_kw_absent by exact Hpost.
    now apply dict_update_lookup.
Qed.

(** X11: an external action (a name with a dot) whose [info] is given and
    is not a string stops the collection: [collect_action] raises
    [AttributeError] on [info.lower()], before the backend is called and
    before anything is printed or written. *)
Theorem external_info_must_be_string (name : string) (v : value)
    (m rest : list (string * value)) (oargs : option (list value))
    (s : state) :
  contains_char dot name = true →
  dict_get "info" m = Some v →
  (∀ t, v ≠ VStr t) →
  dict_get "args" m = VList <$> oargs →
  collect_action (VDict ((name, VDict m) :: rest)) s
  = (Raise (AttributeError "object has no attribute 'lower'"), s).
Proof.
  intros Hdot Hinfo Hv Hargs. unfold collect_action.
  rewrite (get_action_of_list _ _ _ _ Hargs), Hinfo.
  erewrite bind_ok by reflexivity. cbn [fst snd intfunc default from_option id].
  destruct (is_internal name) eqn:Hi.
  { apply is_internal_no_dot in Hi. congruence. }
  cbn [negb]. destruct v; try reflexivity. now destruct (Hv s0).
Qed.

(** X12: an internal action (a name without a dot) that the registry does
    not have does not stop the collection: the stub reports "Function
    <name> is not available" as an error on the console and
    [collect_action] returns.  As for every internal action, the current
    section has been replaced by an empty, unnamed one. *)
Theorem missing_internal_function_is_reported (name : string)
    (m rest : list (string * value)) (oargs : option (list value))
    (s : state) :
  contains_char dot name = false →
  intfunc_registry name = None →
  dict_get "args" m = VList <$> oargs →
  collect_action (VDict ((name, VDict m) :: rest)) s
  = (Ok tt,
     set_section (Some []) None
       (set_out (out s ++ [Error ("Function " +:+ name
                                  +:+ " is not available")]) s)).
Proof.
  intros Hdot Hreg Hargs. unfold collect_action.
  rewrite (get_action_of_list _ _ _ _ Hargs).
  erewrite bind_ok by reflexivity. cbn [fst snd intfunc].
  apply is_internal_no_dot in Hdot. rewrite Hdot. cbn [negb].
  erewrite bind_ok by apply discard_current_ok.
  unfold _internal_function_call. cbn [fun_]. rewrite Hreg.
  reflexivity.
Qed.

End ResolveEdges.

(* ------------------------------------------------------------------ *)
(** ** A profile of external actions *)

Section ExternalProfile.
Context `{B : Backend}.

Lemma state_same (s : state) (ms : list member) :
  arch s = Some ms →
  set_arch (Some (ms ++ [])) (set_out (out s ++ []) s) = s.
Proof.
  intros Ha. destruct s; cbn in *. subst. now rewrite !app_nil_r.
Qed.

Lemma local_call_ok (conf : call_conf) (s : state) :
  _local_call conf s
  = (Ok (local_value conf), set_out (out s ++ local_trace conf) s).
Proof.
  unfold _local_call, local_value, local_trace.
  destruct (caller_call conf); try reflexivity.
  unfold ret. f_equal. destruct s. cbn. now rewrite app_nil_r.
Qed.

(** [add] on an open archive, whatever the section it finds. *)
Lemma add_run (name : string) (s : state) (ms : list member) :
  arch s = Some ms →
  (∀ n, n ∈ file_names (default [] (current_section s))
        → n ≠ archive_path s → is_Some (fs s !! n)) →
  add name s
  = (Ok tt,
     set_section (Some []) (Some name)
       (set_arch (Some (ms ++ flushed (default_root s)
                                      (current_section_name s)
                                      (skip_self (archive_path s)
                                         (default [] (current_section s)))))
          (set_out (out s ++ flush_trace (default [] (current_section s)))
                   s))).
Proof.
  intros Ha Hf. unfold add. erewrite bind_ok by reflexivity.
  destruct (current_section s) as [[|it items]|] eqn:Hc.
  - erewrite bind_ok by reflexivity. cbn.
    rewrite (state_same _ _ Ha). reflexivity.
  - erewrite bind_ok
      by (apply (flush_content_run _ ms (it :: items)); assumption).
    reflexivity.
  - erewrite bind_ok by reflexivity. cbn.
    rewrite (state_same _ _ Ha). reflexivity.
Qed.

Lemma add_ok (name : string) (s : state) (ms : list member) :
  arch s = Some ms →
  (∀ n, n ∈ file_names (default [] (current_section s))
        → is_Some (fs s !! n)) →
  add name s
  = (Ok tt,
     set_section (Some []) (Some name)
       (set_arch (Some (ms ++ flushed (default_root s)
                                      (current_section_name s)
                                      (skip_self (archive_path s)
                                         (default [] (current_section s)))))
          (set_out (out s ++ flush_trace (default [] (current_section s)))
                   s))).
Proof. intros Ha Hf. apply add_run; auto. Qed.

(** [close] on an open archive, whatever the section it finds. *)
Lemma close_ok' (s : state) (ms : list member) :
  arch s = Some ms →
  (∀ n, n ∈ file_names (default [] (current_section s))
        → is_Some (fs s !! n)) →
  ∃ s',
    close s = (Ok tt, s')
    ∧ fs s' !! archive_path s
      = Some (Tar (ms ++ flushed (default_root s) (current_section_name s)
                                 (skip_self (archive_path s)
                                    (default [] (current_section s)))))
    ∧ arch s' = None.
Proof.
  intros Ha Hf. destruct (current_section s) as [items|] eqn:Hc.
  - eexists. split; [apply (close_ok _ ms items); assumption|].
    split; [apply lookup_insert_eq | reflexivity].
  - eexists. split.
    + unfold close. erewrite bind_ok by reflexivity. rewrite Ha.
      erewrite bind_ok by (now apply flush_content_no_section).
      reflexivity.
    + cbn. rewrite Ha, app_nil_r. split; [apply lookup_insert_eq|reflexivity].
Qed.

Lemma file_names_text_items (tbs : list (string * string)) :
  file_names (text_items tbs) = [].
Proof. induction tbs as [|tb tbs IH]; [reflexivity | exact IH]. Qed.

Lemma skip_self_no_files (path : string) (items : list item) :
  file_names items = [] → skip_self path items = items.
Proof.
  induction items as [|[t [b|n]] items IH]; [reflexivity | | discriminate].
  intros H. cbn. f_equal. now apply IH.
Qed.

Lemma skip_self_text_items (path : string) (tbs : list (string * string)) :
  skip_self path (text_items tbs) = text_items tbs.
Proof.
  induction tbs as [|tb tbs IH]; [reflexivity|]. cbn. now f_equal.
Qed.

Lemma external_action_ok (action : value) (tb : string * string)
    (s : state) (items : list item) :
  external_item action = Some tb →
  current_section s = Some items →
  collect_action action s
  = (Ok tt,
     set_section (Some (items ++ text_items [tb])) (current_section_name s)
       (set_out (out s ++ external_trace action) s)).
Proof.
  unfold external_item, external_trace, collect_action. intros He Hc.
  destruct (_get_action action) as [[info conf]|e]; [|discriminate].
  destruct info; try discriminate.
  destruct (intfunc conf) eqn:Hi; [discriminate|].
  destruct (render_data (local_value conf)) as [body|e] eqn:Hr;
    [|discriminate].
  inversion He; subst tb.
  erewrite bind_ok by reflexivity. cbn [fst snd]. rewrite Hi. cbn [negb].
  erewrite bind_ok by reflexivity.
  erewrite bind_ok by apply local_call_ok.
  rewrite (write_ok s0 (local_value conf) body _ items);
    [| exact Hc | exact Hr].
  cbn. rewrite <- app_assoc. reflexivity.
Qed.

Lemma external_actions_ok (actions : list value) (s : state)
    (items : list item) :
  Forall (λ a, is_Some (external_item a)) actions →
  current_section s = Some items →
  for_each actions collect_action s
  = (Ok tt,
     set_section (Some (items ++ text_items (omap external_item actions)))
       (current_section_name s)
       (set_out (out s ++ mjoin (external_trace <$> actions)) s)).
Proof.
  revert s items. induction actions as [|a actions IH]; intros s items Hall Hc.
  - cbn. unfold ret. f_equal. destruct s; cbn in *. subst.
    now rewrite !app_nil_r.
  - apply Forall_cons in Hall as [[tb Ha] Hall].
    cbn [for_each].
    erewrite bind_ok by (apply (external_action_ok a tb s items Ha Hc)).
    erewrite IH; [| exact Hall | reflexivity].
    cbn. rewrite Ha. cbn. rewrite <- !app_assoc. reflexivity.
Qed.

Lemma external_categories_ok (cats : list (string * list value)) (s : state)
    (ms : list member) (prev : list item) :
  arch s = Some ms →
  current_section s = Some prev →
  file_names prev = [] →
  (∀ cat, cat ∈ cats → Forall (λ a, is_Some (external_item a)) cat.2) →
  ∃ s',
    (for_each cats collect_category;;; close) s = (Ok tt, s')
    ∧ fs s' !! archive_path s
      = Some (Tar (ms ++ flushed (default_root s) (current_section_name s)
                                 prev
                      ++ mjoin (category_member (default_root s) <$> cats))).
Proof.
  revert s ms prev.
  induction cats as [|[cat actions] cats IH]; intros s ms prev Ha Hc Hp Hall.
  - cbn [for_each]. erewrite bind_ok by reflexivity.
    destruct (close_ok' s ms Ha) as (s' & Hclose & Hfs & _).
    { rewrite Hc. change (default [] (Some prev)) with prev.
      rewrite Hp. intros n Hn. inversion Hn. }
    exists s'. split; [exact Hclose|].
    rewrite Hfs, Hc. change (default [] (Some prev)) with prev.
    rewrite (skip_self_no_files _ _ Hp). cbn. now rewrite app_nil_r.
  - assert (Hacts : Forall (λ a, is_Some (external_item a)) actions)
      by (apply (Hall (cat, actions)); now left).
    set (s1 := set_section (Some []) (Some cat)
                 (set_arch (Some (ms ++ flushed (default_root s)
                                                (current_section_name s) prev))
                    (set_out ((out s ++ [Put cat 0]) ++ flush_trace prev) s))).
    assert (Hadd : (emit (Put cat 0);;; add cat) s = (Ok tt, s1)).
    { erewrite bind_ok by reflexivity.
      rewrite (add_ok cat _ ms); [| exact Ha |].
      - cbn [current_section set_out archive_path default_root
             current_section_name out].
        rewrite Hc. change (default [] (Some prev)) with prev.
        rewrite (skip_self_no_files _ _ Hp). reflexivity.
      - cbn [current_section set_out fs]. rewrite Hc.
        change (default [] (Some prev)) with prev.
        rewrite Hp. intros n Hn. inversion Hn. }
    pose proof (external_actions_ok actions s1 [] Hacts eq_refl) as Hrun.
    match type of Hrun with _ = (_, ?st) => set (s2 := st) in * end.
    destruct (IH s2 _ (text_items (omap external_item actions))
                 eq_refl eq_refl (file_names_text_items _)) as (s' & Hrest & Hfs).
    { intros c Hin. apply Hall. now right. }
    exists s'. split.
    + cbn [for_each]. apply bind_inv_ok in Hrest as ([] & s3 & Hfor & Hclose).
      erewrite bind_ok; [exact Hclose|].
      erewrite bind_ok; [exact Hfor|].
      unfold collect_category. cbn [fst snd].
      unfold bind in Hadd |- *. 
      destruct (emit (Put cat 0) s) as [[[]|e] s0]; [|discriminate].
      rewrite Hadd. exact Hrun.
    + change (archive_path s2) with (archive_path s) in Hfs.
      change (default_root s2) with (default_root s) in Hfs.
      change (current_section_name s2) with (Some cat) in Hfs.
      rewrite Hfs.
      change (mjoin (category_member (default_root s)
                     <$> (cat, actions) :: cats))
        with (category_member (default_root s) (cat, actions)
              ++ mjoin (category_member (default_root s) <$> cats)).
      unfold category_member at 2. cbn [fst snd].
      rewrite <- !app_assoc. reflexivity.
Qed.

(** X13: a profile all of whose actions are external, with a string
    [info] and a result that renders (the placeholder of a failed call
    always does).  On an open collector with no section yet,
    [collect_master_data()] and [close()] return, and they add to the
    archive one text member per category that has an action, named
    "<root>/<category>", in profile order, holding the items of the
    category's actions in action order; a category without actions adds
    nothing. *)
Theorem external_profile_one_member_per_category (s : state)
    (ms : list member) :
  arch s = Some ms →
  current_section s = None →
  (∀ cat, cat ∈ get_profile
          → Forall (λ a, is_Some (external_item a)) cat.2) →
  ∃ s',
    (collect_master_data;;; close) s = (Ok tt, s')
    ∧ fs s' !! archive_path s
      = Some (Tar (ms ++ mjoin (category_member (default_root s)
                                <$> get_profile))).
Proof.
  intros Ha Hc Hall. unfold collect_master_data.
  destruct (external_categories_ok get_profile
              (set_section (Some []) None s) ms [] Ha eq_refl eq_refl Hall)
    as (s' & Hrun & Hfs).
  destruct get_profile as [|[cat actions] cats] eqn:Hprof.
  - cbn [for_each]. erewrite bind_ok by reflexivity.
    destruct (close_ok' s ms Ha) as (s1 & Hclose & Hfs1 & _).
    { rewrite Hc. intros n Hn. inversion Hn. }
    exists s1. split; [exact Hclose|]. rewrite Hfs1, Hc. reflexivity.
  - exists s'. split; [|exact Hfs].
    rewrite <- Hrun. cbn [for_each]. unfold bind, collect_category. cbn [fst snd].
    unfold emit, modify, add, bind, get, discard_current. cbn. rewrite Hc.
    reflexivity.
Qed.

End ExternalProfile.

(* ------------------------------------------------------------------ *)
(** ** The built-in sections *)

Section BuiltIn.
Context `{B : Backend}.

Lemma collect_internal_data_ok (c : config) (s : state) (ms : list member)
    (b1 b2 b3 : string) :
  arch s = Some ms →
  (∀ n, n ∈ file_names (default [] (current_section s))
        → is_Some (fs s !! n)) →
  render_data (config_dict c) = Ok b1 →
  render_data (local_value pillar_items) = Ok b2 →
  render_data (local_value show_highstate) = Ok b3 →
  ∃ sf,
    collect_internal_data c s = (Ok tt, sf)
    ∧ arch sf
      = Some (ms ++ flushed (default_root s) (current_section_name s)
                            (skip_self (archive_path s)
                               (default [] (current_section s)))
                 ++ [TextMember (default_root s +:+ "/configuration")
                       (render_item "General Configuration" b1
                        ++ render_item "Active Pillars" b2)])
    ∧ current_section sf = Some [("Rendered highstate", Text b3)]
    ∧ current_section_name sf = Some "highstate"
    ∧ fs sf = fs s
    ∧ archive_path sf = archive_path s
    ∧ default_root sf = default_root s.
Proof.
  intros Ha Hf H1 H2 H3. eexists. split.
  - unfold collect_internal_data.
    erewrite bind_ok by reflexivity.
    erewrite bind_ok by (apply (add_ok _ _ ms); assumption).
    erewrite bind_ok by reflexivity.
    erewrite bind_ok by (apply (write_ok _ _ b1 _ []); [reflexivity | exact H1]).
    erewrite bind_ok by reflexivity.
    erewrite bind_ok.
    2:{ erewrite bind_ok by apply local_call_ok.
        apply (write_ok _ _ b2 _ [("General Configuration", Text b1)]);
          [reflexivity | exact H2]. }
    erewrite bind_ok by reflexivity.
    erewrite bind_ok.
    2:{ apply (add_ok _ _ (ms ++ flushed (default_root s)
                                         (current_section_name s)
                                         (skip_self (archive_path s)
                                            (default []
                                               (current_section s)))));
          [reflexivity|].
        intros n Hn. inversion Hn. }
    erewrite bind_ok by reflexivity.
    erewrite bind_ok by apply local_call_ok.
    apply (write_ok _ _ b3 _ []); [reflexivity | exact H3].
  - cbn. rewrite !app_nil_r, <- !app_assoc. repeat split.
Qed.

(** X14: on an open collector, [collect_internal_data()] followed by
    [close()] returns as soon as the configuration and the results of the
    two calls render (the placeholder of a failed call always does).  The
    section it finds is flushed first (its links to the archive itself
    are skipped); then come exactly two text members:
    "<root>/configuration" with the items "General Configuration" and
    "Active Pillars", in that order, and "<root>/highstate" with the item
    "Rendered highstate". *)
Theorem internal_data_two_members (c : config) (s : state)
    (ms : list member) (b1 b2 b3 : string) :
  arch s = Some ms →
  (∀ n, n ∈ file_names (default [] (current_section s))
        → is_Some (fs s !! n)) →
  render_data (config_dict c) = Ok b1 →
  render_data (local_value pillar_items) = Ok b2 →
  render_data (local_value show_highstate) = Ok b3 →
  ∃ s',
    (collect_internal_data c;;; close) s = (Ok tt, s')
    ∧ fs s' !! archive_path s
      = Some (Tar (ms ++ flushed (default_root s) (current_section_name s)
                                 (skip_self (archive_path s)
                                    (default [] (current_section s)))
                      ++ [TextMember (default_root s +:+ "/configuration")
                            (render_item "General Configuration" b1
                             ++ render_item "Active Pillars" b2);
                          TextMember (default_root s +:+ "/highstate")
                            (render_item "Rendered highstate" b3)])).
Proof.
  intros Ha Hf H1 H2 H3.
  destruct (collect_internal_data_ok c s ms b1 b2 b3 Ha Hf H1 H2 H3)
    as (sf & Hrun & Ha' & Hc' & Hn' & Hfs' & Hp' & Hr').
  destruct (close_ok' sf _ Ha') as (s' & Hclose & Hfs & _).
  { rewrite Hc'. intros n Hn. inversion Hn. }
  exists s'. split.
  - erewrite bind_ok by exact Hrun. exact Hclose.
  - rewrite Hp' in Hfs. rewrite Hfs, Hc', Hn', Hr'. cbn.
    rewrite app_nil_r, <- !app_assoc. reflexivity.
Qed.

End BuiltIn.

(* ------------------------------------------------------------------ *)
(** ** The run as a whole *)

Section Run.
Context `{B : Backend} `{P : OptionParser}.

Lemma collect_all_returns (c : config) (s : state) :
  ∃ code s',
    collect_all c s = (Ok code, s') ∧ (code = EX_OK ∨ code = EX_SOFTWARE).
Proof.
  unfold collect_all, try_catch.
  match goal with |- context [match ?m s with _ => _ end] =>
    destruct (m s) as [[code|e] s1] eqn:Hrun end.
  - exists code, s1. split; [reflexivity|]. left.
    do 7 (apply bind_inv_ok in Hrun as (? & ? & _ & Hrun)).
    inversion Hrun. reflexivity.
  - eexists _, _. split; [reflexivity|]. now right.
Qed.

Lemma highlight_enumerated_ok (idx : nat) (l : list string) (s : state) :
  highlight_enumerated idx l s
  = (Ok tt, set_out (out s ++ numbered_lines idx l) s).
Proof.
  revert idx s. induction l as [|x l IH]; intros idx s.
  - cbn. unfold ret. f_equal. destruct s; cbn. now rewrite app_nil_r.
  - cbn [highlight_enumerated numbered_lines].
    erewrite bind_ok by reflexivity. rewrite IH. cbn.
    rewrite <- app_assoc. reflexivity.
Qed.

Lemma check_existing_returns (c : config) (s : state) :
  ∃ ok s', _check_existing_archive_ c s = (Ok ok, s').
Proof.
  unfold _check_existing_archive_, unlink. run_monad.
  destruct (path_exists _ s); [|eauto].
  destruct (support_archive_force_overwrite c); eauto.
Qed.

Lemma collect_all_codes (c : config) (s s' : state) (code : Z) :
  collect_all c s = (Ok code, s') → code = EX_OK ∨ code = EX_SOFTWARE.
Proof.
  intros H. destruct (collect_all_returns c s) as (code' & s'' & H' & Hc).
  rewrite H in H'. inversion H'; subst. exact Hc.
Qed.

Lemma run_parsed_codes (c : config) (s s' : state) (code : Z) :
  run_parsed c s = (Ok code, s') →
  code = EX_OK ∨ code = EX_GENERIC ∨ code = EX_SOFTWARE.
Proof.
  unfold run_parsed. intros H.
  apply bind_inv_ok in H as ([] & s0 & _ & H).
  destruct (support_profile_list c).
  { do 2 (apply bind_inv_ok in H as ([] & ? & _ & H)).
    inversion H. now left. }
  destruct (support_show_units c).
  { do 2 (apply bind_inv_ok in H as ([] & ? & _ & H)).
    inversion H. now left. }
  apply bind_inv_ok in H as ([|] & s1 & _ & H).
  - unfold try_else in H.
    destruct (collector_init (support_archive c) s1) as [[[]|e] s2].
    + apply collect_all_codes in H as [->| ->]; auto.
    + apply bind_inv_ok in H as ([] & ? & _ & H). inversion H. auto.
  - inversion H. now left.
Qed.

Lemma cleanup_removes (c : config) (s : state) :
  ∃ s',
    _cleanup (Some c) s = (Ok tt, s')
    ∧ (support_archive c ≠ "" → fs s' !! support_archive c = None).
Proof.
  unfold _cleanup. erewrite bind_ok by reflexivity.
  destruct (String.eqb (support_archive c) "") eqn:E.
  - eexists. split; [reflexivity|]. intros Hne.
    apply String.eqb_eq in E. contradiction.
  - cbn [negb andb]. unfold path_exists.
    destruct (bool_decide (is_Some (fs s !! support_archive c))) eqn:Hex.
    + eexists. split; [reflexivity|]. intros _. cbn. apply lookup_delete_eq.
    + eexists. split; [reflexivity|]. intros _.
      apply bool_decide_eq_false in Hex.
      destruct (fs s !! support_archive c); [|reflexivity].
      exfalso. apply Hex. eauto.
Qed.

(** X15: a [run] that returns after the arguments parsed returns the
    success code, the generic-failure code (the collector could not be
    built) or the software-failure code (the collection raised).  And
    whenever [run] returns a code that is not zero and the configuration
    names an archive path, nothing is left at that path. *)
Theorem run_exit_code_and_cleanup (s s' : state) (code : Z) :
  run s = (Ok code, s') →
  (∀ c, parse_args = Parsed c →
        code = EX_OK ∨ code = EX_GENERIC ∨ code = EX_SOFTWARE)
  ∧ (∀ c, parsed_config parse_args = Some c →
          code ≠ 0%Z → support_archive c ≠ "" →
          fs s' !! support_archive c = None).
Proof.
  unfold run. intros H.
  apply bind_inv_ok in H as ([] & s0 & _ & H).
  apply bind_inv_ok in H as ([code' cfg] & s1 & Hfirst & H).
  apply bind_inv_ok in H as ([] & s2 & Hclean & H).
  cbn [fst snd] in Hclean, H. inversion H; subst code' s2.
  assert (Hcfg : cfg = parsed_config parse_args
                 ∧ ∀ c, parse_args = Parsed c →
                        code = EX_OK ∨ code = EX_GENERIC
                        ∨ code = EX_SOFTWARE).
  { destruct parse_args as [c|code' c|ex c]; cbn [parsed_config].
    - apply bind_inv_ok in Hfirst as (code' & s3 & Hrun & Hfirst).
      inversion Hfirst; subst. split; [reflexivity|].
      intros c' _. eapply run_parsed_codes; exact Hrun.
    - inversion Hfirst. split; [reflexivity | discriminate].
    - apply bind_inv_ok in Hfirst as ([] & s3 & _ & Hfirst).
      inversion Hfirst. split; [reflexivity | discriminate]. }
  destruct Hcfg as [-> Hcode]. split; [exact Hcode|].
  intros c Hc Hnz Hne. rewrite Hc in Hclean.
  destruct (Z.eqb code 0) eqn:Hz; [apply Z.eqb_eq in Hz; contradiction|].
  cbn [negb] in Hclean.
  destruct (cleanup_removes c s1) as (s2 & Hclean' & Hgone).
  rewrite Hclean in Hclean'. inversion Hclean'; subst s2. now apply Hgone.
Qed.

(** X16: when the console is there and [parse_args] raises an exception
    after the configuration was set, [run] prints the exception and returns
    the generic-failure code, and an archive that was already at the
    configured path is deleted, force flag or not; nothing else changes. *)
Theorem parse_error_deletes_archive (ex : exn) (c : config) (s : state) :
  messages_output s = Ok tt →
  parse_args = ParseError ex (Some c) →
  support_archive c ≠ "" →
  is_Some (fs s !! support_archive c) →
  run s
  = (Ok EX_GENERIC,
     set_fs (delete (support_archive c) (fs s))
       (set_out (out s ++ [Error (exn_msg ex);
                           Warning "Terminated earlier, cleaning up"]) s)).
Proof.
  intros Hm Hp Hne Hex. unfold run. rewrite Hp.
  erewrite bind_ok by (now apply new_console_ok).
  erewrite bind_ok by reflexivity. cbn [fst snd Z.eqb EX_GENERIC negb].
  unfold _cleanup.
  assert (Hn : String.eqb (support_archive c) "" = false)
    by (now apply String.eqb_neq).
  unfold bind, get, emit, modify, unlink, ret. cbn [fs set_out out].
  rewrite Hn. unfold path_exists. cbn [fs set_out negb andb].
  rewrite (bool_decide_eq_true_2 _ Hex). cbn. rewrite <- app_assoc.
  reflexivity.
Qed.

(** X17: in the listing modes, once the console is there and the log
    set-up has returned, [run] returns the success code and only prints: a
    heading, then one line per profile (or per unit), numbered from 1 in
    order.  No collector is built, the file system is not looked at after
    the log set-up, and the profile listing wins when both are asked
    for. *)
Theorem listing_only_prints (c : config) (s s1 : state) :
  messages_output s = Ok tt →
  parse_args = Parsed c →
  log_setup c s = (Ok tt, s1) →
  support_profile_list c || support_show_units c = true →
  run s
  = (Ok EX_OK,
     set_out
       (out s1
        ++ [Put (if support_profile_list c
                 then "List of available profiles:"
                 else "List of available units:") 0]
        ++ numbered_lines 0 (if support_profile_list c
                             then get_profiles
                             else find_existing_configs))
       s1).
Proof.
  intros Hm Hp Hlog Hmode. unfold run. rewrite Hp.
  erewrite bind_ok by (now apply new_console_ok).
  assert (Hrun : ∀ title l,
            (emit (Put title 0);;; highlight_enumerated 0 l;;; ret EX_OK) s1
            = (Ok EX_OK,
               set_out (out s1 ++ [Put title 0] ++ numbered_lines 0 l) s1)).
  { intros title l. erewrite bind_ok by reflexivity.
    erewrite bind_ok by apply highlight_enumerated_ok.
    cbn. rewrite <- app_assoc. reflexivity. }
  assert (Hparsed : run_parsed c s
            = (Ok EX_OK,
               set_out
                 (out s1
                  ++ [Put (if support_profile_list c
                           then "List of available profiles:"
                           else "List of available units:") 0]
                  ++ numbered_lines 0 (if support_profile_list c
                                       then get_profiles
                                       else find_existing_configs))
                 s1)).
  { unfold run_parsed. erewrite bind_ok by exact Hlog.
    destruct (support_profile_list c); cbv iota; [apply Hrun|].
    cbn in Hmode. rewrite Hmode. apply Hrun. }
  erewrite bind_ok by (erewrite bind_ok by exact Hparsed; reflexivity).
  reflexivity.
Qed.

Lemma check_existing_passes (c : config) (s : state) :
  fs s !! support_archive c = None
  ∨ support_archive_force_overwrite c = true →
  ∃ s1, _check_existing_archive_ c s = (Ok true, s1).
Proof.
  intros Hfree. unfold _check_existing_archive_, unlink. run_monad.
  destruct (path_exists (support_archive c) s) eqn:Hex; [|eauto].
  destruct Hfree as [Hnone | ->]; [|eauto].
  unfold path_exists in Hex. apply bool_decide_eq_true in Hex as [x Hx].
  congruence.
Qed.

(** X18: the pre-flight check lets the run go on exactly when the path is
    free or the force flag is set, and then nothing is at the archive
    path; it never touches another path. *)
Theorem check_existing_frees_path (c : config) (s : state) :
  ∃ ok s',
    _check_existing_archive_ c s = (Ok ok, s')
    ∧ ok = negb (path_exists (support_archive c) s)
           || support_archive_force_overwrite c
    ∧ (ok = true → fs s' !! support_archive c = None)
    ∧ (ok = false → fs s' = fs s)
    ∧ (∀ q, q ≠ support_archive c → fs s' !! q = fs s !! q).
Proof.
  unfold _check_existing_archive_, unlink. run_monad.
  unfold path_exists.
  destruct (bool_decide (is_Some (fs s !! support_archive c))) eqn:Hex.
  - destruct (support_archive_force_overwrite c).
    + eexists _, _. split; [reflexivity|]. split; [reflexivity|].
      cbn. split; [intros _; apply lookup_delete_eq|].
      split; [discriminate|]. intros q Hq. now apply lookup_delete_ne.
    + eexists _, _. split; [reflexivity|]. split; [reflexivity|].
      cbn. split; [discriminate|]. auto.
  - eexists _, _. split; [reflexivity|]. split; [reflexivity|].
    split; [|auto]. intros _.
    apply bool_decide_eq_false in Hex.
    destruct (fs s !! support_archive c); [|reflexivity].
    exfalso. apply Hex. eauto.
Qed.

(** X19: a whole run with an empty profile.  The arguments parsed, no
    listing is asked for, the archive path is free or the force flag is
    set, and the configuration and the results of the two built-in calls
    render.  Then [run] returns the success code, and the archive at the
    configured path holds exactly the two members "configuration" and
    "highstate" under the root of this run, whatever the collector and
    the path held before.  The console can be built, and the log set-up
    returns; the path is free after it, or the force flag is set. *)
Theorem run_empty_profile (c : config) (s s0 : state) (b1 b2 b3 : string) :
  (∀ st, messages_output st = Ok tt) →
  parse_args = Parsed c →
  log_setup c s = (Ok tt, s0) →
  support_profile_list c = false →
  support_show_units c = false →
  get_profile = [] →
  fs s0 !! support_archive c = None
  ∨ support_archive_force_overwrite c = true →
  render_data (config_dict c) = Ok b1 →
  render_data (local_value pillar_items) = Ok b2 →
  render_data (local_value show_highstate) = Ok b3 →
  ∃ s',
    run s = (Ok EX_OK, s')
    ∧ fs s' !! support_archive c
      = Some (Tar [TextMember (strftime_root +:+ "/configuration")
                     (render_item "General Configuration" b1
                      ++ render_item "Active Pillars" b2);
                   TextMember (strftime_root +:+ "/highstate")
                     (render_item "Rendered highstate" b3)]).
Proof.
  intros Hm Hp Hlog Hl Hu Hprof Hfree H1 H2 H3.
  destruct (check_existing_passes c s0 Hfree) as (s1 & Hcheck).
  set (s2 := mkState (support_archive c) None None None strftime_root
                     (out s1) (fs s1)).
  assert (Hinit : collector_init (support_archive c) s1 = (Ok tt, s2)).
  { unfold collector_init. erewrite bind_ok by reflexivity.
    apply new_console_ok, Hm. }
  set (s3 := (open s2).2).
  assert (Hopen : open s2 = (Ok tt, s3)) by reflexivity.
  destruct (collect_internal_data_ok c s3 [] b1 b2 b3 eq_refl)
    as (s5 & Hcid & Ha5 & Hc5 & Hn5 & _ & Hp5 & Hr5); try assumption.
  { intros n Hn. inversion Hn. }
  destruct (close_ok' s5 _ Ha5) as (s4 & Hclose & Hfs & _).
  { rewrite Hc5. intros n Hn. inversion Hn. }
  rewrite Hc5, Hn5, Hp5, Hr5 in Hfs.
  assert (Hall : collect_all c s2
                 = (Ok EX_OK,
                    set_out (out s4 ++ [Highlight
                      (nl +:+ "Support data has been written to " +:+ dq
                       +:+ "{}" +:+ dq +:+ " file." +:+ nl)
                      [archive_path s4]]) s4)).
  { unfold collect_all, try_catch.
    erewrite bind_ok by exact Hopen.
    unfold collect_master_data. rewrite Hprof. cbn [for_each].
    erewrite bind_ok by reflexivity.
    erewrite bind_ok by exact Hcid.
    unfold collect_targets_data.
    erewrite bind_ok by reflexivity.
    erewrite bind_ok by exact Hclose.
    reflexivity. }
  match type of Hall with _ = (_, ?st) => set (s6 := st) in * end.
  assert (Hparsed : run_parsed c s = (Ok EX_OK, s6)).
  { unfold run_parsed. erewrite bind_ok by exact Hlog. rewrite Hl, Hu.
    erewrite bind_ok by exact Hcheck. cbv iota.
    unfold try_else. rewrite Hinit. exact Hall. }
  eexists. split.
  - unfold run. rewrite Hp.
    erewrite bind_ok by (apply new_console_ok, Hm).
    erewrite bind_ok
      by (erewrite bind_ok by exact Hparsed; reflexivity).
    reflexivity.
  - etransitivity; [exact Hfs|]. do 2 f_equal.
    unfold flushed. cbn. now rewrite app_nil_r.
Qed.

End Run.

(* ------------------------------------------------------------------ *)
(** ** Names of the text members, and the console *)

Section Names.
Context `{B : Backend}.

Lemma text_names_app (xs ys : list member) :
  text_names (xs ++ ys) = text_names xs ++ text_names ys.
Proof. unfold text_names. apply omap_app. Qed.

Lemma text_names_flushed (root : string) (name : option string)
    (items : list item) :
  text_names (flushed root name items)
  = if has_text items then [root +:+ "/" +:+ format_opt name] else [].
Proof.
  unfold flushed. rewrite text_names_app.
  assert (H : text_names (FileMember <$> file_names items) = []).
  { induction (file_names items) as [|n l IH]; [reflexivity | exact IH]. }
  rewrite H. now destruct (has_text items).
Qed.

(** The state a returning [add] leaves. *)
Lemma add_exact (name : string) (s s' : state) (ms : list member) :
  arch s = Some ms →
  add name s = (Ok tt, s') →
  s' = set_section (Some []) (Some name)
         (set_arch (Some (ms ++ flushed (default_root s)
                                        (current_section_name s)
                                        (skip_self (archive_path s)
                                           (default []
                                              (current_section s)))))
            (set_out (out s ++ flush_trace (default [] (current_section s)))
                     s)).
Proof.
  intros Ha H.
  assert (Hf : ∀ n, n ∈ file_names (default [] (current_section s))
                    → n ≠ archive_path s → is_Some (fs s !! n)).
  { destruct (current_section s) as [[|it items]|] eqn:Hc;
      [intros n Hn; inversion Hn | | intros n Hn; inversion Hn].
    unfold add in H. erewrite bind_ok in H by reflexivity. rewrite Hc in H.
    apply bind_inv_ok in H as ([] & s1 & Hflush & _).
    eapply flush_content_inv; eauto. }
  rewrite (add_run _ _ _ Ha Hf) in H. now inversion H.
Qed.

(** What a returning [close] has stored and printed. *)
Lemma close_exact (s s' : state) (ms : list member) :
  arch s = Some ms →
  close s = (Ok tt, s') →
  fs s' !! archive_path s
  = Some (Tar (ms ++ flushed (default_root s) (current_section_name s)
                             (skip_self (archive_path s)
                                        (default [] (current_section s)))))
  ∧ out s' = out s ++ flush_trace (default [] (current_section s)).
Proof.
  intros Ha H. split; [now apply (close_members _ _ _ Ha)|].
  unfold close in H. erewrite bind_ok in H by reflexivity. rewrite Ha in H.
  apply bind_inv_ok in H as ([] & s1 & Hflush & H).
  unfold modify in H. inversion H; subst s'. cbn [out set_arch set_fs].
  destruct (current_section s) as [items|] eqn:Hc.
  - apply (flush_content_exact _ _ ms items Ha Hc) in Hflush as ->.
    reflexivity.
  - rewrite (flush_content_no_section _ Hc) in Hflush.
    inversion Hflush. cbn. now rewrite app_nil_r.
Qed.

Lemma flush_trace_app (xs ys : list item) :
  flush_trace (xs ++ ys) = flush_trace xs ++ flush_trace ys.
Proof. unfold flush_trace. now rewrite file_names_app, fmap_app. Qed.

Lemma calls_then_close_names (ops : list op) (s s' : state)
    (ms : list member) :
  arch s = Some ms →
  (for_each ops run_op;;; close) s = (Ok tt, s') →
  ∃ final,
    fs s' !! archive_path s = Some (Tar final)
    ∧ text_names final
      = text_names ms
        ++ ((λ n, default_root s +:+ "/" +:+ format_opt n)
            <$> named_sections ops (current_section_name s)
                  (has_text (default [] (current_section s))))
    ∧ out s'
      = out s ++ flush_trace (default [] (current_section s))
        ++ ((λ n, Put n 4) <$> linked_names ops).
Proof.
  revert s ms. induction ops as [|o ops IH]; intros s ms Ha H.
  - cbn [for_each] in H. erewrite bind_ok in H by reflexivity.
    destruct (close_exact _ _ _ Ha H) as [Hfs Hout].
    eexists. split; [exact Hfs|]. split.
    + rewrite text_names_app, text_names_flushed, has_text_skip_self. cbn.
      now destruct (has_text _).
    + rewrite Hout. cbn. now rewrite app_nil_r.
  - cbn [for_each] in H.
    apply bind_inv_ok in H as ([] & s2 & H1 & H).
    apply bind_inv_ok in H1 as ([] & s1 & Hop & H1).
    assert (Hrest : (for_each ops run_op;;; close) s1 = (Ok tt, s')).
    { erewrite bind_ok by exact H1. exact H. }
    destruct o as [name|title data|title path]; cbn [run_op] in Hop.
    + apply (add_exact _ _ _ ms Ha) in Hop. subst s1.
      eapply IH in Hrest as (final & Hfs & Hnames & Hout); [|reflexivity].
      exists final. split; [exact Hfs|]. split.
      * rewrite Hnames, text_names_app, text_names_flushed,
          has_text_skip_self.
        set (h := has_text (default [] (current_section s))).
        cbn. rewrite fmap_app, <- app_assoc.
        destruct h; reflexivity.
      * rewrite Hout. cbn. now rewrite <- app_assoc.
    + apply write_inv in Hop as (items & body & _ & Hc & ->).
      eapply IH in Hrest as (final & Hfs & Hnames & Hout); [|exact Ha].
      exists final. split; [exact Hfs|]. split.
      * rewrite Hnames. cbn. rewrite has_text_app. cbn.
        now rewrite orb_true_r.
      * rewrite Hout, Hc.
        cbn [current_section set_section out from_option id].
        rewrite flush_trace_app. cbn. now rewrite app_nil_r.
    + apply link_inv_name in Hop as (items & n & Hn & Hc & ->).
      eapply IH in Hrest as (final & Hfs & Hnames & Hout); [|exact Ha].
      exists final. split; [exact Hfs|]. split.
      * rewrite Hnames, Hc. cbn. rewrite has_text_app. cbn.
        now rewrite orb_false_r.
      * rewrite Hout, Hc.
        cbn [current_section set_section out from_option id linked_names omap
             list_omap].
        rewrite flush_trace_app, Hn. cbn. now rewrite <- app_assoc.
Qed.

(** X20: on a collector that has just been opened, after a sequence of
    [add], [write] and [link] calls that returns and a [close()] that
    returns, the text members of the archive are named "<root>/<section>"
    after the sections that received a [write], one each and in the order
    in which the sections were begun, the same name twice when two such
    sections share it. *)
Theorem text_members_named_after_sections (ops : list op) (s s' : state) :
  arch s = Some [] →
  current_section s = None →
  current_section_name s = None →
  (for_each ops run_op;;; close) s = (Ok tt, s') →
  ∃ final,
    fs s' !! archive_path s = Some (Tar final)
    ∧ text_names final
      = (λ n, default_root s +:+ "/" +:+ format_opt n)
        <$> named_sections ops None false.
Proof.
  intros Ha Hc Hn H.
  destruct (calls_then_close_names _ _ _ _ Ha H) as (final & Hfs & Hnames & _).
  exists final. split; [exact Hfs|]. rewrite Hnames, Hc, Hn. reflexivity.
Qed.

Lemma section_append_silent (title : string) (c : content) (s : state) :
  out (section_append title c s).2 = out s.
Proof.
  unfold section_append. run_monad.
  destruct (current_section s); reflexivity.
Qed.

Lemma write_silent (title : string) (data : value) (s : state) :
  out (write title data s).2 = out s.
Proof.
  unfold write. destruct (render_data data) as [body|e].
  - erewrite bind_ok by reflexivity. apply section_append_silent.
  - erewrite bind_raise by reflexivity. reflexivity.
Qed.

Lemma link_silent (title : string) (path : value) (s : state) :
  out (link title path s).2 = out s.
Proof.
  unfold link. unfold bind.
  destruct (match path with VFile n => ret n | _ => py_open path end s)
    as [[n|e] s1] eqn:Ho;
    pose proof (link_handle_keeps_state _ _ _ _ Ho) as ->.
  - apply section_append_silent.
  - reflexivity.
Qed.

(** X21: the same calls print nothing but one line per linked file, its
    path indented by four, in the order of the [link] calls.  [write] and
    [link] themselves are silent, whether they return or raise; the lines
    come with the flush: a returning [add] or [close()] on an open
    collector prints the lines of the files of the section it leaves, and
    nothing else. *)
Theorem console_lists_linked_files (ops : list op) (s s' : state) :
  arch s = Some [] →
  current_section s = None →
  (for_each ops run_op;;; close) s = (Ok tt, s') →
  out s' = out s ++ ((λ n, Put n 4) <$> linked_names ops)
  ∧ (∀ st title data, out (write title data st).2 = out st)
  ∧ (∀ st title path, out (link title path st).2 = out st)
  ∧ (∀ st st' ms name,
       arch st = Some ms →
       add name st = (Ok tt, st') →
       out st'
       = out st ++ ((λ n, Put n 4)
                    <$> file_names (default [] (current_section st))))
  ∧ (∀ st st' ms,
       arch st = Some ms →
       close st = (Ok tt, st') →
       out st'
       = out st ++ ((λ n, Put n 4)
                    <$> file_names (default [] (current_section st)))).
Proof.
  intros Ha Hc H.
  split.
  { destruct (calls_then_close_names _ _ _ _ Ha H)
      as (final & _ & _ & Hout).
    rewrite Hout, Hc. reflexivity. }
  split; [intros; apply write_silent|].
  split; [intros; apply link_silent|].
  split.
  - intros st st' ms name Hst Hadd.
    apply (add_exact _ _ _ ms Hst) in Hadd. subst st'. reflexivity.
  - intros st st' ms Hst Hclose.
    now destruct (close_exact _ _ _ Hst Hclose) as [_ Hout].
Qed.

End Names.

(* ------------------------------------------------------------------ *)
(** ** The properties above on the sample backend *)

Lemma linked_files_archived_in_order_witness :
  (∃ final,
     fs SampleMore.link_closed !! Sample.target = Some (Tar final)
     ∧ file_members final = ["/etc/hosts"; "/etc/salt/master"; "/etc/hosts"])
  ∧ (∃ final,
       fs SampleMore.self_link_closed !! Sample.target = Some (Tar final)
       ∧ file_members final = ["/etc/hosts"]).
Proof.
  split.
  - apply (linked_files_archived_in_order (B:=Sample.bare)
             SampleMore.link_calls Sample.opened SampleMore.link_closed);
      [reflexivity | reflexivity | vm_compute; reflexivity].
  - apply (linked_files_archived_in_order (B:=Sample.bare)
             SampleMore.self_link_calls Sample.opened
             SampleMore.self_link_closed);
      [reflexivity | reflexivity | vm_compute; reflexivity].
Defined.

Lemma add_needs_open_archive_witness :
  let note := "raw-content:" +:+ nl +:+ "    before open" +:+ nl in
  let started := set_section (Some []) (Some "early") Sample.fresh in
  arch Sample.fresh = None
  ∧ arch started = None
  ∧ arch SampleMore.early = None
  ∧ add (B:=Sample.bare) "early" Sample.fresh = (Ok tt, started)
  ∧ write (B:=Sample.bare) "Note" (VStr "before open") started
    = (Ok tt, SampleMore.early)
  ∧ ∃ msg s',
      add (B:=Sample.bare) "system" SampleMore.early
      = (Raise (AttributeError msg), s')
      ∧ current_section s' = Some [("Note", Text note)]
      ∧ current_section_name s' = Some "early"
      ∧ arch s' = None
      ∧ fs s' = fs SampleMore.early.
Proof.
  intros note started.
  split; [reflexivity|]. split; [reflexivity|]. split; [reflexivity|].
  destruct (add_needs_open_archive (B:=Sample.bare) "system" Sample.fresh
              eq_refl) as (Hadd & _ & _).
  destruct (add_needs_open_archive (B:=Sample.bare) "system" started
              eq_refl) as (_ & Hwrite & _).
  destruct (add_needs_open_archive (B:=Sample.bare) "system"
              SampleMore.early eq_refl) as (_ & _ & Hraise).
  split; [exact (Hadd "early" (or_introl eq_refl))|].
  split; [exact (Hwrite "Note" (VStr "before open") note [] eq_refl eq_refl)|].
  exact (Hraise ("Note", Text note) [] eq_refl).
Defined.

Lemma close_stops_at_missing_file_witness :
  fs SampleMore.dangling !! "/var/log/gone" = None
  ∧ "/var/log/gone" ≠ archive_path SampleMore.dangling
  ∧ ∃ msg s',
      close (B:=Sample.bare) SampleMore.dangling = (Raise (OSError msg), s')
      ∧ arch s' = Some [FileMember "/etc/hosts"]
      ∧ (∀ q, q ≠ archive_path SampleMore.dangling
              → fs s' !! q = fs SampleMore.dangling !! q)
      ∧ current_section s' = current_section SampleMore.dangling.
Proof.
  assert (Hne : "/var/log/gone" ≠ archive_path SampleMore.dangling)
    by (vm_compute; discriminate).
  assert (Hgone : fs SampleMore.dangling !! "/var/log/gone" = None)
    by (vm_compute; reflexivity).
  split; [exact Hgone|]. split; [exact Hne|].
  apply (close_stops_at_missing_file (B:=Sample.bare) SampleMore.dangling []
           [("hosts", File "/etc/hosts")]
           [("Kernel", Text ("raw-content:" +:+ nl +:+ "    4.15" +:+ nl))]
           "gone" "/var/log/gone");
    [reflexivity | reflexivity | | exact Hgone | exact Hne].
  intros m Hm. apply list_elem_of_singleton in Hm as ->. vm_compute. eauto.
Defined.

Lemma write_scalar_returns_witness :
  write (B:=Sample.bare) "hosts" (VFile "/etc/hosts") Sample.sectioned
  = (Ok tt,
     set_section
       (Some [("hosts",
               Text ("raw-content:" +:+ nl
                     +:+ "    <open file '/etc/hosts', mode 'r'>" +:+ nl))])
       (Some "files") Sample.sectioned).
Proof.
  apply (write_scalar_returns (B:=Sample.bare) "hosts" (VFile "/etc/hosts")
           Sample.sectioned []); reflexivity.
Defined.

Lemma write_mapping_fallback_witness :
  write (B:=Sample.bare) "Job" (VDict SampleMore.nested) Sample.sectioned
  = (Ok tt,
     set_section (Some [("Job", Text ("..." +:+ nl))]) (Some "files")
                 Sample.sectioned).
Proof.
  apply (write_mapping_fallback (B:=Sample.bare) "Job" SampleMore.nested
           Sample.sectioned []); reflexivity.
Defined.

Lemma entry_without_mapping_raises_witness :
  ∃ msg,
    _get_action (VDict [("grains.items", VNone)]) = Raise (AttributeError msg)
    ∧ collect_action (B:=Sample.bare) (VDict [("grains.items", VNone)])
        Sample.sectioned
      = (Raise (AttributeError msg), Sample.sectioned).
Proof.
  apply (entry_without_mapping_raises (B:=Sample.bare) "grains.items" VNone []
           Sample.sectioned eq_refl).
Defined.

Lemma args_string_or_mapping_is_iterated_witness :
  _get_action (VDict [("cmd.run", VDict [("args", VStr "ls")])])
  = Ok (VStr "Action for cmd.run",
        mkConf "cmd.run" [VStr "l"; VStr "s"] ∅ false).
Proof.
  apply (args_string_or_mapping_is_iterated "cmd.run"
           [("args", VStr "ls")] [] (VStr "ls") ["l"; "s"] eq_refl).
  - discriminate.
  - left. exists "ls". split; reflexivity.
Defined.

Lemma args_falsy_or_not_iterable_witness :
  _get_action (VDict [("cmd.run", VDict [("args", VInt 0)])])
  = Ok (VStr "Action for cmd.run", mkConf "cmd.run" [] ∅ false)
  ∧ _get_action (VDict [("cmd.run", VDict [("args", VInt 3)])])
    = Raise (TypeError "object is not iterable").
Proof.
  split.
  - apply (args_falsy_or_not_iterable "cmd.run" [("args", VInt 0)] []
             (VInt 0) eq_refl). now left.
  - apply (args_falsy_or_not_iterable "cmd.run" [("args", VInt 3)] []
             (VInt 3) eq_refl). right. exists 3%Z, true. now left.
Defined.

Lemma mapping_element_sets_every_key_witness :
  ∃ info conf,
    _get_action
      (VDict [("my_probe",
               VDict [("args",
                       VList [VDict [("depth", VInt 1)];
                              VDict [("path", VStr "/etc");
                                     ("depth", VInt 2)];
                              VStr "x"])])])
    = Ok (info, conf)
    ∧ kwargs conf !! "depth" = Some (VInt 2).
Proof.
  apply (mapping_element_sets_every_key "my_probe" "depth" (VInt 2)
           [("args", VList [VDict [("depth", VInt 1)];
                            VDict [("path", VStr "/etc"); ("depth", VInt 2)];
                            VStr "x"])]
           [] [("path", VStr "/etc"); ("depth", VInt 2)]
           [VDict [("depth", VInt 1)]] [VStr "x"] eq_refl).
  - repeat constructor; set_solver.
  - reflexivity.
  - intros d' Hd. apply list_elem_of_singleton in Hd. discriminate.
Defined.

Lemma external_info_must_be_string_witness :
  collect_action (B:=Sample.bare)
    (VDict [("grains.items", VDict SampleMore.numbered_info)])
    Sample.sectioned
  = (Raise (AttributeError "object has no attribute 'lower'"),
     Sample.sectioned).
Proof.
  apply (external_info_must_be_string (B:=Sample.bare) "grains.items"
           (VInt 42) SampleMore.numbered_info [] None Sample.sectioned);
    [reflexivity | reflexivity | discriminate | reflexivity].
Defined.

Lemma missing_internal_function_is_reported_witness :
  collect_action (B:=Sample.bare) (VDict [("nosuch", VDict SampleMore.no_args)])
    Sample.sectioned
  = (Ok tt,
     set_section (Some []) None
       (set_out [Error "Function nosuch is not available"] Sample.sectioned)).
Proof.
  apply (missing_internal_function_is_reported (B:=Sample.bare) "nosuch"
           SampleMore.no_args [] None Sample.sectioned); reflexivity.
Defined.

Lemma external_profile_one_member_per_category_witness :
  ∃ s' system net,
    (collect_master_data (B:=SampleMore.external_only);;;
     close (B:=SampleMore.external_only)) Sample.opened = (Ok tt, s')
    ∧ fs s' !! Sample.target
      = Some (Tar [TextMember "2018.06.01-12.00.00-snapshot/system" system;
                   TextMember "2018.06.01-12.00.00-snapshot/net" net]).
Proof.
  destruct (external_profile_one_member_per_category
              (B:=SampleMore.external_only) Sample.opened [] eq_refl eq_refl)
    as (s' & Hrun & Hfs).
  - intros cat Hin.
    repeat (apply elem_of_cons in Hin as [->|Hin]);
      [| | | inversion Hin];
      repeat constructor; vm_compute; eauto.
  - exists s'. eexists _, _. split; [exact Hrun|]. exact Hfs.
Defined.

Lemma internal_data_two_members_witness :
  ∃ s' configuration highstate,
    (collect_internal_data (B:=Sample.bare) (SampleCli.options false);;;
     close (B:=Sample.bare)) Sample.opened = (Ok tt, s')
    ∧ fs s' !! Sample.target
      = Some (Tar [TextMember "2018.06.01-12.00.00-snapshot/configuration"
                     configuration;
                   TextMember "2018.06.01-12.00.00-snapshot/highstate"
                     highstate]).
Proof.
  destruct (internal_data_two_members (B:=Sample.bare)
              (SampleCli.options false) Sample.opened []
              ("id:" +:+ nl +:+ "    master" +:+ nl
               +:+ "log_level:" +:+ nl +:+ "    warning" +:+ nl)
              ("raw-content:" +:+ nl
               +:+ "    Unhandled exception occurred: 'pillar.items' is not available."
               +:+ nl)
              ("raw-content:" +:+ nl
               +:+ "    Unhandled exception occurred: 'state.show_highstate' is not available."
               +:+ nl)
              eq_refl)
    as (s' & Hrun & Hfs); try reflexivity.
  - intros n Hn. inversion Hn.
  - exists s'. eexists _, _. split; [exact Hrun | exact Hfs].
Defined.

Lemma run_exit_code_and_cleanup_witness :
  let crashed :=
    run (B:=SampleMore.bodiless) (P:=SampleCli.parser false) Sample.world in
  let unbuilt :=
    run (B:=SampleMore.no_console) (P:=SampleCli.parser true)
        SampleCli.stale in
  crashed.1 = Ok EX_SOFTWARE
  ∧ fs crashed.2 !! Sample.target = None
  ∧ unbuilt.1 = Ok EX_GENERIC
  ∧ fs unbuilt.2 !! Sample.target = None.
Proof.
  intros crashed unbuilt.
  assert (H1 : run (B:=SampleMore.bodiless) (P:=SampleCli.parser false)
                 Sample.world = (Ok EX_SOFTWARE, crashed.2))
    by (vm_compute; reflexivity).
  assert (H2 : run (B:=SampleMore.no_console) (P:=SampleCli.parser true)
                 SampleCli.stale = (Ok EX_GENERIC, unbuilt.2))
    by (vm_compute; reflexivity).
  split; [exact (f_equal fst H1)|]. split.
  { destruct (run_exit_code_and_cleanup (B:=SampleMore.bodiless)
                (P:=SampleCli.parser false) _ _ _ H1) as [_ Hgone].
    apply (Hgone (SampleCli.options false) eq_refl); discriminate. }
  split; [exact (f_equal fst H2)|].
  destruct (run_exit_code_and_cleanup (B:=SampleMore.no_console)
              (P:=SampleCli.parser true) _ _ _ H2) as [_ Hgone].
  apply (Hgone (SampleCli.options true) eq_refl); discriminate.
Defined.

Lemma parse_error_deletes_archive_witness :
  run (B:=Sample.bare) (P:=SampleMore.failing_parser) SampleCli.stale
  = (Ok EX_GENERIC,
     set_fs (delete Sample.target (fs SampleCli.stale))
       (set_out [Error "no such option: --frobnicate";
                 Warning "Terminated earlier, cleaning up"] SampleCli.stale)).
Proof.
  apply (parse_error_deletes_archive (B:=Sample.bare)
           (P:=SampleMore.failing_parser)
           (OtherError "no such option: --frobnicate")
           (SampleCli.options false) SampleCli.stale eq_refl eq_refl).
  - discriminate.
  - vm_compute. eauto.
Defined.

Lemma listing_only_prints_witness :
  run (B:=Sample.bare) (P:=SampleMore.listing_parser) SampleCli.stale
  = (Ok EX_OK,
     set_out [Put "List of available profiles:" 0;
              Highlight "  1. {}" ["default"];
              Highlight "  2. {}" ["jobs-active"]] SampleCli.stale).
Proof.
  apply (listing_only_prints (B:=Sample.bare) (P:=SampleMore.listing_parser)
           SampleMore.listing_options SampleCli.stale SampleCli.stale
           eq_refl eq_refl eq_refl eq_refl).
Defined.

Lemma run_empty_profile_witness :
  ∃ s' configuration highstate,
    run (B:=Sample.bare) (P:=SampleCli.parser true) SampleCli.stale
    = (Ok EX_OK, s')
    ∧ fs s' !! Sample.target
      = Some (Tar [TextMember "2018.06.01-12.00.00-snapshot/configuration"
                     configuration;
                   TextMember "2018.06.01-12.00.00-snapshot/highstate"
                     highstate]).
Proof.
  destruct (run_empty_profile (B:=Sample.bare) (P:=SampleCli.parser true)
              (SampleCli.options true) SampleCli.stale SampleCli.logged
              ("id:" +:+ nl +:+ "    master" +:+ nl
               +:+ "log_level:" +:+ nl +:+ "    warning" +:+ nl)
              ("raw-content:" +:+ nl
               +:+ "    Unhandled exception occurred: 'pillar.items' is not available."
               +:+ nl)
              ("raw-content:" +:+ nl
               +:+ "    Unhandled exception occurred: 'state.show_highstate' is not available."
               +:+ nl)
              (λ _, eq_refl) eq_refl eq_refl eq_refl eq_refl eq_refl
              (or_intror eq_refl) eq_refl eq_refl eq_refl)
    as (s' & Hrun & Hfs).
  exists s'. eexists _, _. split; [exact Hrun | exact Hfs].
Defined.

Lemma text_members_named_after_sections_witness :
  ∃ final,
    fs SampleMore.link_closed !! Sample.target = Some (Tar final)
    ∧ text_names final = ["2018.06.01-12.00.00-snapshot/etc"].
Proof.
  apply (text_members_named_after_sections (B:=Sample.bare)
           SampleMore.link_calls Sample.opened SampleMore.link_closed);
    [reflexivity | reflexivity | reflexivity | vm_compute; reflexivity].
Defined.

Lemma console_lists_linked_files_witness :
  out SampleMore.link_closed
  = [Put "/etc/hosts" 4; Put "/etc/salt/master" 4; Put "/etc/hosts" 4]
  ∧ out (link "hosts" (VStr "/etc/hosts") Sample.sectioned).2
    = out Sample.sectioned
  ∧ out (write (B:=Sample.bare) "Kernel" (VStr "4.15") Sample.sectioned).2
    = out Sample.sectioned.
Proof.
  destruct (console_lists_linked_files (B:=Sample.bare)
              SampleMore.link_calls Sample.opened SampleMore.link_closed)
    as (Hout & Hwrite & Hlink & _);
    [reflexivity | reflexivity | vm_compute; reflexivity |].
  split; [exact Hout|]. split; [apply Hlink | apply Hwrite].
Defined.
